(** * Reconciliation engine and burst accounting of the supplier blocklist
      service: a shallow embedding of [app/services/conciliacion_service.py]
      and of the repositories and models it relies on.

    The database is a record of tables (lists of rows), the SQLAlchemy
    session is a pair of database states (the durable one and the view of
    the open transaction), Python dictionaries are [gmap]s and raised
    exceptions are a result type. *)

From Stdlib Require Import ZArith Ascii String.
From stdpp Require Import base option list gmap strings sorting pretty.

Local Open Scope string_scope.
Local Open Scope list_scope.

(** ** Python strings: [str.upper] and [str.strip]

    Characters are bytes; [upper] and [isspace] follow Python on the ASCII
    range, which is where RFC identifiers live. *)

Module PyStr.

Definition upper_char (c : ascii) : ascii :=
    let n := nat_of_ascii c in
    if (97 <=? n)%nat && (n <=? 122)%nat then ascii_of_nat (n - 32) else c.

Fixpoint upper (s : string) : string :=
    match s with
    | EmptyString => EmptyString
    | String c s' => String (upper_char c) (upper s')
    end.

  (** [str.isspace] for one ASCII character: TAB, LF, VT, FF, CR, the four
      separators FS, GS, RS, US and the blank. *)
Definition isspace (c : ascii) : bool :=
    let n := nat_of_ascii c in
    ((9 <=? n)%nat && (n <=? 13)%nat) || ((28 <=? n)%nat && (n <=? 32)%nat).

Fixpoint lstrip (s : string) : string :=
    match s with
    | EmptyString => EmptyString
    | String c s' => if isspace c then lstrip s' else s
    end.

Fixpoint rstrip (s : string) : string :=
    match s with
    | EmptyString => EmptyString
    | String c s' =>
        match rstrip s' with
        | EmptyString => if isspace c then EmptyString else String c EmptyString
        | r => String c r
        end
    end.

Definition strip (s : string) : string := rstrip (lstrip s).

Definition len (s : string) : nat := String.length s.

End PyStr.

(** [rfc.upper().strip()], the normalisation applied everywhere an RFC
    enters the service. *)
Definition normalizar (rfc : string) : string := PyStr.strip (PyStr.upper rfc).

(** [len(rfc) in [12, 13]] *)
Definition longitud_valida (rfc : string) : bool :=
  (PyStr.len rfc =? 12)%nat || (PyStr.len rfc =? 13)%nat.

(** ** Python floats: [int(n * 0.15)]

    A finite binary64 number is a significand and an exponent, and a product
    is the exact product rounded to 53 bits, ties to even; overflow and
    subnormals are out of reach of the integers handled here. *)

Module PyFloat.

Local Open Scope Z_scope.

  (** The value [m * 2^e]. *)
Record t := mk { m : Z; e : Z }.

  (** Round the dyadic number [n * 2^ex], with [0 <= n], to nearest-even. *)
Definition redondear_pos (n ex : Z) : t :=
    let k := Z.log2 n - 52 in
    if k <=? 0 then mk n ex
    else
      let q := n / 2 ^ k in
      let r := n mod 2 ^ k in
      let h := 2 ^ (k - 1) in
      let q' := if r <? h then q
                else if h <? r then q + 1
                else if Z.even q then q else q + 1 in
      mk q' (ex + k).

Definition redondear (n ex : Z) : t :=
    if n <? 0 then let x := redondear_pos (- n) ex in mk (- m x) (e x)
    else redondear_pos n ex.

  (** [float(n)] *)
Definition of_int (n : Z) : t := redondear n 0.

  (** [x * y] *)
Definition mul (x y : t) : t := redondear (m x * m y) (e x + e y).

  (** [int(x)]: truncation toward zero. *)
Definition to_int (x : t) : Z :=
    if 0 <=? e x then m x * 2 ^ e x else Z.quot (m x) (2 ^ (- e x)).

  (** The literal [0.15], that is 0x3FC3333333333333. *)
Definition c_0_15 : t := mk 5404319552844595 (-55).

End PyFloat.

(** [limite_rfcs + int(limite_rfcs * 0.15)] *)
Definition limite_burst (limite_rfcs : Z) : Z :=
  (limite_rfcs
   + PyFloat.to_int (PyFloat.mul (PyFloat.of_int limite_rfcs) PyFloat.c_0_15))%Z.

(** ** Exceptions and results *)

Inductive excepcion : Type :=
| ValueError (mensaje : string)
| TypeError (mensaje : string)
| SQLAlchemyError (mensaje : string)
| RuntimeError (mensaje : string).

(** [str(e)] *)
Definition str (e : excepcion) : string :=
  match e with
  | ValueError m | TypeError m | SQLAlchemyError m | RuntimeError m => m
  end.

Inductive salida (A : Type) : Type :=
| Retorna (a : A)
| Lanza (e : excepcion).
Arguments Retorna {A} a.
Arguments Lanza {A} e.

Definition retorno {A} (r : salida A) : option A :=
  match r with Retorna a => Some a | Lanza _ => None end.

(** ** The models of [app/models] *)

Definition UUID := nat.

Module Plan.
Record t := mk {
    limite_proveedores : option Z  (* NULL = ilimitado *)
  }.
End Plan.

Module Tenant.
Record t := mk {
    id : UUID;
    nombre_comercial : string;
    activo : bool;
    plan : option Plan.t  (* the [plan] relationship, already loaded *)
  }.
End Tenant.

Module TenantProveedor.
Record t := mk {
    id : UUID;
    tenant_id : UUID;
    rfc : string;
    razon_social : option string;
    activo : bool;
    grupo_id : option UUID;
    created_at : Z
  }.
End TenantProveedor.

Module Proveedor.
Record t := mk {
    rfc : string;
    situacion_contribuyente : string;
    fecha_lista : string  (* the date, as [strftime("%Y-%m-%d")] prints it *)
  }.
End Proveedor.

Module DOFContribuyente.
Record t := mk {
    dof_articulo_id : nat;
    rfc : string;
    situacion_contribuyente : string
  }.
End DOFContribuyente.

Module ConciliacionHistorial.
Record t := mk {
    id : UUID;
    tenant_id : UUID;
    fecha_conciliacion : Z;
    tipo_conciliacion : string;
    version_sat : string;
    rfcs_procesados : nat;
    coincidencias : nat;
    estado : string;
    duracion_ms : Z
  }.
End ConciliacionHistorial.

Module ConciliacionDetalle.
Record t := mk {
    conciliacion_id : UUID;
    rfc : string;
    estado : string
  }.
End ConciliacionDetalle.

#[global] Instance TenantProveedor_eq_dec : EqDecision TenantProveedor.t.
Proof. solve_decision. Defined.
#[global] Instance ConciliacionDetalle_eq_dec : EqDecision ConciliacionDetalle.t.
Proof. solve_decision. Defined.

(** ** The database and the SQLAlchemy session *)

Record BaseDatos := mkBaseDatos {
  tenants : list Tenant.t;
  tenant_proveedores : list TenantProveedor.t;
  proveedores : list Proveedor.t;
  dof_contribuyentes : list DOFContribuyente.t;
  conciliacion_historial : list ConciliacionHistorial.t;
  resultado_conciliaciones : list ConciliacionDetalle.t
}.

Definition con_tenant_proveedores (db : BaseDatos) (l : list TenantProveedor.t) : BaseDatos :=
  mkBaseDatos (tenants db) l (proveedores db) (dof_contribuyentes db)
              (conciliacion_historial db) (resultado_conciliaciones db).

Definition con_conciliacion_historial (db : BaseDatos) (l : list ConciliacionHistorial.t) : BaseDatos :=
  mkBaseDatos (tenants db) (tenant_proveedores db) (proveedores db) (dof_contribuyentes db)
              l (resultado_conciliaciones db).

Definition con_resultado_conciliaciones (db : BaseDatos) (l : list ConciliacionDetalle.t) : BaseDatos :=
  mkBaseDatos (tenants db) (tenant_proveedores db) (proveedores db) (dof_contribuyentes db)
              (conciliacion_historial db) l.

(** A session holds the durable state, the state as the open transaction
    sees it (flushed rows included), and the supply of [uuid.uuid4()]. *)
Record Session := mkSession {
  confirmado : BaseDatos;
  transaccion : BaseDatos;
  uuid4 : nat
}.

Definition commit (s : Session) : Session :=
  mkSession (transaccion s) (transaccion s) (uuid4 s).

Definition rollback (s : Session) : Session :=
  mkSession (confirmado s) (confirmado s) (uuid4 s).

Definition escribir (s : Session) (db : BaseDatos) : Session :=
  mkSession (confirmado s) db (uuid4 s).

Definition avanzar_uuid4 (s : Session) (n : nat) : Session :=
  mkSession (confirmado s) (transaccion s) (uuid4 s + n).

(** [{clave(x): valor(x) for x in l}]: a later entry replaces an earlier one. *)
Definition dict_de {A B} (clave : A → string) (valor : A → B) (l : list A) : gmap string B :=
  foldl (λ d x, <[clave x := valor x]> d) ∅ l.

(** Python truthiness of an optional string. *)
Definition verdadero (o : option string) : bool :=
  match o with
  | Some (String _ _) => true
  | _ => false
  end.

(** ** Queries shared by the service *)

(** [query(Tenant).filter(Tenant.id == tenant_id).first()] *)
Definition tenant_por_id (db : BaseDatos) (tenant_id : UUID) : option Tenant.t :=
  head (filter (λ t, Tenant.id t = tenant_id) (tenants db)).

Definition es_activo_de (tenant_id : UUID) (rel : TenantProveedor.t) : Prop :=
  TenantProveedor.tenant_id rel = tenant_id ∧ TenantProveedor.activo rel = true.

#[global] Instance es_activo_de_dec tenant_id rel : Decision (es_activo_de tenant_id rel).
Proof. unfold es_activo_de. apply _. Defined.

(** [query(TenantProveedor).filter(tenant_id == ..., activo == True).count()] *)
Definition contar_activos (db : BaseDatos) (tenant_id : UUID) : Z :=
  Z.of_nat (length (filter (es_activo_de tenant_id) (tenant_proveedores db))).

(** [ORDER BY created_at ASC] *)
Definition mas_viejo_primero (a b : TenantProveedor.t) : Prop :=
  (TenantProveedor.created_at a <= TenantProveedor.created_at b)%Z.

#[global] Instance mas_viejo_primero_dec : RelDecision mas_viejo_primero.
Proof. intros a b. unfold mas_viejo_primero. apply _. Defined.

(** [Query.limit(n)]: [None] applies no limit, and the database refuses a
    negative one. *)
Definition limit {A} (n : option Z) (filas : list A) : salida (list A) :=
  match n with
  | None => Retorna filas
  | Some k =>
      if (k <? 0)%Z then Lanza (SQLAlchemyError "LIMIT must not be negative")
      else Retorna (take (Z.to_nat k) filas)
  end.

(** ** [TenantProveedorRepository] *)

Definition clave_unica (rel : TenantProveedor.t) : UUID * string :=
  (TenantProveedor.tenant_id rel, TenantProveedor.rfc rel).

(** [UniqueConstraint('tenant_id', 'rfc')]: what the flush of new rows checks. *)
Definition respeta_unicidad (tabla nuevas : list TenantProveedor.t) : Prop :=
  NoDup (clave_unica <$> nuevas) ∧
  Forall (λ k, k ∉ (clave_unica <$> tabla)) (clave_unica <$> nuevas).

#[global] Instance respeta_unicidad_dec tabla nuevas : Decision (respeta_unicidad tabla nuevas).
Proof. unfold respeta_unicidad. apply _. Defined.

Definition get_by_tenant_and_rfc (session : Session) (tenant_id : UUID) (rfc : string)
  : option TenantProveedor.t :=
  let rfc_norm := normalizar rfc in
  head (filter (λ rel, TenantProveedor.tenant_id rel = tenant_id ∧
                       TenantProveedor.rfc rel = rfc_norm)
               (tenant_proveedores (transaccion session))).

Definition get_by_tenant_and_rfcs_batch (session : Session) (tenant_id : UUID)
    (rfcs : list string) : gmap string TenantProveedor.t :=
  match rfcs with
  | [] => ∅
  | _ =>
      let rfcs_norm := normalizar <$> rfcs in
      let relaciones :=
        filter (λ rel, TenantProveedor.tenant_id rel = tenant_id ∧
                       TenantProveedor.rfc rel ∈ rfcs_norm)
               (tenant_proveedores (transaccion session)) in
      dict_de TenantProveedor.rfc id relaciones
  end.

(** The dictionaries [{"rfc", "razon_social", "activo"}] the service hands to
    [create_relations_batch_with_status]. *)
Module Nuevo.
Record t := mk {
  rfc : string;
  razon_social : option string;
  activo : bool
}.
End Nuevo.

(** The objects built by the loop of [create_relations_batch_with_status];
    the n-th one receives the n-th fresh identifier at flush time. *)
Fixpoint construir_relaciones (ahora : Z) (tenant_id : UUID) (siguiente : nat)
    (proveedores : list Nuevo.t) : list TenantProveedor.t :=
  match proveedores with
  | [] => []
  | proveedor :: resto =>
      let rfc := normalizar (Nuevo.rfc proveedor) in
      let razon_social := Nuevo.razon_social proveedor in
      let activo := Nuevo.activo proveedor in
      TenantProveedor.mk siguiente tenant_id rfc
        (if verdadero razon_social then razon_social else None)
        activo None ahora
      :: construir_relaciones ahora tenant_id (S siguiente) resto
  end.

(** [session.add_all(relaciones); session.flush()], with the
    [SQLAlchemyError] branch: roll back and return the empty list. *)
Definition create_relations_batch_with_status (ahora : Z) (session : Session)
    (tenant_id : UUID) (proveedores : list Nuevo.t)
  : Session * list TenantProveedor.t :=
  let relaciones := construir_relaciones ahora tenant_id (uuid4 session) proveedores in
  let tabla := tenant_proveedores (transaccion session) in
  if decide (respeta_unicidad tabla relaciones) then
    (avanzar_uuid4
       (escribir session (con_tenant_proveedores (transaccion session) (tabla ++ relaciones)))
       (length relaciones),
     relaciones)
  else (rollback session, []).

(** ** [ConciliacionService.agregar_proveedores_batch] *)

(** One item of the request; [rfc = None] is an item without the key. *)
Module Entrada.
Record t := mk {
  rfc : option string;
  razon_social : option string
}.
End Entrada.

(** One entry of the returned list; [proveedor_id = None] stands for the
    empty string, [Some i] for [str(i)]. *)
Module Resultado.
Record t := mk {
  rfc : string;
  proveedor_id : option UUID;
  error : option string
}.
End Resultado.

(** First loop: the normalised RFCs of valid length, in input order, and the
    map from RFC to its [razon_social]. *)
Fixpoint extraer_rfcs (proveedores : list Entrada.t)
    (rfcs_norm : list string) (razon_social_map : gmap string string)
  : list string * gmap string string :=
  match proveedores with
  | [] => (rfcs_norm, razon_social_map)
  | proveedor :: resto =>
      let rfc := normalizar (default "" (Entrada.rfc proveedor)) in
      if longitud_valida rfc then
        extraer_rfcs resto (rfcs_norm ++ [rfc])
          (match Entrada.razon_social proveedor with
           | Some r => if verdadero (Some r) then <[rfc := r]> razon_social_map
                       else razon_social_map
           | None => razon_social_map
           end)
      else extraer_rfcs resto rfcs_norm razon_social_map
  end.

Definition mensaje_ya_existe (rfc : string) : string :=
  "El RFC " +:+ rfc +:+ " ya existe".

Definition mensaje_inactivo : string :=
  "RFC agregado como INACTIVO (límite de burst alcanzado)".

(** State of the second loop. *)
Record Separacion := mkSeparacion {
  proveedores_nuevos_activos : list Nuevo.t;
  proveedores_nuevos_inactivos : list Nuevo.t;
  resultados : list Resultado.t;
  total_activos : Z
}.

(** Second loop: existing RFCs are answered at once, new ones are split by
    the burst limit, the counter growing with each activation. *)
Fixpoint separar (rfcs_norm : list string)
    (relaciones_existentes : gmap string TenantProveedor.t)
    (razon_social_map : gmap string string) (limite_burst : Z)
    (st : Separacion) : Separacion :=
  match rfcs_norm with
  | [] => st
  | rfc :: resto =>
      separar resto relaciones_existentes razon_social_map limite_burst
        (match relaciones_existentes !! rfc with
         | Some rel =>
             mkSeparacion (proveedores_nuevos_activos st) (proveedores_nuevos_inactivos st)
               (resultados st ++
                  [Resultado.mk rfc (Some (TenantProveedor.id rel))
                                (Some (mensaje_ya_existe rfc))])
               (total_activos st)
         | None =>
             if (total_activos st <? limite_burst)%Z then
               mkSeparacion
                 (proveedores_nuevos_activos st ++
                    [Nuevo.mk rfc (razon_social_map !! rfc) true])
                 (proveedores_nuevos_inactivos st) (resultados st)
                 (total_activos st + 1)
             else
               mkSeparacion (proveedores_nuevos_activos st)
                 (proveedores_nuevos_inactivos st ++
                    [Nuevo.mk rfc (razon_social_map !! rfc) false])
                 (resultados st) (total_activos st)
         end)
  end.

(** The result entry of one newly created (or failed) relation. *)
Definition resultado_nuevo (relaciones_dict : gmap string TenantProveedor.t)
    (proveedor : Nuevo.t) : Resultado.t :=
  let rfc := Nuevo.rfc proveedor in
  match relaciones_dict !! rfc with
  | Some rel =>
      Resultado.mk rfc (Some (TenantProveedor.id rel))
        (if negb (Nuevo.activo proveedor) then Some mensaje_inactivo else None)
  | None => Resultado.mk rfc None (Some "Error creando relación")
  end.

(** The last step: one entry per RFC, in the order of [rfcs_norm]. *)
Definition ordenar_resultados (resultados : list Resultado.t) (rfcs_norm : list string)
  : list Resultado.t :=
  let resultados_dict := dict_de Resultado.rfc id resultados in
  (λ rfc, default (Resultado.mk rfc None (Some "RFC no procesado"))
                  (resultados_dict !! rfc)) <$> rfcs_norm.

Definition agregar_proveedores_batch (ahora : Z) (session : Session) (tenant_id : UUID)
    (proveedores : list Entrada.t) (limite_rfcs : Z)
  : Session * salida (list Resultado.t) :=
  let '(rfcs_norm, razon_social_map) := extraer_rfcs proveedores [] ∅ in
  match rfcs_norm with
  | [] => (session, Retorna [])
  | _ =>
      match tenant_por_id (transaccion session) tenant_id with
      | None => (session, Lanza (ValueError "Tenant no encontrado"))
      | Some _ =>
          let total_activos := contar_activos (transaccion session) tenant_id in
          let limite_burst := limite_burst limite_rfcs in
          let relaciones_existentes :=
            get_by_tenant_and_rfcs_batch session tenant_id rfcs_norm in
          let st :=
            separar rfcs_norm relaciones_existentes razon_social_map limite_burst
                    (mkSeparacion [] [] [] total_activos) in
          let proveedores_nuevos :=
            proveedores_nuevos_activos st ++ proveedores_nuevos_inactivos st in
          let '(session', resultados) :=
            match proveedores_nuevos with
            | [] => (session, resultados st)
            | _ =>
                let '(session', relaciones_creadas) :=
                  create_relations_batch_with_status ahora session tenant_id
                                                     proveedores_nuevos in
                let relaciones_dict := dict_de TenantProveedor.rfc id relaciones_creadas in
                (session',
                 resultados st ++ (resultado_nuevo relaciones_dict <$> proveedores_nuevos))
            end in
          (session', Retorna (ordenar_resultados resultados rfcs_norm))
      end
  end.

(** ** [ConciliacionService.realizar_conciliacion] *)

Definition NO_ENCONTRADO : string := "No encontrado".

(** What the reconciliations return. [porcentaje_exito], a rounded float, is
    left out; [proveedores_en_dof] and [proveedores_en_sat] are only present
    in the answer of the DOF variant. *)
Module Resumen.
Record t := mk {
  fecha_conciliacion : Z;
  tipo_conciliacion : string;
  version_sat : string;
  rfcs_procesados : nat;
  coincidencias : nat;
  estado : string;
  total_proveedores : nat;
  proveedores_encontrados : nat;
  proveedores_no_encontrados : nat;
  proveedores_en_dof : option nat;
  proveedores_en_sat : option nat;
  historial_id : UUID
}.
End Resumen.

(** [limite_rfcs = tenant.plan.limite_proveedores if tenant.plan else 0] *)
Definition limite_del_plan (tenant : Tenant.t) : option Z :=
  match Tenant.plan tenant with
  | Some plan => Plan.limite_proveedores plan
  | None => Some 0%Z
  end.

(** [_obtener_version_sat] *)
Definition _obtener_version_sat (db : BaseDatos) : string :=
  match proveedores db with
  | p :: _ => Proveedor.fecha_lista p
  | [] => "No disponible"
  end.

(** [tenant_proveedores LEFT OUTER JOIN proveedores ON rfc = rfc] *)
Definition outerjoin (tps : list TenantProveedor.t) (provs : list Proveedor.t)
  : list (TenantProveedor.t * option Proveedor.t) :=
  flat_map (λ tp,
              match filter (λ p, Proveedor.rfc p = TenantProveedor.rfc tp) provs with
              | [] => [(tp, None)]
              | ps => (λ p, (tp, Some p)) <$> ps
              end) tps.

Definition mas_viejo_primero_join (a b : TenantProveedor.t * option Proveedor.t) : Prop :=
  mas_viejo_primero a.1 b.1.

#[global] Instance mas_viejo_primero_join_dec : RelDecision mas_viejo_primero_join.
Proof. intros a b. unfold mas_viejo_primero_join. apply _. Defined.

(** The joined query of [realizar_conciliacion]: active rows of the tenant,
    oldest first, cut at the plan limit, projected on
    [(TenantProveedor.rfc, Proveedor.situacion_contribuyente)]. *)
Definition consulta_rfcs_y_sat (db : BaseDatos) (tenant_id : UUID) (limite_rfcs : option Z)
  : salida (list (string * option string)) :=
  match limit limite_rfcs
          (merge_sort mas_viejo_primero_join
             (filter (λ fila, es_activo_de tenant_id fila.1)
                     (outerjoin (tenant_proveedores db) (proveedores db)))) with
  | Lanza e => Lanza e
  | Retorna filas =>
      Retorna ((λ fila : TenantProveedor.t * option Proveedor.t,
                  (TenantProveedor.rfc fila.1,
                   Proveedor.situacion_contribuyente <$> fila.2)) <$> filas)
  end.

(** The loop that prepares the detail rows and counts the matches. *)
Fixpoint preparar_detalles (rfcs_tenant : list string) (sat_dict : gmap string string)
    (detalles_dict : list (string * string)) (proveedores_encontrados : nat)
  : list (string * string) * nat :=
  match rfcs_tenant with
  | [] => (detalles_dict, proveedores_encontrados)
  | rfc :: resto =>
      let estado := default NO_ENCONTRADO (sat_dict !! rfc) in
      preparar_detalles resto sat_dict (detalles_dict ++ [(rfc, estado)])
        (if decide (estado ≠ NO_ENCONTRADO) then S proveedores_encontrados
         else proveedores_encontrados)
  end.

(** [session.add(historial); session.flush()], then every prepared detail
    receives the id and is inserted in one batch; finally [duracion_ms] is
    patched on the history row. *)
Definition guardar_conciliacion (ahora duracion : Z) (session : Session) (tenant_id : UUID)
    (tipo_conciliacion version_sat : string) (total_proveedores proveedores_encontrados : nat)
    (detalles_dict : list (string * string)) : Session * UUID :=
  let historial_id := uuid4 session in
  let historial (duracion_ms : Z) :=
    ConciliacionHistorial.mk historial_id tenant_id ahora tipo_conciliacion version_sat
      total_proveedores proveedores_encontrados "completado" duracion_ms in
  let db := transaccion session in
  let db1 := con_conciliacion_historial db (conciliacion_historial db ++ [historial 0%Z]) in
  let detalles :=
    (λ d : string * string, ConciliacionDetalle.mk historial_id d.1 d.2) <$> detalles_dict in
  let db2 := con_resultado_conciliaciones db1 (resultado_conciliaciones db1 ++ detalles) in
  let db3 := con_conciliacion_historial db2 (conciliacion_historial db ++ [historial duracion]) in
  (avanzar_uuid4 (escribir session db3) 1, historial_id).

Definition realizar_conciliacion (ahora duracion : Z) (session : Session) (tenant_id : UUID)
    (tipo_conciliacion : string) : Session * salida Resumen.t :=
  match tenant_por_id (transaccion session) tenant_id with
  | None => (session, Lanza (ValueError "Tenant no encontrado"))
  | Some tenant =>
      let limite_rfcs := limite_del_plan tenant in
      match consulta_rfcs_y_sat (transaccion session) tenant_id limite_rfcs with
      | Lanza e => (session, Lanza e)
      | Retorna resultados =>
          let total_proveedores := length resultados in
          let rfcs_tenant := fst <$> resultados in
          let sat_dict :=
            dict_de fst (λ fila : string * option string,
                           if verdadero fila.2 then default "" fila.2 else NO_ENCONTRADO)
                    resultados in
          let version_sat := _obtener_version_sat (transaccion session) in
          let '(detalles_dict, proveedores_encontrados) :=
            preparar_detalles rfcs_tenant sat_dict [] 0 in
          let proveedores_no_encontrados := total_proveedores - proveedores_encontrados in
          let '(session', historial_id) :=
            guardar_conciliacion ahora duracion session tenant_id tipo_conciliacion
              version_sat total_proveedores proveedores_encontrados detalles_dict in
          (session',
           Retorna (Resumen.mk ahora tipo_conciliacion version_sat total_proveedores
                      proveedores_encontrados "completado" total_proveedores
                      proveedores_encontrados proveedores_no_encontrados None None
                      historial_id))
      end
  end.

(** ** [ConciliacionService.realizar_conciliacion_dof_proveedores] *)

(** The relations of the tenant that the run works on: active ones, oldest
    first, cut at the plan limit. *)
Definition consulta_rfcs_tenant (db : BaseDatos) (tenant_id : UUID) (limite_rfcs : option Z)
  : salida (list TenantProveedor.t) :=
  limit limite_rfcs
    (merge_sort mas_viejo_primero (filter (es_activo_de tenant_id) (tenant_proveedores db))).

(** State of the loop that combines both directories. *)
Record Combinacion := mkCombinacion {
  detalles_dict : list (string * string);
  proveedores_encontrados : nat;
  proveedores_en_dof : nat;
  proveedores_en_sat : nat
}.

Fixpoint combinar (rfcs_list : list string) (dof_dict proveedores_dict : gmap string string)
    (st : Combinacion) : Combinacion :=
  match rfcs_list with
  | [] => st
  | rfc :: resto =>
      combinar resto dof_dict proveedores_dict
        (match dof_dict !! rfc with
         | Some estado =>
             mkCombinacion (detalles_dict st ++ [(rfc, estado)])
               (S (proveedores_encontrados st)) (S (proveedores_en_dof st))
               (proveedores_en_sat st)
         | None =>
             match proveedores_dict !! rfc with
             | Some estado =>
                 mkCombinacion (detalles_dict st ++ [(rfc, estado)])
                   (S (proveedores_encontrados st)) (proveedores_en_dof st)
                   (S (proveedores_en_sat st))
             | None =>
                 mkCombinacion (detalles_dict st ++ [(rfc, NO_ENCONTRADO)])
                   (proveedores_encontrados st) (proveedores_en_dof st)
                   (proveedores_en_sat st)
             end
         end)
  end.

(** Step 1 of the DOF variant: the Gazette rows of the listed RFCs, as a
    dictionary. *)
Definition buscar_en_dof (db : BaseDatos) (rfcs_list : list string) : gmap string string :=
  dict_de DOFContribuyente.rfc DOFContribuyente.situacion_contribuyente
    (filter (λ d, DOFContribuyente.rfc d ∈ rfcs_list) (dof_contribuyentes db)).

(** Step 2: the SAT rows of the RFCs the Gazette does not have. *)
Definition buscar_en_proveedores (db : BaseDatos) (rfcs_no_en_dof : list string)
  : gmap string string :=
  match rfcs_no_en_dof with
  | [] => ∅
  | _ =>
      dict_de Proveedor.rfc Proveedor.situacion_contribuyente
        (filter (λ p, Proveedor.rfc p ∈ rfcs_no_en_dof) (proveedores db))
  end.

Definition realizar_conciliacion_dof_proveedores (ahora duracion : Z) (session : Session)
    (tenant_id : UUID) (tipo_conciliacion : string) : Session * salida Resumen.t :=
  match tenant_por_id (transaccion session) tenant_id with
  | None => (session, Lanza (ValueError "Tenant no encontrado"))
  | Some tenant =>
      let limite_rfcs := limite_del_plan tenant in
      match consulta_rfcs_tenant (transaccion session) tenant_id limite_rfcs with
      | Lanza e => (session, Lanza e)
      | Retorna rfcs_tenant =>
          let rfcs_list := TenantProveedor.rfc <$> rfcs_tenant in
          let total_proveedores := length rfcs_list in
          if decide (total_proveedores = 0) then
            (session, Lanza (ValueError "No hay proveedores para conciliar"))
          else
            let dof_dict := buscar_en_dof (transaccion session) rfcs_list in
            let rfcs_no_en_dof := filter (λ rfc, dof_dict !! rfc = None) rfcs_list in
            let proveedores_dict :=
              buscar_en_proveedores (transaccion session) rfcs_no_en_dof in
            let version_sat := _obtener_version_sat (transaccion session) in
            let st := combinar rfcs_list dof_dict proveedores_dict
                               (mkCombinacion [] 0 0 0) in
            let proveedores_no_encontrados :=
              total_proveedores - proveedores_encontrados st in
            let '(session', historial_id) :=
              guardar_conciliacion ahora duracion session tenant_id tipo_conciliacion
                version_sat total_proveedores (proveedores_encontrados st)
                (detalles_dict st) in
            (session',
             Retorna (Resumen.mk ahora tipo_conciliacion version_sat total_proveedores
                        (proveedores_encontrados st) "completado" total_proveedores
                        (proveedores_encontrados st) proveedores_no_encontrados
                        (Some (proveedores_en_dof st)) (Some (proveedores_en_sat st))
                        historial_id))
      end
  end.

(** ** [ConciliacionService.conciliar_rfcs_especificos] *)

(** [ConciliacionHistorialRepository.create_historial]: the row is added to
    the session; the flush that follows in the service gives it its id. *)
Definition create_historial (ahora : Z) (session : Session) (tenant_id : UUID)
    (tipo_conciliacion version_sat : string) (rfcs_procesados coincidencias : nat)
  : Session * ConciliacionHistorial.t :=
  let historial :=
    ConciliacionHistorial.mk (uuid4 session) tenant_id ahora tipo_conciliacion version_sat
      rfcs_procesados coincidencias "completado" 0%Z in
  let db := transaccion session in
  (avanzar_uuid4
     (escribir session (con_conciliacion_historial db (conciliacion_historial db ++ [historial])))
     1,
   historial).

(** [historial.duracion_ms = ...; session.flush()] *)
Definition fijar_duracion (session : Session) (historial_id : UUID) (duracion : Z) : Session :=
  let db := transaccion session in
  escribir session
    (con_conciliacion_historial db
       ((λ h, if decide (ConciliacionHistorial.id h = historial_id)
              then ConciliacionHistorial.mk
                     (ConciliacionHistorial.id h) (ConciliacionHistorial.tenant_id h)
                     (ConciliacionHistorial.fecha_conciliacion h)
                     (ConciliacionHistorial.tipo_conciliacion h)
                     (ConciliacionHistorial.version_sat h)
                     (ConciliacionHistorial.rfcs_procesados h)
                     (ConciliacionHistorial.coincidencias h)
                     (ConciliacionHistorial.estado h) duracion
              else h) <$> conciliacion_historial db)).

(** [ConciliacionDetalleRepository.create_bulk] *)
Definition create_bulk (session : Session) (detalles : list ConciliacionDetalle.t) : Session :=
  let db := transaccion session in
  escribir session (con_resultado_conciliaciones db (resultado_conciliaciones db ++ detalles)).

(** [sorted(set(rfc.upper().strip() for rfc in rfcs))] *)
Definition normalizar_lista (rfcs : list string) : list string :=
  merge_sort String.le (remove_dups (normalizar <$> rfcs)).

Definition conciliar_rfcs_especificos (ahora duracion : Z) (session : Session)
    (tenant_id : UUID) (rfcs : list string) (tipo_conciliacion : string)
  : Session * salida UUID :=
  let rfcs_norm := normalizar_lista rfcs in
  match rfcs_norm with
  | [] => (session, Lanza (ValueError "La lista de RFCs no puede estar vacía"))
  | _ =>
      let proveedores_sat :=
        filter (λ p, Proveedor.rfc p ∈ rfcs_norm) (proveedores (transaccion session)) in
      let sat_dict := dict_de Proveedor.rfc id proveedores_sat in
      let coincidencias := length proveedores_sat in
      let version_sat := _obtener_version_sat (transaccion session) in
      let '(session1, historial) :=
        create_historial ahora session tenant_id tipo_conciliacion version_sat
                         (length rfcs_norm) coincidencias in
      let session2 := fijar_duracion session1 (ConciliacionHistorial.id historial) duracion in
      let detalles_conciliacion :=
        (λ rfc,
           let estado :=
             match sat_dict !! rfc with
             | Some proveedor => Proveedor.situacion_contribuyente proveedor
             | None => NO_ENCONTRADO
             end in
           ConciliacionDetalle.mk (ConciliacionHistorial.id historial) rfc estado)
        <$> rfcs_norm in
      let session3 :=
        match detalles_conciliacion with
        | [] => session2
        | _ => create_bulk session2 detalles_conciliacion
        end in
      (session3, Retorna (ConciliacionHistorial.id historial))
  end.

(** ** The fleet runners

    [realizar_conciliacion_todos_tenants] and
    [realizar_conciliacion_dof_todos_tenants] are the same loop around two
    different per-tenant reconciliations. The loop is written once, over the
    reconciliation it calls and over the mail delivery, whose only visible
    effect on the loop is to return or to raise. *)

Module ItemFlota.
Record t := mk {
  tenant_id : UUID;
  fecha_conciliacion : Z;
  tipo_conciliacion : string;
  version_sat : option string;
  rfcs_procesados : nat;
  coincidencias : nat;
  estado : string;
  historial_id : option UUID
}.
End ItemFlota.

Module Flota.
Record t := mk {
  total_tenants : nat;
  total_procesados : nat;
  total_exitosos : nat;
  total_fallidos : nat;
  resultados : list ItemFlota.t
}.
End Flota.

(** [TenantRepository.get_active_tenants] *)
Definition get_active_tenants (session : Session) : list Tenant.t :=
  filter (λ t, Tenant.activo t = true) (tenants (transaccion session)).

Definition item_exitoso (tenant : Tenant.t) (resultado : Resumen.t) : ItemFlota.t :=
  ItemFlota.mk (Tenant.id tenant) (Resumen.fecha_conciliacion resultado)
    (Resumen.tipo_conciliacion resultado) (Some (Resumen.version_sat resultado))
    (Resumen.rfcs_procesados resultado) (Resumen.coincidencias resultado)
    (Resumen.estado resultado) (Some (Resumen.historial_id resultado)).

Definition item_fallido (ahora : Z) (tipo : string) (tenant : Tenant.t) (e : excepcion)
  : ItemFlota.t :=
  ItemFlota.mk (Tenant.id tenant) ahora tipo None 0 0 ("error: " +:+ str e) None.

Section Flota.

Context (conciliar : Session → UUID → string → Session * salida Resumen.t).
Context (_enviar_correo_conciliacion : Session → Tenant.t → Resumen.t → salida unit).
Context (ahora : Z) (tipo : string).

(** The state of the loop over the tenants. *)
Record Recorrido := mkRecorrido {
  sesion : Session;
  acumulados : list ItemFlota.t;
  exitosos : nat;
  fallidos : nat
}.

(** One iteration: the [try] block with its commit and its guarded mail, or
    the [except] block with its rollback and the synthetic entry. *)
Definition procesar_tenant (st : Recorrido) (tenant : Tenant.t) : Recorrido :=
  match conciliar (sesion st) (Tenant.id tenant) tipo with
  | (session1, Retorna resultado) =>
      let session2 := commit session1 in
      let _ :=
        match _enviar_correo_conciliacion session2 tenant resultado with
        | Retorna _ => tt
        | Lanza email_error => tt
        end in
      mkRecorrido session2 (acumulados st ++ [item_exitoso tenant resultado])
                  (S (exitosos st)) (fallidos st)
  | (session1, Lanza e) =>
      mkRecorrido (rollback session1) (acumulados st ++ [item_fallido ahora tipo tenant e])
                  (exitosos st) (S (fallidos st))
  end.

Definition conciliacion_todos_tenants (session : Session) : Session * salida Flota.t :=
  let tenants := get_active_tenants session in
  let total_tenants := length tenants in
  if decide (total_tenants = 0) then (session, Retorna (Flota.mk 0 0 0 0 []))
  else
    let st := foldl procesar_tenant (mkRecorrido session [] 0 0) tenants in
    (sesion st,
     Retorna (Flota.mk total_tenants (length (acumulados st)) (exitosos st) (fallidos st)
                       (acumulados st))).

End Flota.

Definition realizar_conciliacion_todos_tenants (ahora duracion : Z)
    (_enviar_correo_conciliacion : Session → Tenant.t → Resumen.t → salida unit)
    (session : Session) : Session * salida Flota.t :=
  conciliacion_todos_tenants (realizar_conciliacion ahora duracion)
    _enviar_correo_conciliacion ahora "Automatica" session.

Definition realizar_conciliacion_dof_todos_tenants (ahora duracion : Z)
    (_enviar_correo_conciliacion : Session → Tenant.t → Resumen.t → salida unit)
    (session : Session) : Session * salida Flota.t :=
  conciliacion_todos_tenants (realizar_conciliacion_dof_proveedores ahora duracion)
    _enviar_correo_conciliacion ahora "DOF + SAT" session.

(** ** [ConciliacionService.actualizar_estado_operativo_rfc] *)

(** The answer; the name of the group, read from a table that is not part of
    this development, is left out. *)
Module EstadoRFC.
Record t := mk {
  rfc : string;
  activo : bool;
  mensaje : string
}.
End EstadoRFC.

Definition MENSAJE_BURST : string :=
  "No se puede activar: sobrepasará el límite de burst permitido".

(** [relation.activo = activo] on the row with the primary key of [relation]. *)
Definition fijar_activo (session : Session) (relation : TenantProveedor.t) (activo : bool)
  : Session :=
  let db := transaccion session in
  escribir session
    (con_tenant_proveedores db
       ((λ rel, if decide (TenantProveedor.id rel = TenantProveedor.id relation)
                then TenantProveedor.mk
                       (TenantProveedor.id rel) (TenantProveedor.tenant_id rel)
                       (TenantProveedor.rfc rel) (TenantProveedor.razon_social rel)
                       activo (TenantProveedor.grupo_id rel) (TenantProveedor.created_at rel)
                else rel) <$> tenant_proveedores db)).

(** The burst check made before an activation; [None * 0.15] is a
    [TypeError]. *)
Definition verificar_burst (session : Session) (tenant_id : UUID) : salida unit :=
  match tenant_por_id (transaccion session) tenant_id with
  | Some tenant =>
      match Tenant.plan tenant with
      | Some plan =>
          match Plan.limite_proveedores plan with
          | Some limite_rfcs =>
              let limite_burst := limite_burst limite_rfcs in
              let total_activos := contar_activos (transaccion session) tenant_id in
              if (limite_burst <=? total_activos)%Z then Lanza (ValueError MENSAJE_BURST)
              else Retorna tt
          | None =>
              Lanza (TypeError "unsupported operand type(s) for *: 'NoneType' and 'float'")
          end
      | None => Retorna tt
      end
  | None => Retorna tt
  end.

Definition actualizar_estado_operativo_rfc (session : Session) (tenant_id : UUID)
    (rfc : string) (activo : bool) : Session * salida (option EstadoRFC.t) :=
  match get_by_tenant_and_rfc session tenant_id rfc with
  | None => (session, Retorna None)
  | Some relation =>
      match (if activo && negb (TenantProveedor.activo relation)
             then verificar_burst session tenant_id else Retorna tt) with
      | Retorna _ =>
          let session1 := fijar_activo session relation activo in
          (commit session1,
           Retorna (Some (EstadoRFC.mk (TenantProveedor.rfc relation) activo
                            ("RFC " +:+ (if activo then "activado" else "desactivado")
                             +:+ " exitosamente"))))
      | Lanza (ValueError m) => (rollback session, Lanza (ValueError m))
      | Lanza _ => (rollback session, Retorna None)
      end
  end.

(** ** Vocabulary of the statements

    Functions that only serve to state the properties below; each one names
    a value that the code computes in passing. *)

(** The normalised RFC of a request item: [proveedor.get("rfc", "").upper().strip()]. *)
Definition rfc_de (proveedor : Entrada.t) : string :=
  normalizar (default "" (Entrada.rfc proveedor)).

(** The normalised RFCs of valid length, in input order. *)
Definition rfcs_validos (proveedores : list Entrada.t) : list string :=
  filter (λ rfc, longitud_valida rfc = true) (rfc_de <$> proveedores).

(** The relations of a tenant with a given RFC. *)
Definition relaciones_de (tenant_id : UUID) (rfc : string) (tabla : list TenantProveedor.t)
  : list TenantProveedor.t :=
  filter (λ rel, TenantProveedor.tenant_id rel = tenant_id ∧ TenantProveedor.rfc rel = rfc)
         tabla.

(** The RFCs of a batch that the tenant does not have yet. *)
Definition rfcs_nuevos (tenant_id : UUID) (tabla : list TenantProveedor.t)
    (rfcs : list string) : list string :=
  filter (λ rfc, relaciones_de tenant_id rfc tabla = []) rfcs.

(** The burst decisions of the second loop, one per new RFC, as pairs of the
    RFC and its [activo] flag. *)
Fixpoint decidir (total_activos limite_burst : Z) (nuevos : list string)
  : list (string * bool) :=
  match nuevos with
  | [] => []
  | rfc :: resto =>
      if (total_activos <? limite_burst)%Z
      then (rfc, true) :: decidir (total_activos + 1) limite_burst resto
      else (rfc, false) :: decidir total_activos limite_burst resto
  end.

(** The dictionary handed to the repository for one decision. *)
Definition nuevo_de (razon_social_map : gmap string string) (d : string * bool) : Nuevo.t :=
  Nuevo.mk d.1 (razon_social_map !! d.1) d.2.

(** The immediate answers for the RFCs the tenant already has. *)
Definition resultados_existentes (existentes : gmap string TenantProveedor.t)
    (rfcs_norm : list string) : list Resultado.t :=
  omap (λ rfc, (λ rel, Resultado.mk rfc (Some (TenantProveedor.id rel))
                         (Some (mensaje_ya_existe rfc))) <$> existentes !! rfc)
       rfcs_norm.

(** A prepared detail whose state is not the "No encontrado" sentinel. *)
Definition no_es_centinela (d : string * string) : Prop := d.2 ≠ NO_ENCONTRADO.

#[global] Instance no_es_centinela_dec d : Decision (no_es_centinela d).
Proof. unfold no_es_centinela. apply _. Defined.

(** The state the DOF variant gives to one RFC: the [if]/[elif]/[else] of
    its loop. *)
Definition estado_combinado (dof_dict proveedores_dict : gmap string string) (rfc : string)
  : string :=
  match dof_dict !! rfc with
  | Some estado => estado
  | None => default NO_ENCONTRADO (proveedores_dict !! rfc)
  end.

(** [en_cuota] holds [n] of the relations [activas], and no relation left
    out (the [excedentes]) is older than one that was taken. *)
Definition es_seleccion_fifo (n : nat) (activas en_cuota : list TenantProveedor.t) : Prop :=
  ∃ excedentes,
    en_cuota ++ excedentes ≡ₚ activas
    ∧ length en_cuota = n
    ∧ ∀ a b, a ∈ en_cuota → b ∈ excedentes → mas_viejo_primero a b.

(** The SAT row joined to a relation, when the RFC is unique in the table. *)
Definition fila_sat (provs : list Proveedor.t) (tp : TenantProveedor.t)
  : TenantProveedor.t * option Proveedor.t :=
  (tp, head (filter (λ p, Proveedor.rfc p = TenantProveedor.rfc tp) provs)).

(** The detail rows of a run. *)
Definition detalles_de (historial_id : UUID) (db : BaseDatos) : list ConciliacionDetalle.t :=
  filter (λ d, ConciliacionDetalle.conciliacion_id d = historial_id)
         (resultado_conciliaciones db).

(** Detail completeness of the run [historial_id]: it has one history row,
    as many detail rows as [rfcs_procesados], as many of them with a state
    other than the sentinel as [coincidencias], and no more matches than
    RFCs. *)
Definition detalles_completos (db : BaseDatos) (historial_id : UUID) : Prop :=
  ∃ h,
    filter (λ h, ConciliacionHistorial.id h = historial_id) (conciliacion_historial db) = [h]
    ∧ length (detalles_de historial_id db) = ConciliacionHistorial.rfcs_procesados h
    ∧ length (filter (λ d, ConciliacionDetalle.estado d ≠ NO_ENCONTRADO)
                     (detalles_de historial_id db))
      = ConciliacionHistorial.coincidencias h
    ∧ (ConciliacionHistorial.coincidencias h ≤ ConciliacionHistorial.rfcs_procesados h)%nat.

(** No row of either directory carries the sentinel as its state. *)
Definition sin_centinela (db : BaseDatos) : Prop :=
  Forall (λ p, Proveedor.situacion_contribuyente p ≠ NO_ENCONTRADO) (proveedores db)
  ∧ Forall (λ c, DOFContribuyente.situacion_contribuyente c ≠ NO_ENCONTRADO)
           (dof_contribuyentes db).

(** The state of the fleet loop when it reaches the tenant at position [i]. *)
Definition recorrido_hasta
    (conciliar : Session → UUID → string → Session * salida Resumen.t)
    (correo : Session → Tenant.t → Resumen.t → salida unit)
    (ahora : Z) (tipo : string) (session : Session) (i : nat) : Recorrido :=
  foldl (procesar_tenant conciliar correo ahora tipo) (mkRecorrido session [] 0 0)
        (take i (get_active_tenants session)).

(** The synthetic entry of a failed tenant. *)
Definition es_item_fallido (item : ItemFlota.t) : Prop :=
  ItemFlota.historial_id item = None.

#[global] Instance es_item_fallido_dec item : Decision (es_item_fallido item).
Proof. unfold es_item_fallido. apply _. Defined.

(** What the loop keeps true of its counters and of its entries. *)
Definition cuentas_coherentes (st : Recorrido) : Prop :=
  fallidos st = length (filter es_item_fallido (acumulados st))
  ∧ exitosos st + fallidos st = length (acumulados st)
  ∧ Forall (λ item,
              es_item_fallido item →
              ItemFlota.rfcs_procesados item = 0 ∧ ItemFlota.coincidencias item = 0
              ∧ ∃ e, ItemFlota.estado item = "error: " +:+ str e)
           (acumulados st).

(** [UniqueConstraint('tenant_id', 'rfc')] on [tenant_proveedores] and
    [unique=True] on [proveedores.rfc]. *)
Definition unicidad_relaciones (db : BaseDatos) : Prop :=
  NoDup (clave_unica <$> tenant_proveedores db).

Definition unicidad_proveedores (db : BaseDatos) : Prop :=
  NoDup (Proveedor.rfc <$> proveedores db).

(** Identifiers already in use are below the next [uuid4]. *)
Definition uuid4_fresco (session : Session) : Prop :=
  Forall (λ h, ConciliacionHistorial.id h < uuid4 session)
         (conciliacion_historial (transaccion session)) ∧
  Forall (λ d, ConciliacionDetalle.conciliacion_id d < uuid4 session)
         (resultado_conciliaciones (transaccion session)).

(** * Further operations of the repositories and of the service

    The functions below are the neighbours of the reconciliations: the
    other queries of [TenantProveedorRepository], the read side of the
    history and detail repositories, and the service methods built on
    them. Time is counted in milliseconds; the rendering of dates is not
    modelled, a date is the timestamp it prints. *)

(** ** Python strings: [str.lower] and [in] *)

Definition lower_char (c : ascii) : ascii :=
  let n := nat_of_ascii c in
  if (65 <=? n)%nat && (n <=? 90)%nat then ascii_of_nat (n + 32) else c.

Fixpoint lower (s : string) : string :=
  match s with
  | EmptyString => EmptyString
  | String c r => String (lower_char c) (lower r)
  end.

(** [sub in s] *)
Fixpoint contiene (sub s : string) : bool :=
  String.prefix sub s ||
  match s with
  | EmptyString => false
  | String _ r => contiene sub r
  end.

(** [str(u)] for an identifier. *)
Definition str_uuid (u : UUID) : string := pretty u.

(** ** Queries *)

(** [Query.offset(n)]: [None] applies no offset, and the database refuses a
    negative one. *)
Definition offset {A} (n : option Z) (filas : list A) : salida (list A) :=
  match n with
  | None => Retorna filas
  | Some k =>
      if (k <? 0)%Z then Lanza (SQLAlchemyError "OFFSET must not be negative")
      else Retorna (drop (Z.to_nat k) filas)
  end.

(** [seq[:n]] *)
Definition slice_hasta {A} (n : option Z) (l : list A) : list A :=
  match n with
  | None => l
  | Some k =>
      if (k <? 0)%Z then take (length l - Z.to_nat (- k)) l
      else take (Z.to_nat k) l
  end.

(** [tenant_proveedores JOIN proveedores ON rfc = rfc] *)
Definition innerjoin (tps : list TenantProveedor.t) (provs : list Proveedor.t)
  : list (TenantProveedor.t * Proveedor.t) :=
  flat_map (λ tp,
              (λ p, (tp, p)) <$> filter (λ p, Proveedor.rfc p = TenantProveedor.rfc tp) provs)
           tps.

(** [ORDER BY fecha_conciliacion DESC] *)
Definition mas_reciente_primero (a b : ConciliacionHistorial.t) : Prop :=
  (ConciliacionHistorial.fecha_conciliacion b <= ConciliacionHistorial.fecha_conciliacion a)%Z.

#[global] Instance mas_reciente_primero_dec : RelDecision mas_reciente_primero.
Proof. intros a b. unfold mas_reciente_primero. apply _. Defined.

(** ** [TenantService.get_tenant_usage]

    The limit of the plan joined to the tenant: [{"limite_rfcs": 0}] when
    the join finds no row, else the column as it is, [None] for a plan
    without limit. *)
Definition get_tenant_usage (session : Session) (tenant_id : UUID) : option Z :=
  match tenant_por_id (transaccion session) tenant_id with
  | Some tenant =>
      match Tenant.plan tenant with
      | Some plan => Plan.limite_proveedores plan
      | None => Some 0%Z
      end
  | None => Some 0%Z
  end.

(** ** [TenantProveedorRepository], the other queries *)

(** Every relation of the tenant, active or not, oldest first, cut at
    [limite]; a refused query gives the empty list. *)
Definition get_by_tenant_within_limit (session : Session) (tenant_id : UUID)
    (limite : option Z) : list TenantProveedor.t :=
  match limit limite
          (merge_sort mas_viejo_primero
             (filter (λ rel, TenantProveedor.tenant_id rel = tenant_id) (tenant_proveedores (transaccion session)))) with
  | Retorna filas => filas
  | Lanza _ => []
  end.

(** The active relations of the tenant, oldest first, after the first
    [limite] ones; a refused query gives the empty list. *)
Definition get_by_tenant_excedentes (session : Session) (tenant_id : UUID)
    (limite : option Z) : list TenantProveedor.t :=
  match offset limite
          (merge_sort mas_viejo_primero
             (filter (es_activo_de tenant_id)
                     (tenant_proveedores (transaccion session)))) with
  | Retorna filas => filas
  | Lanza _ => []
  end.

(** [session.delete(relation); session.commit()]: the row with the primary
    key of [relation] goes, and the transaction is made durable. *)
Definition delete_by_tenant_and_rfc (session : Session) (tenant_id : UUID) (rfc : string)
  : Session * bool :=
  let rfc_norm := normalizar rfc in
  let db := transaccion session in
  match head (filter (λ rel, TenantProveedor.tenant_id rel = tenant_id ∧
                             TenantProveedor.rfc rel = rfc_norm)
                     (tenant_proveedores db)) with
  | None => (session, false)
  | Some relation =>
      (commit
         (escribir session
            (con_tenant_proveedores db
               (filter (λ rel, TenantProveedor.id rel ≠ TenantProveedor.id relation)
                       (tenant_proveedores db)))),
       true)
  end.

Definition get_tenant_proveedores_count (session : Session) (tenant_id : UUID) : nat :=
  length (filter (λ rel, TenantProveedor.tenant_id rel = tenant_id) (tenant_proveedores (transaccion session))).

(** What the insert of one relation checks: the unique constraint, the
    foreign key to [tenants] and the width of the [rfc] column. *)
Definition insertable (db : BaseDatos) (relation : TenantProveedor.t) : Prop :=
  respeta_unicidad (tenant_proveedores db) [relation]
  ∧ TenantProveedor.tenant_id relation ∈ Tenant.id <$> tenants db
  ∧ (String.length (TenantProveedor.rfc relation) ≤ 13)%nat.

#[global] Instance insertable_dec db relation : Decision (insertable db relation).
Proof. unfold insertable. apply _. Defined.

(** [session.add(relation); session.commit(); session.refresh(relation)],
    with the [SQLAlchemyError] branch: roll back and return [None]. *)
Definition create_relation (ahora : Z) (session : Session) (tenant_id : UUID) (rfc : string)
  : Session * option TenantProveedor.t :=
  let rfc_norm := normalizar rfc in
  let relation := TenantProveedor.mk (uuid4 session) tenant_id rfc_norm None true None ahora in
  let db := transaccion session in
  if decide (insertable db relation) then
    (commit
       (avanzar_uuid4
          (escribir session (con_tenant_proveedores db (tenant_proveedores db ++ [relation])))
          1),
     Some relation)
  else (rollback session, None).

(** [relation.activo = activo], then a commit or a flush as asked. *)
Definition update_estado_operativo (session : Session) (tenant_id : UUID) (rfc : string)
    (activo : bool) (commit_ : bool) : Session * option TenantProveedor.t :=
  let rfc_norm := normalizar rfc in
  match head (filter (λ rel, TenantProveedor.tenant_id rel = tenant_id ∧
                             TenantProveedor.rfc rel = rfc_norm)
                     (tenant_proveedores (transaccion session))) with
  | None => (session, None)
  | Some relation =>
      let session1 := fijar_activo session relation activo in
      (if commit_ then commit session1 else session1,
       Some (TenantProveedor.mk
               (TenantProveedor.id relation) (TenantProveedor.tenant_id relation)
               (TenantProveedor.rfc relation) (TenantProveedor.razon_social relation)
               activo (TenantProveedor.grupo_id relation)
               (TenantProveedor.created_at relation)))
  end.

Definition get_count_by_estado (session : Session) (tenant_id : UUID) (activo : option bool)
  : nat :=
  let query := filter (λ rel, TenantProveedor.tenant_id rel = tenant_id) (tenant_proveedores (transaccion session)) in
  let query :=
    match activo with
    | Some a => filter (λ rel, TenantProveedor.activo rel = a) query
    | None => query
    end in
  length query.

(** The relations of the tenant whose RFC the SAT table lists as
    "Definitivo". *)
Definition get_count_con_alerta (session : Session) (tenant_id : UUID) : nat :=
  let db := transaccion session in
  length (filter (λ fila : TenantProveedor.t * Proveedor.t,
                    TenantProveedor.tenant_id fila.1 = tenant_id ∧
                    Proveedor.situacion_contribuyente fila.2 = "Definitivo")
                 (innerjoin (tenant_proveedores db) (proveedores db))).

(** ** [ConciliacionHistorialRepository] and [ConciliacionDetalleRepository],
    the read side *)

Definition get_historial_by_tenant (session : Session) (tenant_id : UUID) (limit_ : option Z)
  : salida (list ConciliacionHistorial.t) :=
  limit limit_
    (merge_sort mas_reciente_primero
       (filter (λ h, ConciliacionHistorial.tenant_id h = tenant_id)
               (conciliacion_historial (transaccion session)))).

Definition get_ultima_conciliacion (session : Session) (tenant_id : UUID)
  : option ConciliacionHistorial.t :=
  head (merge_sort mas_reciente_primero
          (filter (λ h, ConciliacionHistorial.tenant_id h = tenant_id)
                  (conciliacion_historial (transaccion session)))).

Definition get_by_conciliacion_id (session : Session) (conciliacion_id : UUID)
  : list ConciliacionDetalle.t :=
  filter (λ d, ConciliacionDetalle.conciliacion_id d = conciliacion_id)
         (resultado_conciliaciones (transaccion session)).

(** [query.filter(...).delete(); session.commit()]: the number of deleted
    rows is returned. *)
Definition delete_by_conciliacion_id (session : Session) (conciliacion_id : UUID)
  : Session * nat :=
  let db := transaccion session in
  let deleted_count :=
    length (filter (λ d, ConciliacionDetalle.conciliacion_id d = conciliacion_id)
                   (resultado_conciliaciones db)) in
  (commit
     (escribir session
        (con_resultado_conciliaciones db
           (filter (λ d, ConciliacionDetalle.conciliacion_id d ≠ conciliacion_id)
                   (resultado_conciliaciones db)))),
   deleted_count).

(** ** [ConciliacionService.eliminar_proveedor] *)

Definition eliminar_proveedor (session : Session) (tenant_id : UUID) (rfc : string)
  : Session * salida bool :=
  match tenant_por_id (transaccion session) tenant_id with
  | None =>
      (session, Lanza (ValueError ("Tenant " +:+ str_uuid tenant_id +:+ " no encontrado")))
  | Some _ =>
      let '(session', eliminado) := delete_by_tenant_and_rfc session tenant_id rfc in
      (session', Retorna eliminado)
  end.

(** ** [ConciliacionService.listar_proveedores_paginado] *)

(** One line of the listing; [fecha_agregado] is the [created_at] that
    [formatear_fecha_es] prints. *)
Module FilaProveedor.
Record t := mk {
  rfc : string;
  estatus : string;
  fecha_agregado : Z
}.
End FilaProveedor.

Module PaginaProveedores.
Record t := mk {
  proveedores : list FilaProveedor.t;
  total : nat;
  pagina : Z;
  por_pagina : Z;
  total_paginas : Z
}.
End PaginaProveedores.

(** One line of the listing: the [if proveedor:] of the loop. *)
Definition fila_proveedor (fila : TenantProveedor.t * option Proveedor.t) : FilaProveedor.t :=
  match fila.2 with
  | Some proveedor =>
      FilaProveedor.mk (Proveedor.rfc proveedor)
        (if verdadero (Some (Proveedor.situacion_contribuyente proveedor))
         then Proveedor.situacion_contribuyente proveedor else "No disponible")
        (TenantProveedor.created_at fila.1)
  | None =>
      FilaProveedor.mk (TenantProveedor.rfc fila.1) "No disponible"
                       (TenantProveedor.created_at fila.1)
  end.

(** Any exception, a refused [OFFSET] or [LIMIT] or the division by zero of
    [total_paginas], gives the empty page. *)
Definition listar_proveedores_paginado (session : Session) (tenant_id : UUID)
    (pagina por_pagina : Z) : PaginaProveedores.t :=
  let vacia := PaginaProveedores.mk [] 0 pagina por_pagina 0 in
  let db := transaccion session in
  let offset_ := ((pagina - 1) * por_pagina)%Z in
  let total := length (filter (λ rel, TenantProveedor.tenant_id rel = tenant_id) (tenant_proveedores db)) in
  match offset (Some offset_)
          (filter (λ fila : TenantProveedor.t * option Proveedor.t,
                     TenantProveedor.tenant_id fila.1 = tenant_id)
                  (outerjoin (tenant_proveedores db) (proveedores db))) with
  | Lanza _ => vacia
  | Retorna desde =>
      match limit (Some por_pagina) desde with
      | Lanza _ => vacia
      | Retorna proveedores =>
          let proveedores_data := fila_proveedor <$> proveedores in
          if decide (por_pagina = 0%Z) then vacia
          else
            PaginaProveedores.mk proveedores_data total pagina por_pagina
              ((Z.of_nat total + por_pagina - 1) / por_pagina)%Z
      end
  end.

(** ** [ConciliacionService.get_tenant_stats_within_limit] *)

Module Estadisticas.
Record t := mk {
  total_rfcs : nat;
  alertas : nat;
  proveedores_dentro_limite : list (TenantProveedor.t * option Proveedor.t)
}.
End Estadisticas.

(** The loop that counts the alerts. *)
Fixpoint contar_alertas (filas : list (TenantProveedor.t * option Proveedor.t))
    (alertas : nat) : nat :=
  match filas with
  | [] => alertas
  | (_, proveedor) :: resto =>
      contar_alertas resto
        (match proveedor with
         | Some p =>
             if decide (Proveedor.situacion_contribuyente p = "Definitivo")
             then S alertas else alertas
         | None => alertas
         end)
  end.

Definition get_tenant_stats_within_limit (session : Session) (tenant_id : UUID)
    (limite_rfcs : option Z) : Estadisticas.t :=
  let db := transaccion session in
  let todos_proveedores :=
    merge_sort mas_viejo_primero_join
      (filter (λ fila : TenantProveedor.t * option Proveedor.t, es_activo_de tenant_id fila.1)
              (outerjoin (tenant_proveedores db) (proveedores db))) in
  let total_rfcs_reales := length todos_proveedores in
  let proveedores_dentro_limite := slice_hasta limite_rfcs todos_proveedores in
  Estadisticas.mk total_rfcs_reales (contar_alertas proveedores_dentro_limite 0)
                  proveedores_dentro_limite.

(** ** [ConciliacionService.obtener_ultima_conciliacion_power_query]

    [conciliacion_id] is the id that [str] prints and [fecha_conciliacion]
    the date that [strftime] prints. *)

Module FilaRFC.
Record t := mk {
  rfc : string;
  estado : string;
  resultado : string
}.
End FilaRFC.

Module PowerQuery.
Record t := mk {
  conciliacion_id : UUID;
  fecha_conciliacion : Z;
  tipo_conciliacion : string;
  version_sat : string;
  rfcs : list FilaRFC.t
}.
End PowerQuery.

(** The [if]/[elif]/[else] of the Power Query loop. *)
Definition resultado_power_query (estado : string) : string :=
  if decide (estado = "No encontrado") then "Sin coincidencia"
  else if verdadero (Some estado) &&
          (contiene "desvirtuado" (lower estado) || contiene "sentencia" (lower estado))
       then "Regularizado"
       else "Coincidencia".

(** [None] stands for the empty dictionary. *)
Definition obtener_ultima_conciliacion_power_query (session : Session) (tenant_id : UUID)
  : option PowerQuery.t :=
  match head (merge_sort mas_reciente_primero
                (filter (λ h, ConciliacionHistorial.tenant_id h = tenant_id)
                        (conciliacion_historial (transaccion session)))) with
  | None => None
  | Some historial =>
      let historial_id := ConciliacionHistorial.id historial in
      let version_sat :=
        if verdadero (Some (ConciliacionHistorial.version_sat historial))
        then ConciliacionHistorial.version_sat historial else "No disponible" in
      let detalles :=
        filter (λ d, ConciliacionDetalle.conciliacion_id d = historial_id)
               (resultado_conciliaciones (transaccion session)) in
      let rfcs :=
        (λ d, FilaRFC.mk (ConciliacionDetalle.rfc d) (ConciliacionDetalle.estado d)
                         (resultado_power_query (ConciliacionDetalle.estado d)))
        <$> detalles in
      Some (PowerQuery.mk historial_id (ConciliacionHistorial.fecha_conciliacion historial)
              (ConciliacionHistorial.tipo_conciliacion historial) version_sat rfcs)
  end.

(** ** [ConciliacionService.obtener_detalles_conciliacion]

    [execution_id] and [tenant_id] are the ids that [str] prints;
    [start_time] and [end_time] are the instants that the ISO 8601
    rendering with the offset of Mexico prints, the second being the first
    plus [timedelta(milliseconds=duracion_ms)]. *)

Module ResumenTecnico.
Record t := mk {
  execution_id : UUID;
  status : string;
  processed : nat;
  matched : nat
}.
End ResumenTecnico.

Module DatosTecnicos.
Record t := mk {
  execution_id : UUID;
  tenant_id : UUID;
  start_time : Z;
  end_time : Z;
  trigger_source : string;
  sat_version : string;
  rfc_processed : nat;
  matched : nat;
  status : string
}.
End DatosTecnicos.

Module DetallesConciliacion.
Record t := mk {
  rfcs_procesados : nat;
  coincidencias : nat;
  sin_coincidencias : Z;
  duracion_ms : Z;
  rfcs : list FilaRFC.t;
  resumen_tecnico : ResumenTecnico.t;
  datos_tecnicos : DatosTecnicos.t
}.
End DetallesConciliacion.

(** The [if]/[elif]/[else] of the loop over the detail rows. *)
Definition resultado_detalle (estado : string) : string :=
  if decide (estado = "No encontrado") then "Sin coincidencia"
  else if contiene "desvirtuado" (lower estado) || contiene "sentencia" (lower estado)
       then "Regularizado"
       else "Coincidencia".

Definition obtener_detalles_conciliacion (session : Session) (tenant_id historial_id : UUID)
  : salida DetallesConciliacion.t :=
  match head (filter (λ h, ConciliacionHistorial.id h = historial_id ∧
                           ConciliacionHistorial.tenant_id h = tenant_id)
                     (conciliacion_historial (transaccion session))) with
  | None =>
      Lanza (ValueError ("Conciliación " +:+ str_uuid historial_id +:+
                         " no encontrada para tenant " +:+ str_uuid tenant_id))
  | Some historial =>
      let detalles :=
        filter (λ d, ConciliacionDetalle.conciliacion_id d = historial_id)
               (resultado_conciliaciones (transaccion session)) in
      let rfcs_list :=
        (λ d, FilaRFC.mk (ConciliacionDetalle.rfc d) (ConciliacionDetalle.estado d)
                         (resultado_detalle (ConciliacionDetalle.estado d)))
        <$> detalles in
      let sin_coincidencias :=
        (Z.of_nat (ConciliacionHistorial.rfcs_procesados historial)
         - Z.of_nat (ConciliacionHistorial.coincidencias historial))%Z in
      let start_time := ConciliacionHistorial.fecha_conciliacion historial in
      let end_time := (start_time + ConciliacionHistorial.duracion_ms historial)%Z in
      let trigger_source :=
        if decide (ConciliacionHistorial.tipo_conciliacion historial = "Manual")
        then "manual" else "automatic" in
      let sat_version :=
        if verdadero (Some (ConciliacionHistorial.version_sat historial))
        then ConciliacionHistorial.version_sat historial else "No disponible" in
      Retorna
        (DetallesConciliacion.mk
           (ConciliacionHistorial.rfcs_procesados historial)
           (ConciliacionHistorial.coincidencias historial)
           sin_coincidencias
           (ConciliacionHistorial.duracion_ms historial)
           rfcs_list
           (ResumenTecnico.mk (ConciliacionHistorial.id historial)
              (ConciliacionHistorial.estado historial)
              (ConciliacionHistorial.rfcs_procesados historial)
              (ConciliacionHistorial.coincidencias historial))
           (DatosTecnicos.mk (ConciliacionHistorial.id historial)
              (ConciliacionHistorial.tenant_id historial)
              start_time end_time trigger_source sat_version
              (ConciliacionHistorial.rfcs_procesados historial)
              (ConciliacionHistorial.coincidencias historial)
              (ConciliacionHistorial.estado historial)))
  end.

(** * The routes of [app/routes/conciliacion_routes.py]

    A route is modelled from its body: the request it receives has been
    parsed, [current_tenant] is the tenant of the API key and [db] the
    session of the request. It answers with its response or with the
    [HTTPException] it raises. *)

Inductive respuesta (A : Type) : Type :=
| Respuesta (a : A)
| HTTPException (status_code : nat) (detail : string).
Arguments Respuesta {A} a.
Arguments HTTPException {A} status_code detail.

(** [ProveedorItemDTO] *)
Module ProveedorItemDTO.
Record t := mk {
  rfc : string;
  razon_social : option string
}.
End ProveedorItemDTO.

(** [str.isalnum], on the ASCII range. *)
Definition isalnum_char (c : ascii) : bool :=
  let n := nat_of_ascii c in
  ((48 <=? n)%nat && (n <=? 57)%nat)
  || ((65 <=? n)%nat && (n <=? 90)%nat)
  || ((97 <=? n)%nat && (n <=? 122)%nat).

Fixpoint todos_alnum (s : string) : bool :=
  match s with
  | EmptyString => true
  | String c r => isalnum_char c && todos_alnum r
  end.

Definition isalnum (s : string) : bool :=
  match s with
  | EmptyString => false
  | _ => todos_alnum s
  end.

Module Rutas.

(** The loop of [agregar_proveedor] that validates and prepares the items
    of the request. *)
Fixpoint preparar_proveedores (proveedores : list ProveedorItemDTO.t)
    (proveedores_validos : list Entrada.t) : list Entrada.t :=
  match proveedores with
  | [] => proveedores_validos
  | proveedor :: resto =>
      let rfc_limpio := normalizar (ProveedorItemDTO.rfc proveedor) in
      if negb (longitud_valida rfc_limpio) || negb (isalnum rfc_limpio) then
        preparar_proveedores resto proveedores_validos
      else
        preparar_proveedores resto
          (proveedores_validos ++
             [Entrada.mk (Some rfc_limpio)
                (if verdadero (ProveedorItemDTO.razon_social proveedor)
                 then PyStr.strip <$> ProveedorItemDTO.razon_social proveedor
                 else None)])
  end.

(** [agregar_proveedores_batch] under the limit that [get_tenant_usage]
    hands to it: with [None], the service passes its length filter and its
    tenant check and then raises on [limite_rfcs * 0.15]. *)
Definition agregar_proveedores_batch_con_limite (ahora : Z) (session : Session)
    (tenant_id : UUID) (proveedores : list Entrada.t) (limite_rfcs : option Z)
  : Session * salida (list Resultado.t) :=
  match limite_rfcs with
  | Some limite => agregar_proveedores_batch ahora session tenant_id proveedores limite
  | None =>
      match (extraer_rfcs proveedores [] ∅).1 with
      | [] => (session, Retorna [])
      | _ =>
          match tenant_por_id (transaccion session) tenant_id with
          | None => (session, Lanza (ValueError "Tenant no encontrado"))
          | Some _ =>
              (session,
               Lanza (TypeError "unsupported operand type(s) for *: 'NoneType' and 'float'"))
          end
      end
  end.

(** [POST /agregar-proveedor] *)
Definition agregar_proveedor (ahora : Z) (db : Session) (current_tenant : Tenant.t)
    (request : list ProveedorItemDTO.t) : Session * respuesta (list Resultado.t) :=
  let proveedores_validos := preparar_proveedores request [] in
  match proveedores_validos with
  | [] =>
      (rollback db,
       HTTPException 400
         "Debe proporcionar al menos un RFC válido (12 o 13 caracteres alfanuméricos)")
  | _ =>
      let limite_rfcs := get_tenant_usage db (Tenant.id current_tenant) in
      match agregar_proveedores_batch_con_limite ahora db (Tenant.id current_tenant)
              proveedores_validos limite_rfcs with
      | (db', Retorna resultados_batch) => (commit db', Respuesta resultados_batch)
      | (db', Lanza (ValueError m)) => (rollback db', HTTPException 400 m)
      | (db', Lanza e) =>
          (rollback db', HTTPException 500 ("Error agregando proveedores: " +:+ str e))
      end
  end.

(** [POST /realizar-conciliacion] *)
Definition realizar_conciliacion (ahora duracion : Z) (db : Session)
    (current_tenant : Tenant.t) : Session * respuesta Resumen.t :=
  match realizar_conciliacion ahora duracion db (Tenant.id current_tenant) "Manual" with
  | (db', Retorna resultado) => (commit db', Respuesta resultado)
  | (db', Lanza e) =>
      (rollback db', HTTPException 500 ("Error realizando conciliación: " +:+ str e))
  end.

(** [DELETE /proveedores/{rfc}]; the response is its message. *)
Definition eliminar_proveedor (db : Session) (current_tenant : Tenant.t) (rfc : string)
  : Session * respuesta string :=
  let rfc := normalizar rfc in
  if negb (longitud_valida rfc) then
    (db, HTTPException 400 "RFC inválido. Debe tener 12 o 13 caracteres")
  else
    match eliminar_proveedor db (Tenant.id current_tenant) rfc with
    | (db', Retorna eliminado) =>
        if eliminado
        then (db', Respuesta ("Proveedor " +:+ rfc +:+ " eliminado correctamente"))
        else (db', HTTPException 404 ("Proveedor con RFC " +:+ rfc +:+ " no encontrado"))
    | (db', Lanza e) =>
        (db', HTTPException 500 ("Error eliminando proveedor: " +:+ str e))
    end.

(** [PUT /rfcs/{rfc}/estado] *)
Definition actualizar_estado_rfc (db : Session) (current_tenant : Tenant.t) (rfc : string)
    (activo : bool) : Session * respuesta EstadoRFC.t :=
  match actualizar_estado_operativo_rfc db (Tenant.id current_tenant) rfc activo with
  | (db', Retorna (Some resultado)) => (db', Respuesta resultado)
  | (db', Retorna None) =>
      (db', HTTPException 404 ("RFC " +:+ rfc +:+ " no encontrado para este tenant"))
  | (db', Lanza (ValueError m)) => (db', HTTPException 400 m)
  | (db', Lanza e) =>
      (db', HTTPException 500 ("Error actualizando estado del RFC: " +:+ str e))
  end.

End Rutas.

(** ** Vocabulary of the further statements *)

(** A joined row that counts as an alert: its SAT state is "Definitivo". *)
Definition es_alerta (fila : TenantProveedor.t * option Proveedor.t) : Prop :=
  Proveedor.situacion_contribuyente <$> fila.2 = Some "Definitivo".

#[global] Instance es_alerta_dec fila : Decision (es_alerta fila).
Proof. unfold es_alerta. apply _. Defined.

(** The primary key of [tenant_proveedores]. *)
Definition unicidad_ids (db : BaseDatos) : Prop :=
  NoDup (TenantProveedor.id <$> tenant_proveedores db).

(** The unique constraint holds in both states of the session. *)
Definition sesion_unica (s : Session) : Prop :=
  unicidad_relaciones (transaccion s) ∧ unicidad_relaciones (confirmado s).

(** The identifiers of the relations are below the next [uuid4]. *)
Definition ids_frescos (session : Session) : Prop :=
  Forall (λ rel, TenantProveedor.id rel < uuid4 session)
         (tenant_proveedores (transaccion session)).

(** [s'] differs from [s] by history rows and detail rows added at the end
    of their tables, within the open transaction: at most one history row,
    and detail rows that refer to it. *)
Definition solo_agrega (s s' : Session) : Prop :=
  confirmado s' = confirmado s
  ∧ tenants (transaccion s') = tenants (transaccion s)
  ∧ tenant_proveedores (transaccion s') = tenant_proveedores (transaccion s)
  ∧ proveedores (transaccion s') = proveedores (transaccion s)
  ∧ dof_contribuyentes (transaccion s') = dof_contribuyentes (transaccion s)
  ∧ ∃ hs ds,
      conciliacion_historial (transaccion s') = conciliacion_historial (transaccion s) ++ hs
      ∧ resultado_conciliaciones (transaccion s')
        = resultado_conciliaciones (transaccion s) ++ ds
      ∧ (length hs ≤ 1)%nat
      ∧ Forall (λ d, ConciliacionDetalle.conciliacion_id d ∈ ConciliacionHistorial.id <$> hs)
               ds.

(** An item of the request that [agregar_proveedor] keeps, and the
    dictionary it hands to the service for it. *)
Definition item_valido (proveedor : ProveedorItemDTO.t) : Prop :=
  longitud_valida (normalizar (ProveedorItemDTO.rfc proveedor)) = true
  ∧ isalnum (normalizar (ProveedorItemDTO.rfc proveedor)) = true.

#[global] Instance item_valido_dec proveedor : Decision (item_valido proveedor).
Proof. unfold item_valido. apply _. Defined.

Definition entrada_de (proveedor : ProveedorItemDTO.t) : Entrada.t :=
  Entrada.mk (Some (normalizar (ProveedorItemDTO.rfc proveedor)))
    (if verdadero (ProveedorItemDTO.razon_social proveedor)
     then PyStr.strip <$> ProveedorItemDTO.razon_social proveedor
     else None).

(** ** Sample data for the scenarios *)

Module Muestra.

(** Twenty-six well-formed RFCs: [rfc_n 0 = "AAA010101AA0"], ... *)
Definition rfc_n (n : nat) : string :=
  "AAA010101A" +:+ String (ascii_of_nat (65 + n / 10))
                          (String (ascii_of_nat (48 + n mod 10)) EmptyString).

Definition relacion (tenant_id n : nat) (activo : bool) (created_at : Z) : TenantProveedor.t :=
  TenantProveedor.mk (1000 + n) tenant_id (rfc_n n) None activo None created_at.

Definition sesion_de (db : BaseDatos) : Session := mkSession db db 5000.

Definition bd (ts : list Tenant.t) (rels : list TenantProveedor.t)
    (sat : list Proveedor.t) (dof : list DOFContribuyente.t) : BaseDatos :=
  mkBaseDatos ts rels sat dof [] [].

Definition tenant_con_limite (id : nat) (limite : option Z) : Tenant.t :=
  Tenant.mk id "Empresa" true (Some (Plan.mk limite)).

Definition tenant_sin_plan (id : nat) : Tenant.t := Tenant.mk id "Empresa" true None.

Definition lote (n : nat) : list Entrada.t :=
  (λ i, Entrada.mk (Some (rfc_n i)) None) <$> seq 0 n.

(** Tenant 1, limit 2, has three active relations and an inactive one;
    tenant 2, limit 5, has none; tenant 3, without limit, has three. The
    RFC number 1 is in both directories with different states, number 4
    only in the SAT table, number 5 only in the Gazette. *)
Definition bd_general : BaseDatos :=
  bd [tenant_con_limite 1 (Some 2%Z); tenant_con_limite 2 (Some 5%Z);
      tenant_con_limite 3 None]
     [relacion 1 0 true 30; relacion 1 1 true 10; relacion 1 2 false 5;
      relacion 1 3 true 20; relacion 3 4 true 1; relacion 3 5 true 2;
      relacion 3 6 true 0]
     [Proveedor.mk (rfc_n 1) "Definitivo" "2024-01-01";
      Proveedor.mk (rfc_n 4) "Presunto" "2024-01-01"]
     [DOFContribuyente.mk 1 (rfc_n 1) "Desvirtuado";
      DOFContribuyente.mk 2 (rfc_n 5) "Definitivo"].

Definition sesion_general : Session := sesion_de bd_general.

End Muestra.

(** * Properties *)

(** ** Strings *)

Lemma upper_char_idemp c : PyStr.upper_char (PyStr.upper_char c) = PyStr.upper_char c.
Proof. destruct c as [[] [] [] [] [] [] [] []]; reflexivity. Qed.

Lemma isspace_upper_char c : PyStr.isspace (PyStr.upper_char c) = PyStr.isspace c.
Proof. destruct c as [[] [] [] [] [] [] [] []]; reflexivity. Qed.

Lemma upper_idemp s : PyStr.upper (PyStr.upper s) = PyStr.upper s.
Proof. induction s as [|c s IH]; simpl; [done|]. by rewrite upper_char_idemp, IH. Qed.

Lemma lstrip_upper s : PyStr.lstrip (PyStr.upper s) = PyStr.upper (PyStr.lstrip s).
Proof.
  induction s as [|c s IH]; simpl; [done|].
  rewrite isspace_upper_char. by destruct (PyStr.isspace c).
Qed.

Lemma rstrip_upper s : PyStr.rstrip (PyStr.upper s) = PyStr.upper (PyStr.rstrip s).
Proof.
  induction s as [|c s IH]; simpl; [done|].
  rewrite IH, isspace_upper_char.
  destruct (PyStr.rstrip s); simpl; [by destruct (PyStr.isspace c)|done].
Qed.

Lemma lstrip_idemp s : PyStr.lstrip (PyStr.lstrip s) = PyStr.lstrip s.
Proof.
  induction s as [|c s IH]; simpl; [done|].
  destruct (PyStr.isspace c) eqn:E; [done|]. simpl. by rewrite E.
Qed.

Lemma rstrip_idemp s : PyStr.rstrip (PyStr.rstrip s) = PyStr.rstrip s.
Proof.
  induction s as [|c s IH]; simpl; [done|].
  destruct (PyStr.rstrip s) as [|c' r] eqn:E.
  - destruct (PyStr.isspace c) eqn:Ec; simpl; [done|]. by rewrite Ec.
  - change (PyStr.rstrip (String c (String c' r))) with
      (match PyStr.rstrip (String c' r) with
       | EmptyString => if PyStr.isspace c then EmptyString else String c EmptyString
       | r0 => String c r0 end).
    by rewrite IH.
Qed.

Lemma lstrip_rstrip s : PyStr.lstrip (PyStr.rstrip s) = PyStr.rstrip (PyStr.lstrip s).
Proof.
  induction s as [|c s IH]; simpl; [done|].
  destruct (PyStr.isspace c) eqn:Ec.
  - rewrite <- IH. destruct (PyStr.rstrip s); simpl; by rewrite ?Ec.
  - simpl. destruct (PyStr.rstrip s); simpl; by rewrite ?Ec.
Qed.

Lemma strip_idemp s : PyStr.strip (PyStr.strip s) = PyStr.strip s.
Proof.
  unfold PyStr.strip.
  by rewrite lstrip_rstrip, lstrip_idemp, rstrip_idemp.
Qed.

Lemma normalizar_idemp rfc : normalizar (normalizar rfc) = normalizar rfc.
Proof.
  unfold normalizar, PyStr.strip.
  rewrite <- rstrip_upper, <- lstrip_upper, upper_idemp.
  apply strip_idemp.
Qed.

(** ** Floating point: the burst limit is [L + floor(3L / 20)] *)

Section Burst.

Local Open Scope Z_scope.

Lemma of_int_exacto n : 0 <= n < 2 ^ 31 → PyFloat.of_int n = PyFloat.mk n 0.
Proof.
  intros Hn. unfold PyFloat.of_int, PyFloat.redondear.
  destruct (Z.ltb_spec n 0) as [?|_]; [lia|].
  unfold PyFloat.redondear_pos.
  assert (Z.log2 n < 31).
  { destruct (Z.eq_dec n 0) as [->|]; [reflexivity|]. apply Z.log2_lt_pow2; lia. }
  destruct (Z.leb_spec (Z.log2 n - 52) 0); [reflexivity|lia].
Qed.

(** The rounded product, when the exact product has [53 + k] bits. *)
Lemma producto_redondeado k L :
  0 <= L < 2 ^ 31 → 1 <= k <= 32 →
  2 ^ (52 + k) <= L * 5404319552844595 < 2 ^ (53 + k) →
  let n := L * 5404319552844595 in
  let q := n / 2 ^ k in
  let r := n mod 2 ^ k in
  let h := 2 ^ (k - 1) in
  let q' := if r <? h then q else if h <? r then q + 1 else if Z.even q then q else q + 1 in
  Z.quot q' (2 ^ (55 - k)) = 3 * L / 20.
Proof.
  intros HL Hk Hn.
  assert (Hc : k = 1 ∨ k = 2 ∨ k = 3 ∨ k = 4 ∨ k = 5 ∨ k = 6 ∨ k = 7 ∨ k = 8 ∨
          k = 9 ∨ k = 10 ∨ k = 11 ∨ k = 12 ∨ k = 13 ∨ k = 14 ∨ k = 15 ∨ k = 16 ∨
          k = 17 ∨ k = 18 ∨ k = 19 ∨ k = 20 ∨ k = 21 ∨ k = 22 ∨ k = 23 ∨ k = 24 ∨
          k = 25 ∨ k = 26 ∨ k = 27 ∨ k = 28 ∨ k = 29 ∨ k = 30 ∨ k = 31 ∨ k = 32) by lia.
  cbv zeta.
  repeat (destruct Hc as [->|Hc]); [..|subst k];
    change (2 ^ 31) with 2147483648 in HL;
    repeat match goal with
    | H : context [2 ^ ?c] |- _ =>
        let v := eval vm_compute in (2 ^ c) in change (2 ^ c) with v in H
    | |- context [2 ^ ?c] =>
        let v := eval vm_compute in (2 ^ c) in change (2 ^ c) with v
    end.
  all: try lia.
  all: match goal with |- Z.quot ?a ?b = _ =>
         assert (0 <= a) by
           (repeat match goal with
                   | |- context [Z.ltb ?x ?y] => destruct (Z.ltb_spec x y)
                   | |- context [Z.even ?x] => destruct (Z.even x)
                   end;
            Z.to_euclidean_division_equations; lia) end.
  all: rewrite Z.quot_div_nonneg by lia.
  all: repeat match goal with
       | |- context [Z.ltb ?a ?b] => destruct (Z.ltb_spec a b)
       | |- context [Z.even ?a] => destruct (Z.even a)
       end.
  all: Z.to_euclidean_division_equations; lia.
Qed.

(** [int(L * 0.15)] is the floor of [3L / 20] for every limit a 32-bit
    column can hold. *)
Lemma int_0_15 L :
  0 <= L < 2 ^ 31 →
  PyFloat.to_int (PyFloat.mul (PyFloat.of_int L) PyFloat.c_0_15) = 3 * L / 20.
Proof.
  intros HL. rewrite of_int_exacto by exact HL.
  unfold PyFloat.mul, PyFloat.c_0_15, PyFloat.m, PyFloat.e, PyFloat.redondear.
  change (2 ^ 31) with 2147483648 in HL.
  destruct (Z.ltb_spec (L * 5404319552844595) 0) as [?|_]; [lia|].
  unfold PyFloat.redondear_pos.
  set (n := L * 5404319552844595).
  destruct (Z.leb_spec (Z.log2 n - 52) 0) as [Hk|Hk].
  - unfold PyFloat.to_int; cbn [PyFloat.e PyFloat.m].
    change (0 <=? 0 + -55) with false. cbv iota.
    change (- (0 + -55)) with 55.
    assert (Hn : n < 2 ^ 53).
    { destruct (Z.eq_dec n 0) as [->|]; [reflexivity|]. apply Z.log2_lt_pow2; lia. }
    change (2 ^ 53) with 9007199254740992 in Hn. change (2 ^ 55) with 36028797018963968.
    rewrite Z.quot_div_nonneg by lia. subst n.
    Z.to_euclidean_division_equations; lia.
  - set (k := Z.log2 n - 52) in *.
    assert (0 < n).
    { destruct (Z.le_gt_cases n 0) as [Hle|]; [apply Z.log2_nonpos in Hle; lia|lia]. }
    assert (Hk2 : k <= 32).
    { assert (Z.log2 n < 85); [|lia]. apply Z.log2_lt_pow2; [lia|].
      change (2 ^ 85) with 38685626227668133590597632. unfold n. lia. }
    pose proof (Z.log2_spec n ltac:(lia)) as Hlog.
    replace (Z.log2 n) with (52 + k) in Hlog by lia.
    replace (Z.succ (52 + k)) with (53 + k) in Hlog by lia.
    pose proof (producto_redondeado k L ltac:(lia) ltac:(lia) Hlog) as Hc.
    cbv zeta in Hc. fold n in Hc.
    unfold PyFloat.to_int; cbn [PyFloat.e PyFloat.m].
    destruct (Z.leb_spec 0 (0 + -55 + k)) as [?|_]; [lia|].
    replace (- (0 + -55 + k)) with (55 - k) by lia. exact Hc.
Qed.

Lemma limite_burst_valor L :
  0 <= L < 2 ^ 31 → limite_burst L = L + 3 * L / 20.
Proof. intros HL. unfold limite_burst. by rewrite int_0_15. Qed.

End Burst.

(** ** Lists *)

Lemma NoDup_fmap_elem_of_inj {A B} (f : A → B) (l : list A) x y :
  NoDup (f <$> l) → x ∈ l → y ∈ l → f x = f y → x = y.
Proof.
  induction l as [|a l IH]; intros Hnd Hx Hy Hf; [by apply elem_of_nil in Hx|].
  rewrite fmap_cons in Hnd. apply NoDup_cons in Hnd as [Hnotin Hnd].
  apply elem_of_cons in Hx as [->|Hx], Hy as [->|Hy]; [done|..|by apply IH].
  - destruct Hnotin. rewrite Hf. by apply list_elem_of_fmap_2.
  - destruct Hnotin. rewrite <- Hf. by apply list_elem_of_fmap_2.
Qed.

(** ** Dictionaries built from lists *)

Section Dict.

Context {A B : Type} (clave : A → string) (valor : A → B).

Lemma dict_de_snoc l x :
  dict_de clave valor (l ++ [x]) = <[clave x := valor x]> (dict_de clave valor l).
Proof. unfold dict_de. by rewrite foldl_snoc. Qed.

(** The entry of a key is the value of the last element carrying it. *)
Lemma dict_de_lookup l k :
  dict_de clave valor l !! k = valor <$> last (filter (λ x, clave x = k) l).
Proof.
  induction l as [|x l IH] using rev_ind; [done|].
  rewrite dict_de_snoc, filter_app, filter_cons, filter_nil.
  destruct (decide (clave x = k)) as [->|Hne].
  - by rewrite lookup_insert_eq, last_snoc.
  - rewrite lookup_insert_ne by done. by rewrite app_nil_r.
Qed.

Lemma dict_de_lookup_None l k :
  dict_de clave valor l !! k = None ↔ ∀ x, x ∈ l → clave x ≠ k.
Proof.
  rewrite dict_de_lookup, fmap_None, last_None. split.
  - intros Hnil x Hx Hk. by apply (filter_nil_not_elem_of _ l x Hnil Hk).
  - intros Hall. destruct (filter _ l) as [|x f] eqn:Hf; [done|].
    assert (x ∈ filter (λ x, clave x = k) l) as Hin by (rewrite Hf; left).
    apply list_elem_of_filter in Hin as [Hk Hx]. by destruct (Hall x Hx).
Qed.

Lemma dict_de_lookup_Some l k b :
  dict_de clave valor l !! k = Some b → ∃ x, x ∈ l ∧ clave x = k ∧ valor x = b.
Proof.
  rewrite dict_de_lookup, fmap_Some. intros (x & Hlast & ->).
  apply last_Some_elem_of, list_elem_of_filter in Hlast as [Hk Hx]. eauto.
Qed.

Lemma dict_de_lookup_is_Some l x :
  x ∈ l → is_Some (dict_de clave valor l !! clave x).
Proof.
  intros Hx. destruct (dict_de clave valor l !! clave x) eqn:E; [eauto|].
  rewrite dict_de_lookup_None in E. by destruct (E x Hx).
Qed.

(** With pairwise distinct keys, every element is found under its key. *)
Lemma dict_de_lookup_NoDup l x :
  NoDup (clave <$> l) → x ∈ l → dict_de clave valor l !! clave x = Some (valor x).
Proof.
  intros Hnd Hx. destruct (dict_de_lookup_is_Some l x Hx) as [b Hb].
  rewrite Hb. apply dict_de_lookup_Some in Hb as (y & Hy & Hk & <-).
  assert (y = x) as -> by (eapply NoDup_fmap_elem_of_inj; eauto). done.
Qed.

End Dict.

(** ** Batch-add: the two loops *)

Lemma rfc_de_normalizado proveedor : normalizar (rfc_de proveedor) = rfc_de proveedor.
Proof. apply normalizar_idemp. Qed.

Lemma rfcs_validos_elem proveedores rfc :
  rfc ∈ rfcs_validos proveedores →
  normalizar rfc = rfc ∧ longitud_valida rfc = true ∧
  ∃ proveedor, proveedor ∈ proveedores ∧ rfc_de proveedor = rfc.
Proof.
  unfold rfcs_validos. rewrite list_elem_of_filter, list_elem_of_fmap.
  intros (Hlen & p & -> & Hp). eauto using rfc_de_normalizado.
Qed.

Lemma extraer_rfcs_fst proveedores rfcs_norm razon_social_map :
  (extraer_rfcs proveedores rfcs_norm razon_social_map).1
  = rfcs_norm ++ rfcs_validos proveedores.
Proof.
  revert rfcs_norm razon_social_map.
  induction proveedores as [|p ps IH]; intros acc m; cbn [extraer_rfcs].
  - by rewrite app_nil_r.
  - change (normalizar (default "" (Entrada.rfc p))) with (rfc_de p).
    unfold rfcs_validos. rewrite fmap_cons, filter_cons.
    destruct (longitud_valida (rfc_de p)) eqn:E.
    + rewrite decide_True by done. rewrite IH. by rewrite <- app_assoc.
    + rewrite decide_False by done. apply IH.
Qed.

Lemma existentes_lookup session tenant_id rfcs rfc :
  (∀ x, x ∈ rfcs → normalizar x = x) → rfc ∈ rfcs →
  get_by_tenant_and_rfcs_batch session tenant_id rfcs !! rfc
  = last (relaciones_de tenant_id rfc (tenant_proveedores (transaccion session))).
Proof.
  intros Hnorm Hin. unfold get_by_tenant_and_rfcs_batch.
  destruct rfcs as [|r0 rs] eqn:E; [by apply elem_of_nil in Hin|]. rewrite <- E in *.
  rewrite dict_de_lookup, list_filter_filter, option_fmap_id. f_equal.
  unfold relaciones_de. apply list_filter_iff. intros rel. split.
  - by intros (Hr & Ht & _).
  - intros [Ht Hr]. repeat split; [done..|].
    rewrite Hr, <- (Hnorm rfc Hin). by apply list_elem_of_fmap_2.
Qed.

Lemma existentes_None session tenant_id rfcs rfc :
  (∀ x, x ∈ rfcs → normalizar x = x) → rfc ∈ rfcs →
  get_by_tenant_and_rfcs_batch session tenant_id rfcs !! rfc = None
  ↔ relaciones_de tenant_id rfc (tenant_proveedores (transaccion session)) = [].
Proof. intros. rewrite existentes_lookup by done. apply last_None. Qed.

Section Decidir.

Local Open Scope Z_scope.

Lemma decidir_lleno A B nuevos :
  B <= A → decidir A B nuevos = (λ rfc, (rfc, false)) <$> nuevos.
Proof.
  intros HB. induction nuevos as [|r rs IH]; simpl; [done|].
  destruct (Z.ltb_spec A B); [lia|]. by rewrite IH.
Qed.

(** The RFC at position [i] among the new ones is activated exactly when the
    counter it meets, [A + i], is below the burst limit. *)
Lemma decidir_lookup A B nuevos (i : nat) :
  decidir A B nuevos !! i
  = (λ rfc, (rfc, bool_decide (A + Z.of_nat i < B))) <$> nuevos !! i.
Proof.
  revert A i. induction nuevos as [|r rs IH]; intros A i; simpl; [done|].
  destruct (Z.ltb_spec A B) as [Hlt|Hge].
  - destruct i as [|i]; simpl.
    + by rewrite bool_decide_true by lia.
    + rewrite IH. destruct (rs !! i); simpl; [|done].
      do 2 f_equal. apply bool_decide_ext. lia.
  - destruct i as [|i]; simpl.
    + by rewrite bool_decide_false by lia.
    + rewrite decidir_lleno by done. rewrite list_lookup_fmap.
      destruct (rs !! i); simpl; [|done]. by rewrite bool_decide_false by lia.
Qed.

Lemma decidir_fst A B nuevos : (decidir A B nuevos).*1 = nuevos.
Proof.
  revert A. induction nuevos as [|r rs IH]; intros A; simpl; [done|].
  destruct (A <? B); simpl; by rewrite IH.
Qed.

Lemma length_decidir A B nuevos : length (decidir A B nuevos) = length nuevos.
Proof. by rewrite <- (decidir_fst A B nuevos) at 2; rewrite length_fmap. Qed.

(** Activated RFCs come first: the split by flag is the list itself. *)
Lemma decidir_particion A B nuevos :
  filter (λ d, d.2 = true) (decidir A B nuevos)
  ++ filter (λ d, d.2 = false) (decidir A B nuevos)
  = decidir A B nuevos.
Proof.
  revert A. induction nuevos as [|r rs IH]; intros A; simpl; [done|].
  destruct (Z.ltb_spec A B) as [Hlt|Hge].
  - rewrite filter_cons_True by done. rewrite filter_cons_False by done.
    simpl. by rewrite IH.
  - rewrite decidir_lleno by done.
    rewrite filter_cons_False by done. rewrite filter_cons_True by done.
    assert (Hnil : filter (λ d : string * bool, d.2 = true) ((λ rfc, (rfc, false)) <$> rs) = []).
    { clear. induction rs as [|x xs IHx]; [done|].
      rewrite fmap_cons, filter_cons_False by (simpl; congruence). exact IHx. }
    assert (Hall : filter (λ d : string * bool, d.2 = false) ((λ rfc, (rfc, false)) <$> rs)
                   = (λ rfc, (rfc, false)) <$> rs).
    { clear. induction rs as [|x xs IHx]; [done|].
      rewrite fmap_cons, filter_cons_True by done. by rewrite IHx. }
    by rewrite Hnil, Hall.
Qed.

End Decidir.

(** The second loop, in one equation: existing RFCs are answered, new ones
    are split by [decidir]. *)
Lemma separar_spec rfcs_norm existentes razon_social_map limite st :
  let nuevos := filter (λ rfc, existentes !! rfc = None) rfcs_norm in
  let ds := decidir (total_activos st) limite nuevos in
  let nuevo (d : string * bool) := Nuevo.mk d.1 (razon_social_map !! d.1) d.2 in
  separar rfcs_norm existentes razon_social_map limite st
  = mkSeparacion
      (proveedores_nuevos_activos st ++ (nuevo <$> filter (λ d, d.2 = true) ds))
      (proveedores_nuevos_inactivos st ++ (nuevo <$> filter (λ d, d.2 = false) ds))
      (resultados st ++
         omap (λ rfc, (λ rel, Resultado.mk rfc (Some (TenantProveedor.id rel))
                                (Some (mensaje_ya_existe rfc))) <$> existentes !! rfc)
              rfcs_norm)
      (total_activos st + Z.of_nat (length (filter (λ d, d.2 = true) ds)))%Z.
Proof.
  revert st. induction rfcs_norm as [|rfc rs IH]; intros st; simpl.
  - destruct st; simpl. by rewrite !app_nil_r, Z.add_0_r.
  - rewrite IH. clear IH. rewrite filter_cons.
    destruct (existentes !! rfc) as [rel|] eqn:E; simpl.
    + f_equal. by rewrite <- app_assoc.
    + destruct (Z.ltb_spec (total_activos st) limite) as [Hlt|Hge]; simpl;
        rewrite ?filter_cons; simpl; rewrite <- ?app_assoc; simpl; f_equal; lia.
Qed.

Lemma filter_ext_elem {A} (P Q : A → Prop) `{!∀ x, Decision (P x), !∀ x, Decision (Q x)}
    (l : list A) :
  (∀ x, x ∈ l → P x ↔ Q x) → filter P l = filter Q l.
Proof.
  induction l as [|a l IH]; intros Hext; [done|].
  rewrite !filter_cons. rewrite IH by (intros x Hx; apply Hext; by right).
  apply decide_ext, Hext. by left.
Qed.

(** ** Batch-add: creation of the new relations *)

Lemma construir_relaciones_lookup ahora tenant_id siguiente proveedores i :
  construir_relaciones ahora tenant_id siguiente proveedores !! i
  = (λ p, TenantProveedor.mk (siguiente + i) tenant_id (normalizar (Nuevo.rfc p))
            (if verdadero (Nuevo.razon_social p) then Nuevo.razon_social p else None)
            (Nuevo.activo p) None ahora) <$> proveedores !! i.
Proof.
  revert siguiente i. induction proveedores as [|p ps IH]; intros u i; [done|].
  destruct i as [|i]; simpl.
  - by rewrite Nat.add_0_r.
  - rewrite IH. by replace (S u + i) with (u + S i) by lia.
Qed.

Lemma length_construir_relaciones ahora tenant_id siguiente proveedores :
  length (construir_relaciones ahora tenant_id siguiente proveedores) = length proveedores.
Proof.
  revert siguiente. induction proveedores as [|p ps IH]; intros u; simpl; [done|].
  by rewrite IH.
Qed.

Lemma claves_construir_relaciones ahora tenant_id siguiente proveedores :
  clave_unica <$> construir_relaciones ahora tenant_id siguiente proveedores
  = (λ p, (tenant_id, normalizar (Nuevo.rfc p))) <$> proveedores.
Proof.
  revert siguiente. induction proveedores as [|p ps IH]; intros u; simpl; [done|].
  by rewrite IH.
Qed.

Lemma rfcs_construir_relaciones ahora tenant_id siguiente proveedores :
  TenantProveedor.rfc <$> construir_relaciones ahora tenant_id siguiente proveedores
  = (λ p, normalizar (Nuevo.rfc p)) <$> proveedores.
Proof.
  revert siguiente. induction proveedores as [|p ps IH]; intros u; simpl; [done|].
  by rewrite IH.
Qed.

(** The function written as one equation over the decisions. *)
Lemma agregar_proveedores_batch_eq ahora session tenant_id proveedores limite_rfcs tenant :
  rfcs_validos proveedores ≠ [] →
  tenant_por_id (transaccion session) tenant_id = Some tenant →
  let rfcs := rfcs_validos proveedores in
  let razones := (extraer_rfcs proveedores [] ∅).2 in
  let existentes := get_by_tenant_and_rfcs_batch session tenant_id rfcs in
  let nuevos :=
    nuevo_de razones <$>
      decidir (contar_activos (transaccion session) tenant_id) (limite_burst limite_rfcs)
              (filter (λ rfc, existentes !! rfc = None) rfcs) in
  agregar_proveedores_batch ahora session tenant_id proveedores limite_rfcs
  = match nuevos with
    | [] => (session, Retorna (ordenar_resultados (resultados_existentes existentes rfcs) rfcs))
    | _ =>
        let creadas := create_relations_batch_with_status ahora session tenant_id nuevos in
        (creadas.1,
         Retorna (ordenar_resultados
                    (resultados_existentes existentes rfcs
                     ++ (resultado_nuevo (dict_de TenantProveedor.rfc id creadas.2) <$> nuevos))
                    rfcs))
    end.
Proof.
  intros Hne Hten. cbv zeta. unfold agregar_proveedores_batch.
  pose proof (extraer_rfcs_fst proveedores [] ∅) as Hfst.
  destruct (extraer_rfcs proveedores [] ∅) as [rfcs_norm razones] eqn:Hex.
  simpl in Hfst. subst rfcs_norm. cbn [snd].
  destruct (rfcs_validos proveedores) as [|r0 rs] eqn:Hrfcs; [done|].
  rewrite <- Hrfcs in *. rewrite Hten.
  rewrite separar_spec. cbn [proveedores_nuevos_activos proveedores_nuevos_inactivos
    resultados total_activos app].
  rewrite <- fmap_app, decidir_particion.
  fold (resultados_existentes (get_by_tenant_and_rfcs_batch session tenant_id
          (rfcs_validos proveedores)) (rfcs_validos proveedores)).
  fold (nuevo_de razones).
  destruct (nuevo_de razones <$> _) as [|n ns] eqn:Hn; [done|].
  by destruct (create_relations_batch_with_status _ _ _ _).
Qed.

Lemma rfcs_ordenar_resultados resultados rfcs_norm :
  Resultado.rfc <$> ordenar_resultados resultados rfcs_norm = rfcs_norm.
Proof.
  unfold ordenar_resultados. rewrite <- list_fmap_compose.
  rewrite <- (list_fmap_id rfcs_norm) at 2. apply list_fmap_ext. intros _ rfc _. simpl.
  destruct (dict_de Resultado.rfc id resultados !! rfc) as [r|] eqn:E; [|done].
  by apply dict_de_lookup_Some in E as (x & _ & Hk & <-).
Qed.

(** What [create_relations_batch_with_status] leaves behind: either the new
    rows after the old ones, or a rolled-back session and no row. *)
Lemma create_relations_batch_with_status_casos ahora session tenant_id proveedores :
  let relaciones := construir_relaciones ahora tenant_id (uuid4 session) proveedores in
  let tabla := tenant_proveedores (transaccion session) in
  let creadas := create_relations_batch_with_status ahora session tenant_id proveedores in
  (respeta_unicidad tabla relaciones ∧ creadas.2 = relaciones ∧
   tenant_proveedores (transaccion creadas.1) = tabla ++ relaciones ∧
   confirmado creadas.1 = confirmado session)
  ∨ (¬ respeta_unicidad tabla relaciones ∧ creadas = (rollback session, [])).
Proof.
  cbv zeta. unfold create_relations_batch_with_status.
  destruct (decide (respeta_unicidad _ _)) as [Hok|Hno]; [left|right]; done.
Qed.

(** The rows a batch leaves in the view of the transaction were there
    before, in that view or in the durable state, or carry one of the valid
    RFCs of the batch. *)
Lemma agregar_proveedores_batch_filas ahora session tenant_id proveedores limite_rfcs s' r rel :
  agregar_proveedores_batch ahora session tenant_id proveedores limite_rfcs = (s', r) →
  rel ∈ tenant_proveedores (transaccion s') →
  rel ∈ tenant_proveedores (transaccion session)
  ∨ rel ∈ tenant_proveedores (confirmado session)
  ∨ (TenantProveedor.tenant_id rel = tenant_id ∧
     TenantProveedor.rfc rel ∈ rfcs_validos proveedores ∧
     relaciones_de tenant_id (TenantProveedor.rfc rel)
                   (tenant_proveedores (transaccion session)) = []).
Proof.
  intros Heq Hrel.
  destruct (decide (rfcs_validos proveedores = [])) as [Hnil|Hne].
  { unfold agregar_proveedores_batch in Heq.
    pose proof (extraer_rfcs_fst proveedores [] ∅) as Hfst.
    destruct (extraer_rfcs proveedores [] ∅) as [rfcs_norm razones].
    simpl in Hfst. rewrite Hnil in Hfst. subst rfcs_norm. simplify_eq. by left. }
  destruct (tenant_por_id (transaccion session) tenant_id) as [tenant|] eqn:Hten.
  2:{ unfold agregar_proveedores_batch in Heq.
      pose proof (extraer_rfcs_fst proveedores [] ∅) as Hfst.
      destruct (extraer_rfcs proveedores [] ∅) as [rfcs_norm razones].
      simpl in Hfst. subst rfcs_norm.
      destruct (rfcs_validos proveedores); [done|]. rewrite Hten in Heq. simplify_eq. by left. }
  rewrite (agregar_proveedores_batch_eq _ _ _ _ _ tenant Hne Hten) in Heq.
  cbv zeta in Heq.
  set (existentes := get_by_tenant_and_rfcs_batch session tenant_id (rfcs_validos proveedores)) in *.
  set (ds := decidir _ _ _) in *.
  destruct (nuevo_de _ <$> ds) as [|n ns] eqn:Hn; [simplify_eq; by left|].
  rewrite <- Hn in Heq. clear n ns Hn.
  destruct (create_relations_batch_with_status_casos ahora session tenant_id
              (nuevo_de (extraer_rfcs proveedores [] ∅).2 <$> ds))
    as [(Hok & Hcre & Htab & Hconf)|[Hno Hcre]]; simplify_eq.
  - rewrite Htab in Hrel. apply elem_of_app in Hrel as [?|Hrel]; [by left|]. right; right.
    apply list_elem_of_lookup in Hrel as [i Hi].
    rewrite construir_relaciones_lookup, list_lookup_fmap in Hi.
    destruct (ds !! i) as [d|] eqn:Hd; [|done]. simpl in Hi. simplify_eq. simpl.
    assert (Hd1 : d.1 ∈ filter (λ rfc, existentes !! rfc = None) (rfcs_validos proveedores)).
    { rewrite <- (decidir_fst (contar_activos (transaccion session) tenant_id)
                    (limite_burst limite_rfcs)).
      apply list_elem_of_fmap_2. by eapply list_elem_of_lookup_2. }
    apply list_elem_of_filter in Hd1 as [Hnone Hin].
    destruct (rfcs_validos_elem _ _ Hin) as (Hnorm & _ & _). rewrite Hnorm.
    split_and!; [done..|].
    apply existentes_None in Hnone; [done| |done].
    intros x Hx. by destruct (rfcs_validos_elem _ _ Hx).
  - rewrite Hcre in Hrel. simpl in Hrel. by right; left.
Qed.

Lemma agregar_proveedores_batch_retorna ahora session tenant_id proveedores limite_rfcs :
  is_Some (tenant_por_id (transaccion session) tenant_id) →
  ∃ s' res,
    agregar_proveedores_batch ahora session tenant_id proveedores limite_rfcs
    = (s', Retorna res).
Proof.
  intros [tenant Hten].
  destruct (decide (rfcs_validos proveedores = [])) as [Hnil|Hne].
  - unfold agregar_proveedores_batch.
    pose proof (extraer_rfcs_fst proveedores [] ∅) as Hfst.
    destruct (extraer_rfcs proveedores [] ∅) as [rfcs_norm razones].
    simpl in Hfst. rewrite Hnil in Hfst. subst rfcs_norm. eauto.
  - rewrite (agregar_proveedores_batch_eq _ _ _ _ _ tenant Hne Hten). cbv zeta.
    destruct (nuevo_de _ <$> _); eauto.
Qed.



(** ** Batch-add: the answers *)

Lemma filter_nuevos session tenant_id rfcs :
  (∀ x, x ∈ rfcs → normalizar x = x) →
  filter (λ rfc, get_by_tenant_and_rfcs_batch session tenant_id rfcs !! rfc = None) rfcs
  = rfcs_nuevos tenant_id (tenant_proveedores (transaccion session)) rfcs.
Proof.
  intros Hnorm. unfold rfcs_nuevos. apply filter_ext_elem. intros rfc Hin.
  by apply existentes_None.
Qed.

Lemma rfcs_validos_normalizados proveedores x :
  x ∈ rfcs_validos proveedores → normalizar x = x.
Proof. intros Hx. by destruct (rfcs_validos_elem _ _ Hx). Qed.

Lemma rfcs_resultados_existentes existentes rfcs :
  Resultado.rfc <$> resultados_existentes existentes rfcs
  = filter (λ rfc, ¬ existentes !! rfc = None) rfcs.
Proof.
  unfold resultados_existentes. induction rfcs as [|r rs IH]; [done|].
  rewrite filter_cons. cbn [omap list_omap]. fold (@omap list _).
  destruct (existentes !! r) as [rel|] eqn:E.
  - rewrite decide_True by done. simpl. by rewrite <- IH.
  - rewrite decide_False by (by intros []). exact IH.
Qed.

Lemma elem_of_resultados_existentes existentes rfcs r :
  r ∈ resultados_existentes existentes rfcs ↔
  ∃ rel, Resultado.rfc r ∈ rfcs ∧ existentes !! Resultado.rfc r = Some rel ∧
         r = Resultado.mk (Resultado.rfc r) (Some (TenantProveedor.id rel))
               (Some (mensaje_ya_existe (Resultado.rfc r))).
Proof.
  unfold resultados_existentes. rewrite list_elem_of_omap. split.
  - intros (rfc & Hin & Hr). destruct (existentes !! rfc) as [rel|] eqn:E; [|done].
    simpl in Hr. simplify_eq. simpl. eauto.
  - intros (rel & Hin & Hex & Hr). exists (Resultado.rfc r). split; [done|].
    rewrite Hex. simpl. by rewrite <- Hr.
Qed.

Lemma rfcs_resultado_nuevo relaciones_dict (nuevos : list Nuevo.t) :
  Resultado.rfc <$> (resultado_nuevo relaciones_dict <$> nuevos) = Nuevo.rfc <$> nuevos.
Proof.
  rewrite <- list_fmap_compose. apply list_fmap_ext. intros _ p _. simpl.
  unfold resultado_nuevo. by destruct (relaciones_dict !! Nuevo.rfc p).
Qed.

Lemma rfcs_nuevo_de razones (ds : list (string * bool)) : Nuevo.rfc <$> (nuevo_de razones <$> ds) = ds.*1.
Proof. by rewrite <- list_fmap_compose. Qed.

(** An RFC the tenant already has is answered with the id of its relation,
    wherever it stands in the batch and whatever else the batch holds. *)
Lemma ordenar_resultados_existente existentes rfcs otros rfc rel :
  rfc ∈ rfcs → existentes !! rfc = Some rel →
  (∀ r, r ∈ otros → Resultado.rfc r ≠ rfc) →
  dict_de Resultado.rfc id (resultados_existentes existentes rfcs ++ otros) !! rfc
  = Some (Resultado.mk rfc (Some (TenantProveedor.id rel)) (Some (mensaje_ya_existe rfc))).
Proof.
  intros Hin Hex Hotros.
  set (r0 := Resultado.mk rfc (Some (TenantProveedor.id rel)) (Some (mensaje_ya_existe rfc))).
  assert (Hr0 : r0 ∈ resultados_existentes existentes rfcs ++ otros).
  { apply elem_of_app. left. apply elem_of_resultados_existentes. exists rel. done. }
  destruct (dict_de_lookup_is_Some Resultado.rfc id _ _ Hr0) as [r Hr].
  change (Resultado.rfc r0) with rfc in Hr. rewrite Hr. f_equal.
  apply dict_de_lookup_Some in Hr as (x & Hx & Hk & <-). simpl.
  apply elem_of_app in Hx as [Hx|Hx]; [|by destruct (Hotros x Hx)].
  apply elem_of_resultados_existentes in Hx as (rel' & _ & Hex' & ->).
  rewrite Hk in Hex' |- *. by simplify_eq.
Qed.

Lemma relaciones_de_app tenant_id rfc tabla nuevas :
  relaciones_de tenant_id rfc (tabla ++ nuevas)
  = relaciones_de tenant_id rfc tabla ++ relaciones_de tenant_id rfc nuevas.
Proof. apply filter_app. Qed.

Lemma relaciones_de_nil tenant_id rfc tabla :
  rfc ∉ TenantProveedor.rfc <$> tabla → relaciones_de tenant_id rfc tabla = [].
Proof.
  intros Hno. unfold relaciones_de.
  destruct (filter _ tabla) as [|rel f] eqn:Hf; [done|].
  assert (Hin : rel ∈ filter (λ rel, TenantProveedor.tenant_id rel = tenant_id ∧
                                     TenantProveedor.rfc rel = rfc) tabla)
    by (rewrite Hf; left).
  apply list_elem_of_filter in Hin as [[_ Hr] Hin].
  destruct Hno. rewrite <- Hr. by apply list_elem_of_fmap_2.
Qed.



(** ** Batch-add: the burst rule *)

Lemma NoDup_particion {A} (P : A → Prop) `{!∀ x, Decision (P x)} (l : list A) :
  NoDup l → NoDup (filter (λ x, ¬ P x) l ++ filter P l).
Proof.
  intros Hnd. apply NoDup_app. split_and!.
  - by apply NoDup_filter.
  - intros x [Hno _]%list_elem_of_filter [Hsi _]%list_elem_of_filter. done.
  - by apply NoDup_filter.
Qed.



(** The same scenario, evaluated: 23 active relations, then an inactive
    one whose entry carries the burst notice. *)
Example escenario_limite_20_lote_24 :
  let session := Muestra.sesion_de (Muestra.bd [Muestra.tenant_con_limite 1 (Some 20%Z)] [] [] []) in
  let salida := agregar_proveedores_batch 9 session 1 (Muestra.lote 24) 20 in
  limite_burst 20 = 23%Z
  ∧ TenantProveedor.activo <$> tenant_proveedores (transaccion salida.1)
    = replicate 23 true ++ [false]
  ∧ TenantProveedor.rfc <$> tenant_proveedores (transaccion salida.1)
    = Muestra.rfc_n <$> seq 0 24
  ∧ fmap (M:=list) Resultado.error <$> retorno salida.2
    = Some (replicate 23 None ++ [Some mensaje_inactivo]).
Proof. vm_compute. done. Qed.


(** ** Activation and deactivation of one RFC *)

Lemma filter_fmap_comm {A} (P : A → Prop) `{!∀ x, Decision (P x)} (f : A → A) (l : list A) :
  (∀ x, P (f x) ↔ P x) → filter P (f <$> l) = f <$> filter P l.
Proof.
  intros Hf. induction l as [|x l IH]; [done|].
  rewrite fmap_cons, !filter_cons, IH.
  destruct (decide (P x)) as [Hx|Hx].
  - rewrite decide_True by (by apply Hf). done.
  - rewrite decide_False by (by rewrite Hf). done.
Qed.

Lemma get_by_tenant_and_rfc_fijar_activo session tenant_id rfc relation activo :
  get_by_tenant_and_rfc session tenant_id rfc = Some relation →
  TenantProveedor.activo
    <$> get_by_tenant_and_rfc (commit (fijar_activo session relation activo)) tenant_id rfc
  = Some activo.
Proof.
  unfold get_by_tenant_and_rfc, fijar_activo, commit, escribir. cbn.
  intros Hget. rewrite filter_fmap_comm.
  - destruct (filter _ _) as [|rel tabla]; simplify_eq/=.
    by rewrite decide_True.
  - intros rel. by destruct (decide (TenantProveedor.id rel = TenantProveedor.id relation)).
Qed.



(** On a plan without limit the activation is lost: [None * 0.15] raises a
    [TypeError], the generic handler rolls back and the call answers
    [None]. *)
Remark activar_con_plan_ilimitado :
  let session :=
    Muestra.sesion_de
      (Muestra.bd [Muestra.tenant_con_limite 1 None] [Muestra.relacion 1 0 false 1] [] []) in
  actualizar_estado_operativo_rfc session 1 (Muestra.rfc_n 0) true
  = (rollback session, Retorna None).
Proof. reflexivity. Qed.

(** ** The reconciliations: loops and storage *)

Lemma preparar_detalles_spec rfcs_tenant sat_dict detalles n :
  preparar_detalles rfcs_tenant sat_dict detalles n
  = (detalles ++ ((λ rfc, (rfc, default NO_ENCONTRADO (sat_dict !! rfc))) <$> rfcs_tenant),
     n + length (filter no_es_centinela
                   ((λ rfc, (rfc, default NO_ENCONTRADO (sat_dict !! rfc))) <$> rfcs_tenant))).
Proof.
  revert detalles n. induction rfcs_tenant as [|rfc rs IH]; intros detalles n;
    cbn [preparar_detalles].
  - by rewrite app_nil_r, Nat.add_0_r.
  - rewrite IH, fmap_cons, <- app_assoc. cbn [app]. f_equal. rewrite filter_cons.
    destruct (decide (default NO_ENCONTRADO (sat_dict !! rfc) ≠ NO_ENCONTRADO)) as [H|H].
    + rewrite decide_True by exact H. cbn [length]. lia.
    + rewrite decide_False by exact H. lia.
Qed.

Lemma combinar_spec rfcs_list dof_dict proveedores_dict st :
  combinar rfcs_list dof_dict proveedores_dict st
  = mkCombinacion
      (detalles_dict st
       ++ ((λ rfc, (rfc, estado_combinado dof_dict proveedores_dict rfc)) <$> rfcs_list))
      (proveedores_encontrados st
       + length (filter (λ rfc, is_Some (dof_dict !! rfc) ∨ is_Some (proveedores_dict !! rfc))
                        rfcs_list))
      (proveedores_en_dof st + length (filter (λ rfc, is_Some (dof_dict !! rfc)) rfcs_list))
      (proveedores_en_sat st
       + length (filter (λ rfc, dof_dict !! rfc = None ∧ is_Some (proveedores_dict !! rfc))
                        rfcs_list)).
Proof.
  revert st. induction rfcs_list as [|rfc rs IH]; intros st; cbn [combinar].
  - destruct st; cbn. by rewrite app_nil_r, !Nat.add_0_r.
  - rewrite IH. clear IH. rewrite fmap_cons, !filter_cons. unfold estado_combinado at 2.
    destruct (dof_dict !! rfc) as [e|] eqn:Hd;
      [|destruct (proveedores_dict !! rfc) as [e|] eqn:Hp];
      cbn [detalles_dict proveedores_encontrados proveedores_en_dof proveedores_en_sat];
      rewrite <- app_assoc; cbn [app default];
      repeat case_decide;
      try (exfalso;
           repeat match goal with
                  | H : _ ∧ _ |- _ => destruct H
                  | H : _ ∨ _ |- _ => destruct H
                  | H : is_Some None |- _ => by destruct H
                  | H : Some _ = None |- _ => discriminate H
                  | H : ¬ _ |- _ => by (apply H; eauto)
                  end; fail);
      cbn [length]; f_equal; lia.
Qed.

(** What storing a run changes: one history row and the detail rows are
    appended in the view of the transaction, nothing else moves. *)
Lemma guardar_conciliacion_efecto ahora duracion session tenant_id tipo version total
    encontrados detalles :
  let guardado :=
    guardar_conciliacion ahora duracion session tenant_id tipo version total encontrados
                         detalles in
  let db := transaccion session in
  guardado.2 = uuid4 session
  ∧ transaccion guardado.1
    = mkBaseDatos (tenants db) (tenant_proveedores db) (proveedores db) (dof_contribuyentes db)
        (conciliacion_historial db
         ++ [ConciliacionHistorial.mk (uuid4 session) tenant_id ahora tipo version total
               encontrados "completado" duracion])
        (resultado_conciliaciones db
         ++ ((λ d : string * string, ConciliacionDetalle.mk (uuid4 session) d.1 d.2)
             <$> detalles))
  ∧ confirmado guardado.1 = confirmado session.
Proof. done. Qed.

(** [realizar_conciliacion] in one equation, once the tenant and the rows of
    the joined query are known. *)
Lemma realizar_conciliacion_eq ahora duracion session tenant_id tipo tenant resultados :
  tenant_por_id (transaccion session) tenant_id = Some tenant →
  consulta_rfcs_y_sat (transaccion session) tenant_id (limite_del_plan tenant)
  = Retorna resultados →
  let sat_dict :=
    dict_de fst (λ fila : string * option string,
                   if verdadero fila.2 then default "" fila.2 else NO_ENCONTRADO)
            resultados in
  let detalles := (λ rfc, (rfc, default NO_ENCONTRADO (sat_dict !! rfc))) <$> resultados.*1 in
  let encontrados := length (filter no_es_centinela detalles) in
  let version := _obtener_version_sat (transaccion session) in
  realizar_conciliacion ahora duracion session tenant_id tipo
  = ((guardar_conciliacion ahora duracion session tenant_id tipo version
        (length resultados) encontrados detalles).1,
     Retorna (Resumen.mk ahora tipo version (length resultados) encontrados "completado"
                (length resultados) encontrados (length resultados - encontrados)
                None None (uuid4 session))).
Proof.
  intros Hten Hcons. cbv zeta. unfold realizar_conciliacion.
  rewrite Hten, Hcons, preparar_detalles_spec. cbn [app Nat.add]. done.
Qed.

(** The DOF variant in one equation, once the tenant and the selected
    relations are known. *)
Lemma realizar_conciliacion_dof_proveedores_eq ahora duracion session tenant_id tipo tenant
    rfcs_tenant :
  tenant_por_id (transaccion session) tenant_id = Some tenant →
  consulta_rfcs_tenant (transaccion session) tenant_id (limite_del_plan tenant)
  = Retorna rfcs_tenant →
  rfcs_tenant ≠ [] →
  let rfcs_list := TenantProveedor.rfc <$> rfcs_tenant in
  let dof_dict := buscar_en_dof (transaccion session) rfcs_list in
  let proveedores_dict :=
    buscar_en_proveedores (transaccion session)
      (filter (λ rfc, dof_dict !! rfc = None) rfcs_list) in
  let detalles := (λ rfc, (rfc, estado_combinado dof_dict proveedores_dict rfc)) <$> rfcs_list in
  let encontrados :=
    length (filter (λ rfc, is_Some (dof_dict !! rfc) ∨ is_Some (proveedores_dict !! rfc))
                   rfcs_list) in
  let version := _obtener_version_sat (transaccion session) in
  realizar_conciliacion_dof_proveedores ahora duracion session tenant_id tipo
  = ((guardar_conciliacion ahora duracion session tenant_id tipo version
        (length rfcs_list) encontrados detalles).1,
     Retorna (Resumen.mk ahora tipo version (length rfcs_list) encontrados "completado"
                (length rfcs_list) encontrados (length rfcs_list - encontrados)
                (Some (length (filter (λ rfc, is_Some (dof_dict !! rfc)) rfcs_list)))
                (Some (length (filter (λ rfc, dof_dict !! rfc = None ∧
                                              is_Some (proveedores_dict !! rfc)) rfcs_list)))
                (uuid4 session))).
Proof.
  intros Hten Hcons Hne. cbv zeta. unfold realizar_conciliacion_dof_proveedores.
  rewrite Hten, Hcons.
  rewrite decide_False by (rewrite length_fmap; by destruct rfcs_tenant).
  rewrite combinar_spec.
  cbn [detalles_dict proveedores_encontrados proveedores_en_dof proveedores_en_sat
       app Nat.add]. done.
Qed.

(** ** DOF priority *)

Lemma buscar_en_dof_lookup db rfcs_list rfc :
  rfc ∈ rfcs_list →
  buscar_en_dof db rfcs_list !! rfc
  = DOFContribuyente.situacion_contribuyente
      <$> last (filter (λ c, DOFContribuyente.rfc c = rfc) (dof_contribuyentes db)).
Proof.
  intros Hin. unfold buscar_en_dof. rewrite dict_de_lookup, list_filter_filter.
  do 2 f_equal. apply list_filter_iff. intros c. split; [by intros [? _]|].
  intros Hc. split; [done|]. by rewrite Hc.
Qed.

Lemma buscar_en_proveedores_lookup db rfcs rfc :
  rfc ∈ rfcs →
  buscar_en_proveedores db rfcs !! rfc
  = Proveedor.situacion_contribuyente
      <$> last (filter (λ p, Proveedor.rfc p = rfc) (proveedores db)).
Proof.
  intros Hin. unfold buscar_en_proveedores.
  destruct rfcs as [|r0 rs] eqn:E; [by apply elem_of_nil in Hin|]. rewrite <- E in *.
  rewrite dict_de_lookup, list_filter_filter.
  do 2 f_equal. apply list_filter_iff. intros p. split; [by intros [? _]|].
  intros Hp. split; [done|]. by rewrite Hp.
Qed.

(** The state the DOF variant records for an RFC of its list, read off the
    two tables. *)
Lemma estado_combinado_tablas db rfcs_list rfc :
  rfc ∈ rfcs_list →
  let dof_dict := buscar_en_dof db rfcs_list in
  let proveedores_dict :=
    buscar_en_proveedores db (filter (λ rfc, dof_dict !! rfc = None) rfcs_list) in
  estado_combinado dof_dict proveedores_dict rfc
  = match last (filter (λ c, DOFContribuyente.rfc c = rfc) (dof_contribuyentes db)) with
    | Some c => DOFContribuyente.situacion_contribuyente c
    | None =>
        match last (filter (λ p, Proveedor.rfc p = rfc) (proveedores db)) with
        | Some p => Proveedor.situacion_contribuyente p
        | None => NO_ENCONTRADO
        end
    end.
Proof.
  intros Hin. cbv zeta. unfold estado_combinado.
  pose proof (buscar_en_dof_lookup db rfcs_list rfc Hin) as Hdof.
  destruct (last (filter (λ c, DOFContribuyente.rfc c = rfc) (dof_contribuyentes db)))
    as [c|]; rewrite Hdof; [done|]. cbn [fmap option_fmap option_map].
  rewrite buscar_en_proveedores_lookup by (by apply list_elem_of_filter).
  by destruct (last (filter _ (proveedores db))).
Qed.



(** The same run, evaluated. *)
Example escenario_prioridad_dof :
  (λ d, (ConciliacionDetalle.rfc d, ConciliacionDetalle.estado d))
    <$> resultado_conciliaciones
          (transaccion
             (realizar_conciliacion_dof_proveedores 9 4 Muestra.sesion_general 1 "DOF + SAT").1)
  = [(Muestra.rfc_n 1, "Desvirtuado"); (Muestra.rfc_n 3, "No encontrado")].
Proof. vm_compute. reflexivity. Qed.

(** ** FIFO selection *)

#[local] Instance mas_viejo_primero_trans : Transitive mas_viejo_primero.
Proof. intros a b c. unfold mas_viejo_primero. lia. Qed.

#[local] Instance mas_viejo_primero_total : Total mas_viejo_primero.
Proof. intros a b. unfold mas_viejo_primero. lia. Qed.

#[local] Instance mas_viejo_primero_join_trans : Transitive mas_viejo_primero_join.
Proof. intros a b c. unfold mas_viejo_primero_join, mas_viejo_primero. lia. Qed.

#[local] Instance mas_viejo_primero_join_total : Total mas_viejo_primero_join.
Proof. intros a b. unfold mas_viejo_primero_join, mas_viejo_primero. lia. Qed.

Lemma filter_unico {A} (f : A → string) (l : list A) k :
  NoDup (f <$> l) → (length (filter (λ x, f x = k) l) ≤ 1)%nat.
Proof.
  induction l as [|x l IH]; intros Hnd; [simpl; lia|].
  rewrite fmap_cons in Hnd. apply NoDup_cons in Hnd as [Hx Hnd].
  rewrite filter_cons. destruct (decide (f x = k)) as [<-|Hne]; [|by apply IH].
  assert (filter (λ y, f y = f x) l = []) as ->; [|simpl; lia].
  destruct (filter _ l) as [|y ys] eqn:E; [done|].
  assert (Hy : y ∈ filter (λ y, f y = f x) l) by (rewrite E; left).
  apply list_elem_of_filter in Hy as [Hfy Hy]. destruct Hx.
  rewrite <- Hfy. by apply list_elem_of_fmap_2.
Qed.

(** With unique RFCs in the SAT table the outer join has one row per
    relation. *)
Lemma outerjoin_unico tps provs :
  NoDup (Proveedor.rfc <$> provs) → outerjoin tps provs = fila_sat provs <$> tps.
Proof.
  intros Hnd. unfold outerjoin. induction tps as [|tp tps IH]; [done|].
  cbn [flat_map]. rewrite IH, fmap_cons. clear IH.
  pose proof (filter_unico Proveedor.rfc provs (TenantProveedor.rfc tp) Hnd) as Hlen.
  unfold fila_sat at 2.
  destruct (filter _ provs) as [|p [|p' ps]]; [done|done|]. simpl in Hlen. lia.
Qed.

Lemma filter_fmap_l {A B} (P : B → Prop) `{!∀ x, Decision (P x)} (f : A → B) (l : list A) :
  filter P (f <$> l) = f <$> filter (λ x, P (f x)) l.
Proof.
  induction l as [|x l IH]; [done|].
  rewrite fmap_cons, !filter_cons, IH. by destruct (decide (P (f x))).
Qed.

(** The first [n] elements of a sorted arrangement are a FIFO selection. *)
Lemma take_es_seleccion_fifo n activas ordenadas :
  ordenadas ≡ₚ activas → StronglySorted mas_viejo_primero ordenadas →
  (n ≤ length activas)%nat →
  es_seleccion_fifo n activas (take n ordenadas).
Proof.
  intros Hperm Hsort Hn. exists (drop n ordenadas). split_and!.
  - by rewrite take_drop.
  - apply length_take_le. by rewrite Hperm.
  - intros a b Ha Hb. rewrite <- (take_drop n ordenadas) in Hsort.
    by eapply StronglySorted_app_1_elem_of.
Qed.

Lemma StronglySorted_fmap_fst (l : list (TenantProveedor.t * option Proveedor.t)) :
  StronglySorted mas_viejo_primero_join l → StronglySorted mas_viejo_primero l.*1.
Proof.
  induction 1 as [|x l Hs IH Hall]; [constructor|].
  rewrite fmap_cons. constructor; [done|].
  apply Forall_fmap. by eapply Forall_impl.
Qed.

(** The joined query of [realizar_conciliacion] is the plain selection of
    relations, each one decorated with its SAT state. *)
Lemma consulta_rfcs_y_sat_spec db tenant_id limite_rfcs :
  unicidad_proveedores db →
  let activas := filter (es_activo_de tenant_id) (tenant_proveedores db) in
  ∃ ordenadas,
    ordenadas ≡ₚ activas
    ∧ StronglySorted mas_viejo_primero ordenadas
    ∧ consulta_rfcs_y_sat db tenant_id limite_rfcs
      = match limit limite_rfcs ordenadas with
        | Retorna en_cuota =>
            Retorna ((λ tp, (TenantProveedor.rfc tp,
                             Proveedor.situacion_contribuyente
                               <$> (fila_sat (proveedores db) tp).2))
                     <$> en_cuota)
        | Lanza e => Lanza e
        end.
Proof.
  intros Huni activas. unfold consulta_rfcs_y_sat.
  rewrite outerjoin_unico by done. rewrite filter_fmap_l. cbn [fst fila_sat].
  fold activas.
  set (ordenadas := merge_sort mas_viejo_primero_join (fila_sat (proveedores db) <$> activas)).
  assert (Hperm : ordenadas.*1 ≡ₚ activas).
  { unfold ordenadas. rewrite merge_sort_Permutation, <- list_fmap_compose.
    by rewrite list_fmap_id. }
  assert (Hfila : ∀ fila, fila ∈ ordenadas → fila = fila_sat (proveedores db) fila.1).
  { intros fila Hin. unfold ordenadas in Hin. rewrite merge_sort_Permutation in Hin.
    by apply list_elem_of_fmap in Hin as (tp & -> & _). }
  assert (Hproy : ∀ filas : list (TenantProveedor.t * option Proveedor.t),
            filas ⊆ ordenadas →
            (λ fila : TenantProveedor.t * option Proveedor.t,
               (TenantProveedor.rfc fila.1, Proveedor.situacion_contribuyente <$> fila.2))
              <$> filas
            = (λ tp, (TenantProveedor.rfc tp,
                      Proveedor.situacion_contribuyente <$> (fila_sat (proveedores db) tp).2))
                <$> filas.*1).
  { intros filas Hsub. rewrite <- list_fmap_compose. apply list_fmap_ext.
    intros i fila Hi.
    assert (Hin : fila ∈ ordenadas) by (by eapply Hsub, list_elem_of_lookup_2).
    specialize (Hfila fila Hin). destruct fila as [tp o].
    unfold fila_sat in *. cbn [fst snd compose] in *. by simplify_eq. }
  exists (ordenadas.*1). split_and!; [done| |].
  - apply StronglySorted_fmap_fst, StronglySorted_merge_sort; apply _.
  - unfold limit. destruct limite_rfcs as [L|].
    + destruct (L <? 0)%Z; [done|]. rewrite <- fmap_take. f_equal. apply Hproy.
      apply subseteq_take.
    + f_equal. by apply Hproy.
Qed.

Lemma consulta_rfcs_tenant_spec db tenant_id limite_rfcs :
  let activas := filter (es_activo_de tenant_id) (tenant_proveedores db) in
  ∃ ordenadas,
    ordenadas ≡ₚ activas
    ∧ StronglySorted mas_viejo_primero ordenadas
    ∧ consulta_rfcs_tenant db tenant_id limite_rfcs = limit limite_rfcs ordenadas.
Proof.
  intros activas. exists (merge_sort mas_viejo_primero activas).
  split_and!; [apply merge_sort_Permutation| |reflexivity].
  apply StronglySorted_merge_sort; apply _.
Qed.

Lemma limit_Some {A} (L : Z) (filas : list A) :
  (0 <= L)%Z → limit (Some L) filas = Retorna (take (Z.to_nat L) filas).
Proof. intros HL. unfold limit. by destruct (Z.ltb_spec L 0); [lia|]. Qed.

(** C2 — For a tenant with plan limit [L] and more than [L] active
    relations, each of the two runs works on exactly [L] of them, none of
    the active relations it leaves out being older than one it takes;
    inactive relations are never among them. The detail rows of the run are
    those of the selection, in order, and [rfcs_procesados] is [L]. *)
Theorem C2_seleccion_fifo ahora duracion session tenant_id tipo tenant (L : Z) :
  tenant_por_id (transaccion session) tenant_id = Some tenant →
  limite_del_plan tenant = Some L →
  (0 <= L)%Z →
  unicidad_proveedores (transaccion session) →
  let db := transaccion session in
  let activas := filter (es_activo_de tenant_id) (tenant_proveedores db) in
  (L < Z.of_nat (length activas))%Z →
  (∃ s' res en_cuota detalles,
     realizar_conciliacion ahora duracion session tenant_id tipo = (s', Retorna res)
     ∧ es_seleccion_fifo (Z.to_nat L) activas en_cuota
     ∧ resultado_conciliaciones (transaccion s') = resultado_conciliaciones db ++ detalles
     ∧ ConciliacionDetalle.rfc <$> detalles = TenantProveedor.rfc <$> en_cuota
     ∧ Resumen.rfcs_procesados res = Z.to_nat L)
  ∧ ((0 < L)%Z →
     ∃ s' res en_cuota detalles,
       realizar_conciliacion_dof_proveedores ahora duracion session tenant_id tipo
       = (s', Retorna res)
       ∧ es_seleccion_fifo (Z.to_nat L) activas en_cuota
       ∧ resultado_conciliaciones (transaccion s') = resultado_conciliaciones db ++ detalles
       ∧ ConciliacionDetalle.rfc <$> detalles = TenantProveedor.rfc <$> en_cuota
       ∧ Resumen.rfcs_procesados res = Z.to_nat L).
Proof.
  intros Hten Hlim HL Huni db activas Hmas. split.
  - destruct (consulta_rfcs_y_sat_spec db tenant_id (Some L) Huni)
      as (ordenadas & Hperm & Hsort & Hcons).
    rewrite limit_Some in Hcons by done. rewrite <- Hlim in Hcons.
    rewrite (realizar_conciliacion_eq _ _ _ _ _ tenant _ Hten Hcons). cbv zeta.
    eexists _, _, (take (Z.to_nat L) ordenadas), _.
    split_and!; [reflexivity| |reflexivity| |].
    + apply take_es_seleccion_fifo; [done..|]. fold activas. lia.
    + rewrite <- !list_fmap_compose. done.
    + cbn. rewrite length_fmap, length_take_le; [done|].
      rewrite Hperm. fold activas. lia.
  - intros Hpos.
    destruct (consulta_rfcs_tenant_spec db tenant_id (Some L))
      as (ordenadas & Hperm & Hsort & Hcons).
    rewrite limit_Some in Hcons by done. rewrite <- Hlim in Hcons.
    assert (Hlen : length (take (Z.to_nat L) ordenadas) = Z.to_nat L).
    { apply length_take_le. rewrite Hperm. fold activas. lia. }
    assert (Hne : take (Z.to_nat L) ordenadas ≠ []).
    { intros E. rewrite E in Hlen. simpl in Hlen. lia. }
    rewrite (realizar_conciliacion_dof_proveedores_eq _ _ _ _ _ tenant _ Hten Hcons Hne).
    cbv zeta. eexists _, _, (take (Z.to_nat L) ordenadas), _.
    split_and!; [reflexivity| |reflexivity| |].
    + apply take_es_seleccion_fifo; [done..|]. fold activas. lia.
    + rewrite <- !list_fmap_compose. done.
    + cbn. by rewrite length_fmap.
Qed.

(** The scenario of the specification, scaled down: tenant 1 of the sample
    has limit 2 and three active relations, created at 30, 10 and 20. *)
Lemma C2_seleccion_fifo_witness :
  let session := Muestra.sesion_general in
  let db := transaccion session in
  let activas := filter (es_activo_de 1) (tenant_proveedores db) in
  (∃ s' res en_cuota detalles,
     realizar_conciliacion 9 4 session 1 "Manual" = (s', Retorna res)
     ∧ es_seleccion_fifo (Z.to_nat 2) activas en_cuota
     ∧ resultado_conciliaciones (transaccion s') = resultado_conciliaciones db ++ detalles
     ∧ ConciliacionDetalle.rfc <$> detalles = TenantProveedor.rfc <$> en_cuota
     ∧ Resumen.rfcs_procesados res = Z.to_nat 2)
  ∧ ((0 < 2)%Z →
     ∃ s' res en_cuota detalles,
       realizar_conciliacion_dof_proveedores 9 4 session 1 "Manual" = (s', Retorna res)
       ∧ es_seleccion_fifo (Z.to_nat 2) activas en_cuota
       ∧ resultado_conciliaciones (transaccion s') = resultado_conciliaciones db ++ detalles
       ∧ ConciliacionDetalle.rfc <$> detalles = TenantProveedor.rfc <$> en_cuota
       ∧ Resumen.rfcs_procesados res = Z.to_nat 2).
Proof.
  intros session db activas.
  apply (C2_seleccion_fifo 9 4 session 1 "Manual" (Muestra.tenant_con_limite 1 (Some 2%Z)) 2).
  - reflexivity.
  - reflexivity.
  - lia.
  - apply (bool_decide_unpack _). vm_compute. exact I.
  - vm_compute. reflexivity.
Defined.

(** The same run, evaluated: the relations created at 10 and 20 are taken,
    the one created at 30 and the inactive one are not. *)
Example escenario_fifo :
  ConciliacionDetalle.rfc
    <$> resultado_conciliaciones
          (transaccion (realizar_conciliacion 9 4 Muestra.sesion_general 1 "Manual").1)
  = [Muestra.rfc_n 1; Muestra.rfc_n 3].
Proof. vm_compute. reflexivity. Qed.

(** ** The limit of a tenant without plan or without limit *)

(** C7 (as amended) — The limit resolves to 0 only for a tenant without
    plan: its plain run then records a run with no RFC and the DOF variant
    fails for want of RFCs. A plan whose limit is null resolves to [None],
    the query applies no limit, and both runs work on every active
    relation of the tenant. *)
Theorem C7_limite_sin_plan_o_ilimitado ahora duracion session tenant_id tipo tenant :
  tenant_por_id (transaccion session) tenant_id = Some tenant →
  unicidad_proveedores (transaccion session) →
  let db := transaccion session in
  let activas := filter (es_activo_de tenant_id) (tenant_proveedores db) in
  (Tenant.plan tenant = None →
   limite_del_plan tenant = Some 0%Z
   ∧ (∃ s' res,
        realizar_conciliacion ahora duracion session tenant_id tipo = (s', Retorna res)
        ∧ Resumen.rfcs_procesados res = 0
        ∧ resultado_conciliaciones (transaccion s') = resultado_conciliaciones db)
   ∧ realizar_conciliacion_dof_proveedores ahora duracion session tenant_id tipo
     = (session, Lanza (ValueError "No hay proveedores para conciliar")))
  ∧ (∀ plan,
       Tenant.plan tenant = Some plan → Plan.limite_proveedores plan = None →
       limite_del_plan tenant = None
       ∧ (∃ s' res en_cuota detalles,
            realizar_conciliacion ahora duracion session tenant_id tipo = (s', Retorna res)
            ∧ en_cuota ≡ₚ activas
            ∧ resultado_conciliaciones (transaccion s')
              = resultado_conciliaciones db ++ detalles
            ∧ ConciliacionDetalle.rfc <$> detalles = TenantProveedor.rfc <$> en_cuota
            ∧ Resumen.rfcs_procesados res = length activas)
       ∧ (activas ≠ [] →
          ∃ s' res en_cuota detalles,
            realizar_conciliacion_dof_proveedores ahora duracion session tenant_id tipo
            = (s', Retorna res)
            ∧ en_cuota ≡ₚ activas
            ∧ resultado_conciliaciones (transaccion s')
              = resultado_conciliaciones db ++ detalles
            ∧ ConciliacionDetalle.rfc <$> detalles = TenantProveedor.rfc <$> en_cuota
            ∧ Resumen.rfcs_procesados res = length activas)).
Proof.
  intros Hten Huni db activas. split.
  - intros Hplan.
    assert (Hlim : limite_del_plan tenant = Some 0%Z) by (unfold limite_del_plan; by rewrite Hplan).
    split_and!; [done| |].
    + destruct (consulta_rfcs_y_sat_spec db tenant_id (Some 0%Z) Huni)
        as (ordenadas & _ & _ & Hcons).
      rewrite limit_Some in Hcons by done. rewrite <- Hlim in Hcons.
      rewrite (realizar_conciliacion_eq _ _ _ _ _ tenant _ Hten Hcons). cbv zeta.
      eexists _, _. split_and!; [reflexivity|done|]. cbn. by rewrite app_nil_r.
    + unfold realizar_conciliacion_dof_proveedores. rewrite Hten, Hlim.
      unfold consulta_rfcs_tenant. by rewrite limit_Some.
  - intros plan Hplan Hnull.
    assert (Hlim : limite_del_plan tenant = None) by (unfold limite_del_plan; by rewrite Hplan).
    split_and!; [done| |].
    + destruct (consulta_rfcs_y_sat_spec db tenant_id None Huni)
        as (ordenadas & Hperm & _ & Hcons).
      cbn [limit] in Hcons. rewrite <- Hlim in Hcons.
      rewrite (realizar_conciliacion_eq _ _ _ _ _ tenant _ Hten Hcons). cbv zeta.
      eexists _, _, ordenadas, _. split_and!; [reflexivity|done|reflexivity| |].
      * by rewrite <- !list_fmap_compose.
      * cbn. by rewrite length_fmap, Hperm.
    + intros Hne.
      destruct (consulta_rfcs_tenant_spec db tenant_id None)
        as (ordenadas & Hperm & _ & Hcons).
      cbn [limit] in Hcons. rewrite <- Hlim in Hcons.
      assert (Hne' : ordenadas ≠ []).
      { intros E. rewrite E in Hperm. symmetry in Hperm.
        by apply Permutation_nil_r in Hperm. }
      rewrite (realizar_conciliacion_dof_proveedores_eq _ _ _ _ _ tenant _ Hten Hcons Hne').
      cbv zeta. eexists _, _, ordenadas, _. split_and!; [reflexivity|done|reflexivity| |].
      * by rewrite <- !list_fmap_compose.
      * cbn. by rewrite length_fmap, Hperm.
Qed.

(** Tenant 3 of the sample, whose plan has no limit, and its three active
    relations. *)
Lemma C7_limite_sin_plan_o_ilimitado_witness :
  let session := Muestra.sesion_general in
  let db := transaccion session in
  let activas := filter (es_activo_de 3) (tenant_proveedores db) in
  limite_del_plan (Muestra.tenant_con_limite 3 None) = None
  ∧ (∃ s' res en_cuota detalles,
       realizar_conciliacion 9 4 session 3 "Manual" = (s', Retorna res)
       ∧ en_cuota ≡ₚ activas
       ∧ resultado_conciliaciones (transaccion s') = resultado_conciliaciones db ++ detalles
       ∧ ConciliacionDetalle.rfc <$> detalles = TenantProveedor.rfc <$> en_cuota
       ∧ Resumen.rfcs_procesados res = length activas)
  ∧ (activas ≠ [] →
     ∃ s' res en_cuota detalles,
       realizar_conciliacion_dof_proveedores 9 4 session 3 "Manual" = (s', Retorna res)
       ∧ en_cuota ≡ₚ activas
       ∧ resultado_conciliaciones (transaccion s') = resultado_conciliaciones db ++ detalles
       ∧ ConciliacionDetalle.rfc <$> detalles = TenantProveedor.rfc <$> en_cuota
       ∧ Resumen.rfcs_procesados res = length activas).
Proof.
  intros session db activas.
  refine (proj2 (C7_limite_sin_plan_o_ilimitado 9 4 session 3 "Manual"
                   (Muestra.tenant_con_limite 3 None) eq_refl _) (Plan.mk None) eq_refl eq_refl).
  apply (bool_decide_unpack _). vm_compute. exact I.
Defined.

(** The claim as first stated fails for the tenant whose plan has no limit:
    its limit does not resolve to 0 and its run works on its three active
    relations, not on none. *)
Lemma C7_contraejemplo :
  let tenant := Muestra.tenant_con_limite 3 None in
  let salida := realizar_conciliacion 9 4 Muestra.sesion_general 3 "Manual" in
  tenant_por_id (transaccion Muestra.sesion_general) 3 = Some tenant
  ∧ Plan.limite_proveedores <$> Tenant.plan tenant = Some None
  ∧ limite_del_plan tenant ≠ Some 0%Z
  ∧ Resumen.rfcs_procesados <$> retorno salida.2 = Some 3
  ∧ ConciliacionDetalle.rfc <$> resultado_conciliaciones (transaccion salida.1)
    = [Muestra.rfc_n 6; Muestra.rfc_n 4; Muestra.rfc_n 5].
Proof. vm_compute. split_and!; done. Qed.

(** ** Reconciliation of a given list of RFCs *)

Lemma normalizar_lista_Permutation rfcs :
  normalizar_lista rfcs ≡ₚ remove_dups (normalizar <$> rfcs).
Proof. apply merge_sort_Permutation. Qed.

Lemma elem_of_normalizar_lista rfcs x :
  x ∈ normalizar_lista rfcs ↔ ∃ rfc, rfc ∈ rfcs ∧ x = normalizar rfc.
Proof.
  rewrite normalizar_lista_Permutation, elem_of_remove_dups, list_elem_of_fmap.
  split; intros (rfc & ? & ?); eauto.
Qed.

Lemma NoDup_normalizar_lista rfcs : NoDup (normalizar_lista rfcs).
Proof. rewrite normalizar_lista_Permutation. apply NoDup_remove_dups. Qed.

Lemma Sorted_normalizar_lista rfcs : Sorted String.le (normalizar_lista rfcs).
Proof. apply Sorted_merge_sort. apply _. Qed.

Lemma normalizar_lista_nil rfcs : normalizar_lista rfcs = [] ↔ rfcs = [].
Proof.
  split; [|by intros ->].
  intros Hnil. destruct rfcs as [|r rs]; [done|].
  assert (normalizar r ∈ normalizar_lista (r :: rs)) as Hin.
  { apply elem_of_normalizar_lista. exists r. split; [left|done]. }
  rewrite Hnil in Hin. by apply elem_of_nil in Hin.
Qed.

Lemma fijar_duracion_fresco session historial_id duracion :
  Forall (λ h, ConciliacionHistorial.id h ≠ historial_id)
         (conciliacion_historial (transaccion session)) →
  fijar_duracion session historial_id duracion = session.
Proof.
  intros Hfresco. unfold fijar_duracion, escribir, con_conciliacion_historial.
  destruct session as [conf [ts tps provs dofs hist dets] u]. cbn in *. do 2 f_equal.
  induction Hfresco as [|h hs Hh _ IH]; [done|].
  rewrite fmap_cons, IH. by rewrite decide_False.
Qed.

(** The state recorded for an RFC of the list, read off the SAT table. *)
Lemma estado_especifico db (rfcs_norm : list string) rfc :
  rfc ∈ rfcs_norm →
  dict_de Proveedor.rfc id (filter (λ p, Proveedor.rfc p ∈ rfcs_norm) (proveedores db)) !! rfc
  = last (filter (λ p, Proveedor.rfc p = rfc) (proveedores db)).
Proof.
  intros Hin. rewrite dict_de_lookup, list_filter_filter, option_fmap_id. f_equal.
  apply list_filter_iff. intros p. split; [by intros [? _]|].
  intros Hp. split; [done|]. by rewrite Hp.
Qed.

(** [conciliar_rfcs_especificos] in one equation, for a non-empty list and
    fresh identifiers. *)
Lemma conciliar_rfcs_especificos_eq ahora duracion session tenant_id rfcs tipo :
  uuid4_fresco session → rfcs ≠ [] →
  let db := transaccion session in
  let rfcs_norm := normalizar_lista rfcs in
  let proveedores_sat := filter (λ p, Proveedor.rfc p ∈ rfcs_norm) (proveedores db) in
  let historial :=
    ConciliacionHistorial.mk (uuid4 session) tenant_id ahora tipo (_obtener_version_sat db)
      (length rfcs_norm) (length proveedores_sat) "completado" duracion in
  let detalles :=
    (λ rfc, ConciliacionDetalle.mk (uuid4 session) rfc
              (match last (filter (λ p, Proveedor.rfc p = rfc) (proveedores db)) with
               | Some p => Proveedor.situacion_contribuyente p
               | None => NO_ENCONTRADO
               end)) <$> rfcs_norm in
  ∃ s',
    conciliar_rfcs_especificos ahora duracion session tenant_id rfcs tipo
    = (s', Retorna (uuid4 session))
    ∧ transaccion s'
      = mkBaseDatos (tenants db) (tenant_proveedores db) (proveedores db)
          (dof_contribuyentes db) (conciliacion_historial db ++ [historial])
          (resultado_conciliaciones db ++ detalles)
    ∧ confirmado s' = confirmado session.
Proof.
  intros [Hhist _] Hne. cbv zeta. unfold conciliar_rfcs_especificos.
  destruct (normalizar_lista rfcs) as [|r0 rs] eqn:Hnorm;
    [destruct Hne; by apply normalizar_lista_nil|].
  rewrite <- Hnorm. clear r0 rs Hnorm.
  set (rfcs_norm := normalizar_lista rfcs).
  unfold create_historial. cbn [ConciliacionHistorial.id].
  set (detalles := (λ rfc, ConciliacionDetalle.mk _ rfc _) <$> rfcs_norm).
  assert (Hdet : detalles
            = (λ rfc, ConciliacionDetalle.mk (uuid4 session) rfc
                 (match last (filter (λ p, Proveedor.rfc p = rfc)
                                     (proveedores (transaccion session))) with
                  | Some p => Proveedor.situacion_contribuyente p
                  | None => NO_ENCONTRADO
                  end)) <$> rfcs_norm).
  { apply list_fmap_ext. intros i rfc Hi. f_equal.
    rewrite estado_especifico by (by eapply list_elem_of_lookup_2). done. }
  assert (Hsesion : ∀ s1 : Session,
            match detalles with [] => s1 | _ :: _ => create_bulk s1 detalles end
            = create_bulk s1 detalles).
  { intros s1. destruct detalles eqn:E; [|done].
    unfold create_bulk, escribir, con_resultado_conciliaciones.
    destruct s1 as [c [] u]. cbn. by rewrite app_nil_r. }
  rewrite Hsesion. eexists. split; [reflexivity|]. split; [|done].
  rewrite <- Hdet.
  unfold create_bulk, fijar_duracion, escribir, avanzar_uuid4,
    con_resultado_conciliaciones, con_conciliacion_historial.
  cbn [transaccion tenants tenant_proveedores proveedores dof_contribuyentes
       conciliacion_historial resultado_conciliaciones].
  f_equal. rewrite fmap_app. f_equal.
  - induction Hhist as [|h hs Hh _ IH]; [done|].
    rewrite fmap_cons, IH. rewrite decide_False by lia. done.
  - cbn. by rewrite decide_True.
Qed.




(** ** Detail completeness *)

Lemma filter_nil_Forall {A} (P : A → Prop) `{!∀ x, Decision (P x)} (l : list A) :
  Forall (λ x, ¬ P x) l → filter P l = [].
Proof.
  induction 1 as [|x l Hx _ IH]; [done|]. by rewrite filter_cons_False.
Qed.

(** A run written with a fresh identifier is complete as soon as its
    counters are those of the rows written with it. *)
Lemma detalles_completos_intro (db db' : BaseDatos) h (detalles : list (string * string)) :
  Forall (λ h', ConciliacionHistorial.id h' < ConciliacionHistorial.id h)
         (conciliacion_historial db) →
  Forall (λ d, ConciliacionDetalle.conciliacion_id d < ConciliacionHistorial.id h)
         (resultado_conciliaciones db) →
  conciliacion_historial db' = conciliacion_historial db ++ [h] →
  resultado_conciliaciones db'
  = resultado_conciliaciones db
    ++ ((λ d : string * string, ConciliacionDetalle.mk (ConciliacionHistorial.id h) d.1 d.2)
        <$> detalles) →
  ConciliacionHistorial.rfcs_procesados h = length detalles →
  ConciliacionHistorial.coincidencias h = length (filter no_es_centinela detalles) →
  detalles_completos db' (ConciliacionHistorial.id h).
Proof.
  intros Hhist Hdet Hh' Hd' Hproc Hcoin. unfold detalles_completos, detalles_de.
  rewrite Hh', Hd'. exists h.
  assert (Hviejos : filter (λ d, ConciliacionDetalle.conciliacion_id d
                                 = ConciliacionHistorial.id h)
                           (resultado_conciliaciones db) = []).
  { apply filter_nil_Forall. eapply Forall_impl; [exact Hdet|]. intros d Hd. simpl in *. lia. }
  assert (Hnuevos : filter (λ d, ConciliacionDetalle.conciliacion_id d
                                 = ConciliacionHistorial.id h)
                      ((λ d : string * string,
                          ConciliacionDetalle.mk (ConciliacionHistorial.id h) d.1 d.2)
                       <$> detalles)
                    = (λ d : string * string,
                         ConciliacionDetalle.mk (ConciliacionHistorial.id h) d.1 d.2)
                      <$> detalles).
  { clear. induction detalles as [|d ds IH]; [done|].
    rewrite fmap_cons, filter_cons_True by done. by rewrite IH. }
  rewrite (filter_app (λ d, ConciliacionDetalle.conciliacion_id d = ConciliacionHistorial.id h)),
    Hviejos, Hnuevos. cbn [app]. split_and!.
  - rewrite filter_app, filter_cons, filter_nil. rewrite decide_True by done.
    rewrite filter_nil_Forall; [done|].
    eapply Forall_impl; [exact Hhist|]. intros h0 Hh0. simpl in *. lia.
  - by rewrite length_fmap.
  - rewrite filter_fmap_l, length_fmap, Hcoin. done.
  - rewrite Hproc, Hcoin. apply length_filter.
Qed.

Lemma guardar_conciliacion_completo ahora duracion session tenant_id tipo version total
    encontrados (detalles : list (string * string)) :
  uuid4_fresco session →
  total = length detalles →
  encontrados = length (filter no_es_centinela detalles) →
  detalles_completos
    (transaccion (guardar_conciliacion ahora duracion session tenant_id tipo version
                    total encontrados detalles).1)
    (uuid4 session).
Proof.
  intros [Hhist Hdet] -> ->.
  by apply (detalles_completos_intro (transaccion session) _
              (ConciliacionHistorial.mk (uuid4 session) tenant_id ahora tipo version
                 (length detalles) (length (filter no_es_centinela detalles))
                 "completado" duracion) detalles).
Qed.

(** In the DOF variant a state other than the sentinel is a match, as long
    as no directory row carries the sentinel. *)
Lemma estado_combinado_centinela db rfcs_list rfcs_no_en_dof rfc :
  sin_centinela db →
  let dof_dict := buscar_en_dof db rfcs_list in
  let proveedores_dict := buscar_en_proveedores db rfcs_no_en_dof in
  estado_combinado dof_dict proveedores_dict rfc ≠ NO_ENCONTRADO
  ↔ is_Some (dof_dict !! rfc) ∨ is_Some (proveedores_dict !! rfc).
Proof.
  intros [Hsat Hdof]. cbv zeta. unfold estado_combinado.
  destruct (buscar_en_dof db rfcs_list !! rfc) as [e|] eqn:Ed.
  - split; [eauto|]. intros _.
    apply dict_de_lookup_Some in Ed as (c & Hc & _ & <-).
    apply list_elem_of_filter in Hc as [_ Hc].
    by eapply (proj1 (Forall_forall _ _) Hdof).
  - destruct (buscar_en_proveedores db rfcs_no_en_dof !! rfc) as [e|] eqn:Ep; cbn.
    + split; [eauto|]. intros _. unfold buscar_en_proveedores in Ep.
      destruct rfcs_no_en_dof; [done|].
      apply dict_de_lookup_Some in Ep as (p & Hp & _ & <-).
      apply list_elem_of_filter in Hp as [_ Hp].
      by eapply (proj1 (Forall_forall _ _) Hsat).
    + split; [done|]. by intros [[? ?]|[? ?]].
Qed.

(** Counting the SAT rows of some RFCs or the RFCs that have a SAT row is
    the same, when neither list repeats an RFC. *)
Lemma contar_coincidencias (provs : list Proveedor.t) (rfcs : list string) :
  NoDup (Proveedor.rfc <$> provs) → NoDup rfcs →
  length (filter (λ p, Proveedor.rfc p ∈ rfcs) provs)
  = length (filter (λ rfc, rfc ∈ Proveedor.rfc <$> provs) rfcs).
Proof.
  intros Hprovs Hrfcs.
  rewrite <- (length_fmap Proveedor.rfc (filter _ provs)).
  apply Permutation_length, NoDup_Permutation.
  - pose proof (filter_fmap_l (λ k, k ∈ rfcs) Proveedor.rfc provs) as Hf.
    cbn beta in Hf. rewrite <- Hf. by apply NoDup_filter.
  - by apply NoDup_filter.
  - intros k. rewrite list_elem_of_fmap, list_elem_of_filter. split.
    + intros (p & -> & [Hin Hp]%list_elem_of_filter). split; [|done].
      by apply list_elem_of_fmap_2.
    + intros [(p & -> & Hp)%list_elem_of_fmap Hin]. exists p. split; [done|].
      by apply list_elem_of_filter.
Qed.

Lemma length_filter_fmap_ext {A B} (P : A → Prop) (Q : B → Prop)
    `{!∀ x, Decision (P x), !∀ y, Decision (Q y)} (f : A → B) (l : list A) :
  (∀ x, Q (f x) ↔ P x) → length (filter Q (f <$> l)) = length (filter P l).
Proof.
  intros Hext. rewrite filter_fmap_l, length_fmap. f_equal. by apply list_filter_iff.
Qed.

(** In [conciliar_rfcs_especificos] a state other than the sentinel means a
    SAT row, as long as no SAT row carries the sentinel. *)
Lemma estado_especifico_centinela db rfc :
  sin_centinela db →
  match last (filter (λ p, Proveedor.rfc p = rfc) (proveedores db)) with
  | Some p => Proveedor.situacion_contribuyente p
  | None => NO_ENCONTRADO
  end ≠ NO_ENCONTRADO
  ↔ rfc ∈ Proveedor.rfc <$> proveedores db.
Proof.
  intros [Hsat _].
  destruct (last (filter _ (proveedores db))) as [p|] eqn:E.
  - apply last_Some_elem_of, list_elem_of_filter in E as [<- Hp]. split.
    + intros _. by apply list_elem_of_fmap_2.
    + intros _. by eapply (proj1 (Forall_forall _ _) Hsat).
  - apply last_None in E. split; [done|].
    intros (p & -> & Hp)%list_elem_of_fmap.
    by destruct (filter_nil_not_elem_of _ _ p E eq_refl).
Qed.

(** C4 (as amended) — Every run returned by one of the three operations is
    complete: its detail rows are as many as [rfcs_procesados], those whose
    state is not the sentinel are as many as [coincidencias], and
    [coincidencias] does not exceed [rfcs_procesados]. For
    [realizar_conciliacion] this holds as it stands; for the DOF variant and
    for [conciliar_rfcs_especificos] it holds provided no directory row
    carries "No encontrado" as its own state (the SAT table having unique
    RFCs, as its schema says). *)
Theorem C4_detalles_completos ahora duracion session tenant_id tipo rfcs :
  uuid4_fresco session →
  let db := transaccion session in
  (∀ s' res,
     realizar_conciliacion ahora duracion session tenant_id tipo = (s', Retorna res) →
     detalles_completos (transaccion s') (Resumen.historial_id res))
  ∧ (sin_centinela db →
     ∀ s' res,
       realizar_conciliacion_dof_proveedores ahora duracion session tenant_id tipo
       = (s', Retorna res) →
       detalles_completos (transaccion s') (Resumen.historial_id res))
  ∧ (sin_centinela db → unicidad_proveedores db →
     ∀ s' historial_id,
       conciliar_rfcs_especificos ahora duracion session tenant_id rfcs tipo
       = (s', Retorna historial_id) →
       detalles_completos (transaccion s') historial_id).
Proof.
  intros Hfresco db. split_and!.
  - intros s' res Heq.
    destruct (tenant_por_id db tenant_id) as [tenant|] eqn:Hten;
      [|unfold realizar_conciliacion in Heq; fold db in Heq; rewrite Hten in Heq; done].
    destruct (consulta_rfcs_y_sat db tenant_id (limite_del_plan tenant))
      as [resultados|e] eqn:Hcons;
      [|unfold realizar_conciliacion in Heq; fold db in Heq;
        rewrite Hten, Hcons in Heq; done].
    rewrite (realizar_conciliacion_eq _ _ _ _ _ tenant _ Hten Hcons) in Heq.
    cbv zeta in Heq. simplify_eq. cbn [Resumen.historial_id].
    apply guardar_conciliacion_completo; [done| |done].
    by rewrite !length_fmap.
  - intros Hsin s' res Heq.
    destruct (tenant_por_id db tenant_id) as [tenant|] eqn:Hten;
      [|unfold realizar_conciliacion_dof_proveedores in Heq; fold db in Heq;
        rewrite Hten in Heq; done].
    destruct (consulta_rfcs_tenant db tenant_id (limite_del_plan tenant))
      as [rfcs_tenant|e] eqn:Hcons;
      [|unfold realizar_conciliacion_dof_proveedores in Heq; fold db in Heq;
        rewrite Hten, Hcons in Heq; done].
    destruct (decide (rfcs_tenant = [])) as [->|Hne].
    { unfold realizar_conciliacion_dof_proveedores in Heq. fold db in Heq.
      rewrite Hten, Hcons in Heq. done. }
    rewrite (realizar_conciliacion_dof_proveedores_eq _ _ _ _ _ tenant _ Hten Hcons Hne)
      in Heq.
    cbv zeta in Heq. simplify_eq. cbn [Resumen.historial_id].
    apply guardar_conciliacion_completo; [done|by rewrite !length_fmap|].
    symmetry. apply length_filter_fmap_ext. intros rfc. unfold no_es_centinela. cbn [snd].
    by apply estado_combinado_centinela.
  - intros Hsin Huni s' historial_id Heq.
    destruct (decide (rfcs = [])) as [->|Hne]; [done|].
    destruct (conciliar_rfcs_especificos_eq ahora duracion session tenant_id rfcs tipo
                Hfresco Hne) as (s1 & Heq1 & Htrans & _).
    cbv zeta in Heq1, Htrans. rewrite Heq1 in Heq. simplify_eq.
    destruct Hfresco as [Hhist Hdet].
    set (h := ConciliacionHistorial.mk (uuid4 session) tenant_id ahora tipo
                (_obtener_version_sat db) (length (normalizar_lista rfcs))
                (length (filter (λ p, Proveedor.rfc p ∈ normalizar_lista rfcs)
                                (proveedores db)))
                "completado" duracion).
    apply (detalles_completos_intro db _ h
             ((λ rfc, (rfc, match last (filter (λ p, Proveedor.rfc p = rfc) (proveedores db)) with
                            | Some p => Proveedor.situacion_contribuyente p
                            | None => NO_ENCONTRADO
                            end)) <$> normalizar_lista rfcs)).
    + done.
    + done.
    + by rewrite Htrans.
    + rewrite Htrans. cbn. by rewrite <- list_fmap_compose.
    + cbn. by rewrite length_fmap.
    + cbn. rewrite contar_coincidencias by (done || apply NoDup_normalizar_lista).
      symmetry. apply length_filter_fmap_ext. intros rfc. unfold no_es_centinela. cbn [snd].
      by apply estado_especifico_centinela.
Qed.

(** The plain run of tenant 1 of the sample. *)
Lemma C4_detalles_completos_witness :
  let salida := realizar_conciliacion 9 4 Muestra.sesion_general 1 "Manual" in
  ∃ res,
    salida.2 = Retorna res
    ∧ detalles_completos (transaccion salida.1) (Resumen.historial_id res).
Proof.
  intros salida. eexists. split; [vm_compute; reflexivity|].
  assert (Hfresco : uuid4_fresco Muestra.sesion_general)
    by (split; apply (bool_decide_unpack _); vm_compute; exact I).
  apply (proj1 (C4_detalles_completos 9 4 Muestra.sesion_general 1 "Manual" [] Hfresco)).
  vm_compute. reflexivity.
Defined.

(** The claim as first stated, for every run, fails when a directory row
    carries the sentinel as its state: the SAT row is counted as a match,
    yet no detail row has a state other than the sentinel. *)
Lemma C4_contraejemplo :
  let session :=
    Muestra.sesion_de
      (Muestra.bd [Muestra.tenant_con_limite 1 (Some 5%Z)] []
                  [Proveedor.mk (Muestra.rfc_n 1) "No encontrado" "2024-01-01"] []) in
  let salida :=
    conciliar_rfcs_especificos 9 4 session 1 [Muestra.rfc_n 1] "Excedentes - Pago" in
  retorno salida.2 = Some (uuid4 session)
  ∧ ConciliacionHistorial.coincidencias <$> conciliacion_historial (transaccion salida.1)
    = [1]
  ∧ filter (λ d, ConciliacionDetalle.estado d ≠ NO_ENCONTRADO)
           (detalles_de (uuid4 session) (transaccion salida.1)) = []
  ∧ ¬ detalles_completos (transaccion salida.1) (uuid4 session).
Proof.
  intros session salida. split_and!; [by vm_compute..|].
  intros (h & Hh & _ & Hc & _). vm_compute in Hh. injection Hh as <-.
  vm_compute in Hc. discriminate Hc.
Qed.

(** ** The fleet runners *)

Section PropiedadesFlota.

Context (conciliar : Session → UUID → string → Session * salida Resumen.t).
Context (correo : Session → Tenant.t → Resumen.t → salida unit).
Context (ahora : Z) (tipo : string).

Abbreviation procesar := (procesar_tenant conciliar correo ahora tipo).

(** One iteration, case by case. *)
Lemma procesar_tenant_casos st tenant :
  match conciliar (sesion st) (Tenant.id tenant) tipo with
  | (s1, Retorna resultado) =>
      procesar st tenant
      = mkRecorrido (commit s1) (acumulados st ++ [item_exitoso tenant resultado])
                    (S (exitosos st)) (fallidos st)
  | (s1, Lanza e) =>
      procesar st tenant
      = mkRecorrido (rollback s1) (acumulados st ++ [item_fallido ahora tipo tenant e])
                    (exitosos st) (S (fallidos st))
  end.
Proof.
  unfold procesar_tenant.
  by destruct (conciliar (sesion st) (Tenant.id tenant) tipo) as [s1 [resultado|e]].
Qed.

(** The mail delivery has no say in the iteration. *)
Lemma procesar_tenant_sin_correo correo' st tenant :
  procesar_tenant conciliar correo' ahora tipo st tenant = procesar st tenant.
Proof.
  unfold procesar_tenant.
  by destruct (conciliar (sesion st) (Tenant.id tenant) tipo) as [s1 [resultado|e]].
Qed.

Lemma cuentas_coherentes_procesar st tenant :
  cuentas_coherentes st → cuentas_coherentes (procesar st tenant).
Proof.
  intros (Hf & Hsuma & Hitems). pose proof (procesar_tenant_casos st tenant) as Hcaso.
  destruct (conciliar (sesion st) (Tenant.id tenant) tipo) as [s1 [resultado|e]];
    rewrite Hcaso; unfold cuentas_coherentes; cbn [acumulados exitosos fallidos];
    rewrite filter_app, !length_app, Forall_app, Forall_singleton; cbn.
  - rewrite decide_False by (by unfold es_item_fallido). cbn [length].
    split_and!; [lia|lia|done|]. by intros [=].
  - rewrite decide_True by done. cbn [length].
    split_and!; [lia|lia|done|]. intros _. eauto.
Qed.

Lemma cuentas_coherentes_foldl st tenants :
  cuentas_coherentes st → cuentas_coherentes (foldl procesar st tenants).
Proof.
  revert st. induction tenants as [|t ts IH]; intros st Hst; [done|].
  cbn [foldl]. by apply IH, cuentas_coherentes_procesar.
Qed.

(** Entries are only ever appended, one per tenant and in order. *)
Lemma acumulados_foldl st tenants :
  ∃ items,
    acumulados (foldl procesar st tenants) = acumulados st ++ items
    ∧ ItemFlota.tenant_id <$> items = Tenant.id <$> tenants.
Proof.
  revert st. induction tenants as [|t ts IH]; intros st.
  - exists []. by rewrite app_nil_r.
  - cbn [foldl]. destruct (IH (procesar st t)) as (items & Hac & Hids).
    pose proof (procesar_tenant_casos st t) as Hcaso.
    destruct (conciliar (sesion st) (Tenant.id t) tipo) as [s1 [resultado|e]];
      rewrite Hac, Hcaso; cbn [acumulados]; rewrite <- app_assoc;
      eexists; (split; [reflexivity|]); cbn [app]; rewrite !fmap_cons, Hids; done.
Qed.

End PropiedadesFlota.

Lemma recorrido_hasta_S conciliar correo ahora tipo session i tenant :
  get_active_tenants session !! i = Some tenant →
  recorrido_hasta conciliar correo ahora tipo session (S i)
  = procesar_tenant conciliar correo ahora tipo
      (recorrido_hasta conciliar correo ahora tipo session i) tenant.
Proof.
  intros Hi. unfold recorrido_hasta. erewrite take_S_r by exact Hi.
  by rewrite foldl_snoc.
Qed.

Lemma length_acumulados_recorrido_hasta conciliar correo ahora tipo session i :
  (i ≤ length (get_active_tenants session))%nat →
  length (acumulados (recorrido_hasta conciliar correo ahora tipo session i)) = i.
Proof.
  intros Hi. unfold recorrido_hasta.
  destruct (acumulados_foldl conciliar correo ahora tipo (mkRecorrido session [] 0 0)
              (take i (get_active_tenants session))) as (items & -> & Hids).
  cbn. rewrite <- (length_fmap ItemFlota.tenant_id), Hids, length_fmap.
  by apply length_take_le.
Qed.

(** Mail delivery has no part in the loop's state. *)
Lemma recorrido_hasta_sin_correo conciliar correo' correo ahora tipo session n :
  recorrido_hasta conciliar correo' ahora tipo session n
  = recorrido_hasta conciliar correo ahora tipo session n.
Proof.
  unfold recorrido_hasta.
  generalize (mkRecorrido session [] 0 0).
  induction (take n (get_active_tenants session)) as [|t ts IH]; intros st; [done|].
  cbn [foldl]. by rewrite (procesar_tenant_sin_correo conciliar correo), IH.
Qed.

(** The runner is the loop over all active tenants. *)
Lemma conciliacion_todos_tenants_eq conciliar correo ahora tipo session :
  let st :=
    recorrido_hasta conciliar correo ahora tipo session
                    (length (get_active_tenants session)) in
  conciliacion_todos_tenants conciliar correo ahora tipo session
  = (sesion st,
     Retorna (Flota.mk (length (get_active_tenants session)) (length (acumulados st))
                       (exitosos st) (fallidos st) (acumulados st))).
Proof.
  cbv zeta. unfold conciliacion_todos_tenants, recorrido_hasta.
  destruct (get_active_tenants session) as [|t ts] eqn:E; [done|].
  rewrite decide_False by done. by rewrite firstn_all.
Qed.

(** C5 — The fleet runner never raises on account of a tenant. It visits
    the active tenants in order: a tenant whose reconciliation returns is
    committed and gets the entry of its run, whatever the mail delivery
    does; a tenant whose reconciliation raises has its own transaction
    rolled back and gets the synthetic entry (no counts, state
    "error: <message>", no history id), and the loop goes on with the next
    tenant. Successes and failures add up to the number of tenants, and
    there is one entry per tenant. *)
Theorem C5_aislamiento_de_flota
    (conciliar : Session → UUID → string → Session * salida Resumen.t)
    (correo : Session → Tenant.t → Resumen.t → salida unit)
    (ahora : Z) (tipo : string) (session : Session) :
  let tenants := get_active_tenants session in
  let hasta := recorrido_hasta conciliar correo ahora tipo session in
  ∃ r,
    conciliacion_todos_tenants conciliar correo ahora tipo session
    = (sesion (hasta (length tenants)), Retorna r)
    ∧ Flota.total_tenants r = length tenants
    ∧ Flota.total_procesados r = length (Flota.resultados r)
    ∧ (Flota.total_exitosos r + Flota.total_fallidos r)%nat = Flota.total_tenants r
    ∧ Flota.total_fallidos r = length (filter es_item_fallido (Flota.resultados r))
    ∧ ItemFlota.tenant_id <$> Flota.resultados r = Tenant.id <$> tenants
    ∧ (∀ i tenant,
         tenants !! i = Some tenant →
         match conciliar (sesion (hasta i)) (Tenant.id tenant) tipo with
         | (s1, Retorna resultado) =>
             Flota.resultados r !! i = Some (item_exitoso tenant resultado)
             ∧ sesion (hasta (S i)) = commit s1
         | (s1, Lanza e) =>
             Flota.resultados r !! i = Some (item_fallido ahora tipo tenant e)
             ∧ sesion (hasta (S i)) = rollback s1
         end)
    ∧ (∀ correo',
         conciliacion_todos_tenants conciliar correo' ahora tipo session
         = conciliacion_todos_tenants conciliar correo ahora tipo session).
Proof.
  intros tenants hasta. rewrite conciliacion_todos_tenants_eq. fold tenants hasta.
  eexists. split; [reflexivity|]. cbn [Flota.total_tenants Flota.total_procesados
    Flota.total_exitosos Flota.total_fallidos Flota.resultados].
  assert (Hcoh : cuentas_coherentes (hasta (length tenants))).
  { apply cuentas_coherentes_foldl. split_and!; [done|done|constructor]. }
  destruct Hcoh as (Hf & Hsuma & _).
  assert (Hlen : length (acumulados (hasta (length tenants))) = length tenants)
    by (by apply length_acumulados_recorrido_hasta).
  split_and!; [done|done|lia|done|..].
  - unfold hasta, recorrido_hasta. fold tenants. rewrite firstn_all.
    by destruct (acumulados_foldl conciliar correo ahora tipo (mkRecorrido session [] 0 0)
                   tenants) as (items & -> & Hids).
  - intros i tenant Hi.
    assert (Hi_lt : (i < length tenants)%nat) by (by eapply lookup_lt_Some).
    pose proof (recorrido_hasta_S conciliar correo ahora tipo session i tenant Hi) as HS.
    fold hasta in HS.
    assert (Hfinal : ∃ items,
              acumulados (hasta (length tenants)) = acumulados (hasta (S i)) ++ items).
    { assert (Hresto : hasta (length tenants)
                       = foldl (procesar_tenant conciliar correo ahora tipo)
                               (hasta (S i)) (drop (S i) tenants)).
      { unfold hasta, recorrido_hasta. fold tenants.
        by rewrite firstn_all, <- foldl_app, take_drop. }
      rewrite Hresto.
      destruct (acumulados_foldl conciliar correo ahora tipo (hasta (S i))
                  (drop (S i) tenants)) as (items & Hitems & _).
      eauto. }
    destruct Hfinal as (items & Hfinal).
    pose proof (length_acumulados_recorrido_hasta conciliar correo ahora tipo session i
                  ltac:(fold tenants; lia)) as Hli.
    fold hasta in Hli.
    pose proof (procesar_tenant_casos conciliar correo ahora tipo (hasta i) tenant) as Hcaso.
    destruct (conciliar (sesion (hasta i)) (Tenant.id tenant) tipo) as [s1 [resultado|e]];
      rewrite <- HS in Hcaso; rewrite Hfinal, Hcaso; cbn [acumulados sesion].
      all: split; [|done].
      all: rewrite <- app_assoc, lookup_app_r by lia.
      all: rewrite Hli, Nat.sub_diag; reflexivity.
  - intros correo'. rewrite conciliacion_todos_tenants_eq. cbv zeta.
    by rewrite (recorrido_hasta_sin_correo conciliar correo' correo).
Qed.

(** The theorem at the sample fleet: tenant 2 has no supplier, so its
    Gazette run raises; tenants 1 and 3 are reconciled and committed even
    though every mail delivery fails. *)
Lemma C5_aislamiento_de_flota_witness :
  ∃ r,
    snd (realizar_conciliacion_dof_todos_tenants 9 4
           (λ _ _ _, Lanza (RuntimeError "smtp")) Muestra.sesion_general)
    = Retorna r
    ∧ Flota.total_tenants r = 3
    ∧ (Flota.total_exitosos r + Flota.total_fallidos r)%nat = 3.
Proof.
  destruct (C5_aislamiento_de_flota
              (realizar_conciliacion_dof_proveedores 9 4)
              (λ _ _ _, Lanza (RuntimeError "smtp")) 9 "DOF + SAT"
              Muestra.sesion_general) as (r & Hr & Htotal & _ & Hsuma & _).
  exists r. unfold realizar_conciliacion_dof_todos_tenants.
  rewrite Hr. split; [reflexivity|]. rewrite Hsuma, Htotal. split; reflexivity.
Defined.

Example escenario_flota_con_fallo :
  let salida_flota :=
    realizar_conciliacion_dof_todos_tenants 9 4
      (λ _ _ _, Lanza (RuntimeError "smtp")) Muestra.sesion_general in
  snd salida_flota
  = Retorna (Flota.mk 3 3 2 1
      [ItemFlota.mk 1 9 "DOF + SAT" (Some "2024-01-01") 2 1 "completado" (Some 5000);
       ItemFlota.mk 2 9 "DOF + SAT" None 0 0
                    "error: No hay proveedores para conciliar" None;
       ItemFlota.mk 3 9 "DOF + SAT" (Some "2024-01-01") 3 2 "completado" (Some 5001)])
  ∧ (λ h, (ConciliacionHistorial.id h, ConciliacionHistorial.tenant_id h))
      <$> conciliacion_historial (confirmado (fst salida_flota))
    = [(5000, 1); (5001, 3)]
  ∧ transaccion (fst salida_flota) = confirmado (fst salida_flota).
Proof. vm_compute. done. Qed.

Example escenario_flota_vacia :
  snd (realizar_conciliacion_todos_tenants 9 4 (λ _ _ _, Retorna tt)
         (Muestra.sesion_de (Muestra.bd [] [] [] [])))
  = Retorna (Flota.mk 0 0 0 0 []).
Proof. reflexivity. Qed.

(** * Properties of the further operations *)

(** ** In quota and in excess *)

Lemma NoDup_rfc_de_un_tenant tenant_id (P : TenantProveedor.t → Prop)
    `{!∀ x, Decision (P x)} (tabla : list TenantProveedor.t) :
  NoDup (clave_unica <$> tabla) →
  (∀ rel, P rel → TenantProveedor.tenant_id rel = tenant_id) →
  NoDup (TenantProveedor.rfc <$> filter P tabla).
Proof.
  intros Hnd HP. induction tabla as [|rel tabla IH]; [constructor|].
  rewrite fmap_cons in Hnd. apply NoDup_cons in Hnd as [Hrel Hnd].
  rewrite filter_cons. destruct (decide (P rel)) as [Hp|]; [|by apply IH].
  rewrite fmap_cons. apply NoDup_cons. split; [|by apply IH].
  intros (rel' & Hrfc & [Hp' Hin]%list_elem_of_filter)%list_elem_of_fmap.
  apply Hrel, list_elem_of_fmap. exists rel'. split; [|done].
  unfold clave_unica. by rewrite Hrfc, (HP _ Hp), (HP _ Hp').
Qed.

(** The relations a run takes in quota and the ones
    [get_by_tenant_excedentes] returns are the two parts of one list: the
    active relations of the tenant, oldest first, cut after the first [L].
    Every active relation is in exactly one of the two. *)
Theorem excedentes_completan_la_cuota session tenant_id (L : Z) :
  (0 <= L)%Z →
  let db := transaccion session in
  let activas := filter (es_activo_de tenant_id) (tenant_proveedores db) in
  let excedentes := get_by_tenant_excedentes session tenant_id (Some L) in
  ∃ en_cuota,
    consulta_rfcs_tenant db tenant_id (Some L) = Retorna en_cuota
    ∧ en_cuota ++ excedentes ≡ₚ activas
    ∧ StronglySorted mas_viejo_primero (en_cuota ++ excedentes)
    ∧ length en_cuota = Z.to_nat L `min` length activas
    ∧ length excedentes = (length activas - Z.to_nat L)%nat
    ∧ (unicidad_relaciones db →
       ∀ rfc, rfc ∈ TenantProveedor.rfc <$> en_cuota →
              rfc ∉ TenantProveedor.rfc <$> excedentes).
Proof.
  intros HL db activas excedentes.
  unfold excedentes, get_by_tenant_excedentes, consulta_rfcs_tenant, limit, offset.
  fold db. fold activas.
  destruct (Z.ltb_spec L 0) as [|_]; [lia|].
  set (ordenadas := merge_sort mas_viejo_primero activas).
  assert (Hperm : ordenadas ≡ₚ activas) by apply merge_sort_Permutation.
  eexists. split; [reflexivity|]. rewrite take_drop.
  split_and!.
  - done.
  - apply StronglySorted_merge_sort; apply _.
  - by rewrite length_take, Hperm.
  - by rewrite length_drop, Hperm.
  - intros Hunica rfc Hen Hex.
    assert (Hnd : NoDup (TenantProveedor.rfc <$> ordenadas)).
    { rewrite Hperm. apply (NoDup_rfc_de_un_tenant tenant_id); [done|].
      by intros rel [? _]. }
    rewrite <- (take_drop (Z.to_nat L) ordenadas), fmap_app in Hnd.
    apply NoDup_app in Hnd as (_ & Hdisj & _). by apply (Hdisj rfc).
Qed.

(** The theorem for tenant 1 of the sample, whose three active relations
    are cut after the second. *)
Lemma excedentes_completan_la_cuota_witness :
  ∃ en_cuota,
    consulta_rfcs_tenant (transaccion Muestra.sesion_general) 1 (Some 2%Z) = Retorna en_cuota
    ∧ length en_cuota = 2
    ∧ length (get_by_tenant_excedentes Muestra.sesion_general 1 (Some 2%Z)) = 1.
Proof.
  destruct (excedentes_completan_la_cuota Muestra.sesion_general 1 2 ltac:(lia))
    as (en_cuota & Hq & _ & _ & Hlen & Hexc & _).
  exists en_cuota. split; [exact Hq|]. split; [exact Hlen | exact Hexc].
Defined.

(** The limit the routes read for a tenant is the one the reconciliation
    resolves. *)
Lemma get_tenant_usage_limite_del_plan session tenant_id tenant :
  tenant_por_id (transaccion session) tenant_id = Some tenant →
  get_tenant_usage session tenant_id = limite_del_plan tenant.
Proof. intros Ht. unfold get_tenant_usage, limite_del_plan. by rewrite Ht. Qed.

(** On a plan without limit nothing is cut: the list of excess relations the
    payment route works on, computed from the limit of
    [get_tenant_usage], is the whole list the run reconciles, so each active
    relation of the tenant is at once in quota and in excess. *)
Theorem excedentes_de_un_plan_sin_limite session tenant_id tenant plan :
  tenant_por_id (transaccion session) tenant_id = Some tenant →
  Tenant.plan tenant = Some plan →
  Plan.limite_proveedores plan = None →
  let db := transaccion session in
  let activas := filter (es_activo_de tenant_id) (tenant_proveedores db) in
  let excedentes :=
    get_by_tenant_excedentes session tenant_id (get_tenant_usage session tenant_id) in
  consulta_rfcs_tenant db tenant_id (limite_del_plan tenant) = Retorna excedentes
  ∧ excedentes ≡ₚ activas.
Proof.
  intros Ht Hplan Hlim db activas excedentes. unfold excedentes.
  rewrite (get_tenant_usage_limite_del_plan _ _ _ Ht).
  unfold limite_del_plan. rewrite Hplan, Hlim.
  unfold get_by_tenant_excedentes, consulta_rfcs_tenant, limit, offset.
  split; [done|]. apply merge_sort_Permutation.
Qed.

Lemma excedentes_de_un_plan_sin_limite_witness :
  consulta_rfcs_tenant (transaccion Muestra.sesion_general) 3 None
  = Retorna (get_by_tenant_excedentes Muestra.sesion_general 3
               (get_tenant_usage Muestra.sesion_general 3)).
Proof.
  exact (proj1 (excedentes_de_un_plan_sin_limite Muestra.sesion_general 3
                  (Muestra.tenant_con_limite 3 None) (Plan.mk None)
                  eq_refl eq_refl eq_refl)).
Defined.

(** A negative limit is refused by the database and both repository queries
    answer with the empty list, whatever the tenant has; the statistics,
    which cut in Python, drop the last relations instead. *)
Theorem consultas_con_limite_negativo session tenant_id (L : Z) :
  (L < 0)%Z →
  get_by_tenant_within_limit session tenant_id (Some L) = []
  ∧ get_by_tenant_excedentes session tenant_id (Some L) = []
  ∧ let e := get_tenant_stats_within_limit session tenant_id (Some L) in
    length (Estadisticas.proveedores_dentro_limite e)
    = (Estadisticas.total_rfcs e - Z.to_nat (- L))%nat.
Proof.
  intros HL.
  unfold get_by_tenant_within_limit, get_by_tenant_excedentes, limit, offset.
  destruct (Z.ltb_spec L 0) as [_|]; [|lia].
  split_and!; [done|done|].
  cbn. unfold slice_hasta. destruct (Z.ltb_spec L 0) as [_|]; [|lia].
  rewrite length_take. lia.
Qed.

Lemma consultas_con_limite_negativo_witness :
  get_by_tenant_within_limit Muestra.sesion_general 1 (Some (-1)%Z) = []
  ∧ get_by_tenant_excedentes Muestra.sesion_general 1 (Some (-1)%Z) = [].
Proof.
  destruct (consultas_con_limite_negativo Muestra.sesion_general 1 (-1) ltac:(lia))
    as (H1 & H2 & _).
  split; [exact H1 | exact H2].
Defined.

(** ** Counting relations *)

Lemma take_min_length {A} (n : nat) (l : list A) : take (n `min` length l) l = take n l.
Proof.
  destruct (decide (n ≤ length l)%nat) as [Hle|Hgt].
  - by rewrite Nat.min_l.
  - rewrite Nat.min_r by lia. by rewrite firstn_all, take_ge by lia.
Qed.

(** [get_by_tenant_within_limit] follows the same oldest-first rule as the
    reconciliation, but over every relation of the tenant, inactive ones
    included; when the tenant has no inactive relation the two selections
    are the same list. *)
Theorem get_by_tenant_within_limit_cuenta_inactivas session tenant_id (L : Z) :
  (0 <= L)%Z →
  let db := transaccion session in
  let todas :=
    filter (λ rel, TenantProveedor.tenant_id rel = tenant_id) (tenant_proveedores db) in
  let dentro := get_by_tenant_within_limit session tenant_id (Some L) in
  es_seleccion_fifo (Z.to_nat L `min` length todas) todas dentro
  ∧ StronglySorted mas_viejo_primero dentro
  ∧ (Forall (λ rel, TenantProveedor.activo rel = true) todas →
     consulta_rfcs_tenant db tenant_id (Some L) = Retorna dentro).
Proof.
  intros HL db todas dentro.
  unfold dentro, get_by_tenant_within_limit, limit. fold db. fold todas.
  destruct (Z.ltb_spec L 0) as [|_]; [lia|].
  assert (Hperm : merge_sort mas_viejo_primero todas ≡ₚ todas)
    by apply merge_sort_Permutation.
  assert (Hsort : StronglySorted mas_viejo_primero (merge_sort mas_viejo_primero todas))
    by (apply StronglySorted_merge_sort; apply _).
  split_and!.
  - assert (Hlen : length (merge_sort mas_viejo_primero todas) = length todas)
      by (by rewrite Hperm).
    rewrite <- (take_min_length (Z.to_nat L)), Hlen.
    apply take_es_seleccion_fifo; [done|done|lia].
  - rewrite <- (take_drop (Z.to_nat L) (merge_sort _ _)) in Hsort.
    by apply StronglySorted_app_1_l in Hsort.
  - intros Hact. unfold consulta_rfcs_tenant, limit. fold db.
    destruct (Z.ltb_spec L 0) as [|_]; [lia|].
    do 3 f_equal. unfold todas. apply filter_ext_elem.
    intros rel Hrel. unfold es_activo_de. split; [by intros [? _]|].
    intros Hten. split; [done|].
    rewrite Forall_forall in Hact. apply Hact.
    by apply list_elem_of_filter.
Qed.

(** Tenant 1 of the sample has an inactive relation, the oldest one, which
    [get_by_tenant_within_limit] takes and the run does not. *)
Lemma get_by_tenant_within_limit_cuenta_inactivas_witness :
  es_seleccion_fifo 2
    (filter (λ rel, TenantProveedor.tenant_id rel = 1)
            (tenant_proveedores (transaccion Muestra.sesion_general)))
    (get_by_tenant_within_limit Muestra.sesion_general 1 (Some 2%Z)).
Proof.
  exact (proj1 (get_by_tenant_within_limit_cuenta_inactivas Muestra.sesion_general 1 2
                  ltac:(lia))).
Defined.

Lemma length_filter_particion {A} (P : A → Prop) `{!∀ x, Decision (P x)} (l : list A) :
  length l = (length (filter P l) + length (filter (λ x, ¬ P x) l))%nat.
Proof.
  induction l as [|x l IH]; [done|].
  rewrite !filter_cons. destruct (decide (P x)).
  - rewrite decide_False by tauto. cbn. by rewrite IH.
  - rewrite decide_True by done. cbn. rewrite IH. lia.
Qed.

(** The three counts of [get_count_by_estado] fit together: every relation
    of the tenant is counted as active or as inactive, never as both, the
    count without filter is [get_tenant_proveedores_count], and the count
    of active ones is the figure the burst rule works with. *)
Theorem cuentas_por_estado session tenant_id :
  get_count_by_estado session tenant_id None
  = (get_count_by_estado session tenant_id (Some true)
     + get_count_by_estado session tenant_id (Some false))%nat
  ∧ get_count_by_estado session tenant_id None
    = get_tenant_proveedores_count session tenant_id
  ∧ Z.of_nat (get_count_by_estado session tenant_id (Some true))
    = contar_activos (transaccion session) tenant_id.
Proof.
  unfold get_count_by_estado, get_tenant_proveedores_count, contar_activos.
  set (todas := filter _ (tenant_proveedores (transaccion session))).
  split_and!.
  - rewrite (length_filter_particion (λ rel, TenantProveedor.activo rel = true) todas).
    f_equal. f_equal. apply filter_ext_elem. intros rel _.
    by destruct (TenantProveedor.activo rel).
  - done.
  - f_equal. f_equal. unfold todas. rewrite list_filter_filter.
    apply filter_ext_elem. intros rel _. unfold es_activo_de. tauto.
Qed.

(** ** Alerts *)

Lemma contar_alertas_filter filas n :
  contar_alertas filas n = (n + length (filter es_alerta filas))%nat.
Proof.
  revert n. induction filas as [|[tp [p|]] filas IH]; intros n; cbn [contar_alertas].
  - cbn. lia.
  - rewrite IH, filter_cons.
    destruct (decide (Proveedor.situacion_contribuyente p = "Definitivo")) as [Hd|Hd].
    + rewrite decide_True; [cbn; lia|]. unfold es_alerta. cbn. by rewrite Hd.
    + rewrite decide_False; [done|]. unfold es_alerta. cbn. by intros [=].
  - rewrite IH, filter_cons. rewrite decide_False by (by unfold es_alerta). done.
Qed.

Lemma length_filter_take {A} (P : A → Prop) `{!∀ x, Decision (P x)} (n : nat) (l : list A) :
  (length (filter P (take n l)) ≤ length (filter P l))%nat.
Proof.
  rewrite <- (take_drop n l) at 2. rewrite filter_app, length_app. lia.
Qed.

Lemma slice_hasta_take {A} (n : option Z) (l : list A) : ∃ k, slice_hasta n l = take k l.
Proof.
  destruct n as [k|]; cbn.
  - destruct (k <? 0)%Z; eauto.
  - exists (length l). by rewrite firstn_all.
Qed.

(** The alerts of the outer join are the rows of the inner join. *)
Lemma alertas_outerjoin_innerjoin tenant_id tps provs :
  length (filter (λ fila : TenantProveedor.t * option Proveedor.t,
                    TenantProveedor.tenant_id fila.1 = tenant_id ∧ es_alerta fila)
                 (outerjoin tps provs))
  = length (filter (λ fila : TenantProveedor.t * Proveedor.t,
                      TenantProveedor.tenant_id fila.1 = tenant_id ∧
                      Proveedor.situacion_contribuyente fila.2 = "Definitivo")
                   (innerjoin tps provs)).
Proof.
  unfold outerjoin, innerjoin.
  induction tps as [|tp tps IH]; [done|].
  cbn [flat_map]. rewrite !filter_app, !length_app, IH. f_equal.
  destruct (filter (λ p, Proveedor.rfc p = TenantProveedor.rfc tp) provs) as [|p ps] eqn:E.
  - cbn [fmap list_fmap]. rewrite filter_cons, decide_False; [done|].
    intros [_ H]. by unfold es_alerta in H.
  - generalize (p :: ps). intros l.
    induction l as [|q l IHl]; [done|].
    rewrite !fmap_cons, !filter_cons. cbn [fst snd].
    destruct (decide (TenantProveedor.tenant_id tp = tenant_id ∧
                      Proveedor.situacion_contribuyente q = "Definitivo")) as [[Ht Hd]|Hno].
    + rewrite decide_True; [cbn; by rewrite IHl|].
      split; [done|]. unfold es_alerta. cbn. by rewrite Hd.
    + rewrite decide_False; [done|]. unfold es_alerta. cbn. intros [Ht [=]]. tauto.
Qed.

(** The alerts of the statistics are counted among the relations within the
    limit only, so they never exceed that number, nor the number of active
    relations, nor the tenant-wide count of [get_count_con_alerta]; the
    total is the number of active relations whatever the limit is. *)
Theorem alertas_dentro_del_limite_acotadas session tenant_id limite_rfcs :
  let db := transaccion session in
  let e := get_tenant_stats_within_limit session tenant_id limite_rfcs in
  (Estadisticas.alertas e ≤ length (Estadisticas.proveedores_dentro_limite e))%nat
  ∧ (length (Estadisticas.proveedores_dentro_limite e) ≤ Estadisticas.total_rfcs e)%nat
  ∧ (Estadisticas.alertas e ≤ get_count_con_alerta session tenant_id)%nat
  ∧ (unicidad_proveedores db →
     Z.of_nat (Estadisticas.total_rfcs e) = contar_activos db tenant_id).
Proof.
  intros db e. unfold e, get_tenant_stats_within_limit. fold db.
  cbn [Estadisticas.alertas Estadisticas.proveedores_dentro_limite Estadisticas.total_rfcs].
  set (activas := filter _ (outerjoin _ _)).
  set (todos := merge_sort mas_viejo_primero_join activas).
  assert (Hperm : todos ≡ₚ activas) by apply merge_sort_Permutation.
  destruct (slice_hasta_take limite_rfcs todos) as (k & ->).
  rewrite contar_alertas_filter, Nat.add_0_l.
  split_and!.
  - apply length_filter.
  - rewrite length_take. lia.
  - etrans; [apply length_filter_take|]. rewrite Hperm.
    unfold get_count_con_alerta. fold db.
    rewrite <- alertas_outerjoin_innerjoin. unfold activas.
    rewrite list_filter_filter.
    set (P := λ fila : TenantProveedor.t * option Proveedor.t,
                TenantProveedor.tenant_id fila.1 = tenant_id ∧ es_alerta fila).
    rewrite (filter_ext_elem _ (λ fila, es_activo_de tenant_id fila.1 ∧ P fila)).
    + rewrite <- list_filter_filter. apply length_filter.
    + intros fila _. unfold P, es_activo_de. tauto.
  - intros Hunica. rewrite Hperm. unfold activas, contar_activos. fold db.
    rewrite (outerjoin_unico _ _ Hunica), filter_fmap_l, length_fmap. done.
Qed.

Lemma alertas_dentro_del_limite_acotadas_witness :
  Z.of_nat (Estadisticas.total_rfcs
              (get_tenant_stats_within_limit Muestra.sesion_general 1 (Some 2%Z)))
  = contar_activos (transaccion Muestra.sesion_general) 1.
Proof.
  apply (alertas_dentro_del_limite_acotadas Muestra.sesion_general 1 (Some 2%Z)).
  apply (bool_decide_unpack _). vm_compute. exact I.
Defined.

(** ** The statistics and the run they announce *)

(** A dictionary built from rows whose value depends on the key only. *)
Lemma dict_de_funcional {A B} (clave : A → string) (valor : A → B) (l : list A) x :
  (∀ y z, y ∈ l → z ∈ l → clave y = clave z → valor y = valor z) →
  x ∈ l → dict_de clave valor l !! clave x = Some (valor x).
Proof.
  intros Hfun Hx. rewrite dict_de_lookup.
  destruct (last (filter (λ y, clave y = clave x) l)) as [y|] eqn:Hlast.
  - apply last_Some_elem_of, list_elem_of_filter in Hlast as [Hk Hy].
    cbn. f_equal. by apply Hfun.
  - apply last_None in Hlast.
    assert (Hin : x ∈ filter (λ y, clave y = clave x) l) by (by apply list_elem_of_filter).
    rewrite Hlast in Hin. by apply elem_of_nil in Hin.
Qed.

Lemma limit_slice_hasta {A} (limite : option Z) (l : list A) :
  match limite with Some L => (0 <= L)%Z | None => True end →
  limit limite l = Retorna (slice_hasta limite l).
Proof.
  destruct limite as [L|]; [|done]. intros HL. unfold limit, slice_hasta.
  by destruct (Z.ltb_spec L 0); [lia|].
Qed.

(** The state [realizar_conciliacion] records for a joined row. *)
Lemma estado_definitivo_es_alerta (fila : TenantProveedor.t * option Proveedor.t) :
  (if verdadero (Proveedor.situacion_contribuyente <$> fila.2)
   then default "" (Proveedor.situacion_contribuyente <$> fila.2)
   else NO_ENCONTRADO) = "Definitivo"
  ↔ es_alerta fila.
Proof.
  unfold es_alerta, NO_ENCONTRADO. destruct fila as [tp [p|]]; cbn.
  - destruct (Proveedor.situacion_contribuyente p) as [|c s] eqn:E; cbn.
    + split; intros H; discriminate H.
    + split; congruence.
  - split; intros H; discriminate H.
Qed.

(** What the statistics of a tenant show is what its next run records: the
    relations within the limit are the RFCs of the detail rows, in the same
    order, and [alertas] is the number of detail rows with the state
    "Definitivo". *)
Theorem estadisticas_anticipan_la_conciliacion ahora duracion session tenant_id tipo tenant :
  tenant_por_id (transaccion session) tenant_id = Some tenant →
  match limite_del_plan tenant with Some L => (0 <= L)%Z | None => True end →
  unicidad_proveedores (transaccion session) →
  let db := transaccion session in
  let e :=
    get_tenant_stats_within_limit session tenant_id (get_tenant_usage session tenant_id) in
  ∃ s' res detalles,
    realizar_conciliacion ahora duracion session tenant_id tipo = (s', Retorna res)
    ∧ resultado_conciliaciones (transaccion s') = resultado_conciliaciones db ++ detalles
    ∧ ConciliacionDetalle.rfc <$> detalles
      = (λ fila : TenantProveedor.t * option Proveedor.t, TenantProveedor.rfc fila.1)
          <$> Estadisticas.proveedores_dentro_limite e
    ∧ Resumen.rfcs_procesados res = length (Estadisticas.proveedores_dentro_limite e)
    ∧ length (filter (λ d, ConciliacionDetalle.estado d = "Definitivo") detalles)
      = Estadisticas.alertas e.
Proof.
  intros Ht HL Huni db e.
  unfold e. rewrite (get_tenant_usage_limite_del_plan _ _ _ Ht).
  unfold get_tenant_stats_within_limit. fold db.
  cbn [Estadisticas.alertas Estadisticas.proveedores_dentro_limite].
  set (todos := merge_sort mas_viejo_primero_join _).
  set (dentro := slice_hasta (limite_del_plan tenant) todos).
  set (proy := λ fila : TenantProveedor.t * option Proveedor.t,
                 (TenantProveedor.rfc fila.1, Proveedor.situacion_contribuyente <$> fila.2)).
  assert (Hq : consulta_rfcs_y_sat db tenant_id (limite_del_plan tenant)
               = Retorna (proy <$> dentro)).
  { unfold consulta_rfcs_y_sat. fold todos. by rewrite limit_slice_hasta. }
  pose proof (realizar_conciliacion_eq ahora duracion session tenant_id tipo tenant
                (proy <$> dentro) Ht Hq) as Heq.
  cbv zeta in Heq. rewrite Heq. clear Heq.
  set (sat_dict := dict_de fst _ (proy <$> dentro)).
  set (pares := (λ rfc, (rfc, default NO_ENCONTRADO (sat_dict !! rfc))) <$> (proy <$> dentro).*1).
  destruct (guardar_conciliacion_efecto ahora duracion session tenant_id tipo
              (_obtener_version_sat (transaccion session)) (length (proy <$> dentro))
              (length (filter no_es_centinela pares)) pares) as (_ & Htrans & _).
  cbv zeta in Htrans.
  (* every row within the limit is a relation with its one SAT row *)
  assert (Hfila : ∀ fila, fila ∈ dentro → fila = fila_sat (proveedores db) fila.1).
  { intros fila Hin.
    assert (Hin' : fila ∈ todos).
    { unfold dentro in Hin. destruct (slice_hasta_take (limite_del_plan tenant) todos)
        as (k & Hk). rewrite Hk in Hin. by eapply subseteq_take. }
    unfold todos in Hin'. rewrite merge_sort_Permutation in Hin'.
    apply list_elem_of_filter in Hin' as [_ Hin'].
    rewrite (outerjoin_unico _ _ Huni) in Hin'.
    by apply list_elem_of_fmap in Hin' as (tp & -> & _). }
  assert (Hdict : ∀ fila, fila ∈ dentro →
            default NO_ENCONTRADO (sat_dict !! TenantProveedor.rfc fila.1)
            = if verdadero (Proveedor.situacion_contribuyente <$> fila.2)
              then default "" (Proveedor.situacion_contribuyente <$> fila.2)
              else NO_ENCONTRADO).
  { intros fila Hin. unfold sat_dict.
    rewrite (dict_de_funcional fst _ (proy <$> dentro) (proy fila)); [done| |].
    - intros y z (fy & -> & Hy)%list_elem_of_fmap (fz & -> & Hz)%list_elem_of_fmap.
      unfold proy. cbn [fst snd]. intros Hrfc.
      rewrite (Hfila _ Hy), (Hfila _ Hz). unfold fila_sat. cbn [fst snd]. by rewrite Hrfc.
    - by apply list_elem_of_fmap_2. }
  set (fila_detalle := λ fila : TenantProveedor.t * option Proveedor.t,
         ConciliacionDetalle.mk (uuid4 session) (TenantProveedor.rfc fila.1)
           (if verdadero (Proveedor.situacion_contribuyente <$> fila.2)
            then default "" (Proveedor.situacion_contribuyente <$> fila.2)
            else NO_ENCONTRADO)).
  assert (Hdet : (λ d : string * string, ConciliacionDetalle.mk (uuid4 session) d.1 d.2)
                   <$> pares
                 = fila_detalle <$> dentro).
  { unfold pares. rewrite <- !list_fmap_compose. apply list_fmap_ext.
    intros i fila Hi. unfold fila_detalle. cbn [compose fst snd proy].
    f_equal. apply Hdict. by eapply list_elem_of_lookup_2. }
  eexists _, _, (fila_detalle <$> dentro).
  split; [reflexivity|]. cbn [fst].
  rewrite Htrans. cbn [resultado_conciliaciones Resumen.rfcs_procesados]. rewrite Hdet.
  split_and!.
  - done.
  - by rewrite <- list_fmap_compose.
  - by rewrite length_fmap.
  - rewrite contar_alertas_filter, Nat.add_0_l.
    apply length_filter_fmap_ext. intros fila. unfold fila_detalle.
    cbn [ConciliacionDetalle.estado]. apply estado_definitivo_es_alerta.
Qed.

(** Tenant 1 of the sample: limit 2, three active relations, one alert
    within the limit. *)
Lemma estadisticas_anticipan_la_conciliacion_witness :
  ∃ s' res detalles,
    realizar_conciliacion 9 4 Muestra.sesion_general 1 "Manual" = (s', Retorna res)
    ∧ resultado_conciliaciones (transaccion s') = detalles
    ∧ length (filter (λ d, ConciliacionDetalle.estado d = "Definitivo") detalles)
      = Estadisticas.alertas
          (get_tenant_stats_within_limit Muestra.sesion_general 1 (Some 2%Z)).
Proof.
  destruct (estadisticas_anticipan_la_conciliacion 9 4 Muestra.sesion_general 1 "Manual"
              (Muestra.tenant_con_limite 1 (Some 2%Z)) eq_refl ltac:(cbn; lia)
              ltac:(apply (bool_decide_unpack _); vm_compute; exact I))
    as (s' & res & detalles & Hrun & Hdet & _ & _ & Hal).
  exists s', res, detalles. split; [exact Hrun|]. split; [exact Hdet | exact Hal].
Defined.

(** ** Removing a supplier *)

Lemma filter_todos {A} (P : A → Prop) `{!∀ x, Decision (P x)} (l : list A) :
  (∀ x, x ∈ l → P x) → filter P l = l.
Proof.
  induction l as [|x l IH]; intros HP; [done|].
  rewrite filter_cons, decide_True by (apply HP; left).
  f_equal. apply IH. intros y Hy. apply HP. by right.
Qed.

Lemma filter_distinto_NoDup {A} `{!EqDecision A} (l : list A) (x : A) :
  NoDup l → x ∈ l → length (filter (λ y, y ≠ x) l) = (length l - 1)%nat.
Proof.
  intros Hnd Hx. induction Hnd as [|y l Hy Hnd IH]; [by apply elem_of_nil in Hx|].
  rewrite filter_cons. destruct (decide (y ≠ x)) as [Hne|Heq].
  - apply elem_of_cons in Hx as [->|Hx]; [done|]. cbn. rewrite IH by done.
    destruct l; [by apply elem_of_nil in Hx|]. cbn. lia.
  - apply dec_stable in Heq as ->. cbn. rewrite Nat.sub_0_r. f_equal.
    apply filter_todos. intros y Hy' ->. done.
Qed.

Lemma filter_distinto_ausente {A} `{!EqDecision A} (l : list A) (x : A) :
  x ∉ l → filter (λ y, y ≠ x) l = l.
Proof. intros Hx. apply filter_todos. by intros y Hy ->. Qed.

(** Under the primary key, the rows with another id are the other rows. *)
Lemma filter_por_id (tabla : list TenantProveedor.t) relation :
  NoDup (TenantProveedor.id <$> tabla) → relation ∈ tabla →
  filter (λ rel, TenantProveedor.id rel ≠ TenantProveedor.id relation) tabla
  = filter (λ rel, rel ≠ relation) tabla.
Proof.
  intros Hnd Hin. apply filter_ext_elem. intros rel Hrel. split.
  - by intros Hid ->.
  - intros Hne Hid. apply Hne. by eapply (NoDup_fmap_elem_of_inj TenantProveedor.id).
Qed.

Lemma get_by_tenant_and_rfc_Some session tenant_id rfc relation :
  get_by_tenant_and_rfc session tenant_id rfc = Some relation →
  relation ∈ tenant_proveedores (transaccion session)
  ∧ TenantProveedor.tenant_id relation = tenant_id
  ∧ TenantProveedor.rfc relation = normalizar rfc.
Proof.
  unfold get_by_tenant_and_rfc. intros H.
  apply head_Some_elem_of, list_elem_of_filter in H as [[? ?] ?]. done.
Qed.

(** What [delete_by_tenant_and_rfc] does to a session that has the
    relation. *)
Lemma delete_by_tenant_and_rfc_Some session tenant_id rfc relation :
  get_by_tenant_and_rfc session tenant_id rfc = Some relation →
  delete_by_tenant_and_rfc session tenant_id rfc
  = (commit
       (escribir session
          (con_tenant_proveedores (transaccion session)
             (filter (λ rel, TenantProveedor.id rel ≠ TenantProveedor.id relation)
                     (tenant_proveedores (transaccion session))))),
     true).
Proof.
  unfold get_by_tenant_and_rfc, delete_by_tenant_and_rfc. by intros ->.
Qed.

(** The effect of [delete_by_tenant_and_rfc] on a session that has the
    relation. *)
Lemma delete_by_tenant_and_rfc_efecto session tenant_id rfc relation :
  unicidad_ids (transaccion session) →
  unicidad_relaciones (transaccion session) →
  get_by_tenant_and_rfc session tenant_id rfc = Some relation →
  let db := transaccion session in
  ∃ s',
    delete_by_tenant_and_rfc session tenant_id rfc = (s', true)
    ∧ confirmado s' = transaccion s'
    ∧ transaccion s'
      = con_tenant_proveedores db (filter (λ rel, rel ≠ relation) (tenant_proveedores db))
    ∧ length (tenant_proveedores (transaccion s'))
      = (length (tenant_proveedores db) - 1)%nat
    ∧ get_by_tenant_and_rfc s' tenant_id rfc = None
    ∧ contar_activos (transaccion s') tenant_id
      = (contar_activos db tenant_id
         - if TenantProveedor.activo relation then 1 else 0)%Z.
Proof.
  intros Hids Hunica Hget db.
  rewrite (delete_by_tenant_and_rfc_Some _ _ _ _ Hget).
  destruct (get_by_tenant_and_rfc_Some _ _ _ _ Hget) as (Hin & Hten & Hrfc).
  unfold unicidad_ids, unicidad_relaciones in *. subst db.
  set (tabla := tenant_proveedores (transaccion session)) in *.
  assert (Hnd : NoDup tabla) by (by eapply NoDup_fmap_1).
  eexists. split; [reflexivity|].
  cbn [commit escribir confirmado transaccion].
  rewrite (filter_por_id _ _ Hids Hin).
  cbn [con_tenant_proveedores tenant_proveedores].
  split_and!; try done.
  - by apply filter_distinto_NoDup.
  - unfold get_by_tenant_and_rfc.
    cbn [commit escribir transaccion con_tenant_proveedores tenant_proveedores].
    rewrite list_filter_filter.
    destruct (filter _ tabla) as [|rel l] eqn:E; [done|]. exfalso.
    assert (Hrel : rel ∈ rel :: l) by left. rewrite <- E in Hrel.
    apply list_elem_of_filter in Hrel as [[[Hten' Hrfc'] Hne] Hrel].
    apply Hne. apply (NoDup_fmap_elem_of_inj clave_unica tabla); try done.
    unfold clave_unica. by rewrite Hten, Hrfc, Hten', Hrfc'.
  - unfold contar_activos.
    cbn [con_tenant_proveedores tenant_proveedores]. fold tabla.
    rewrite list_filter_filter.
    rewrite (filter_ext_elem _ (λ rel, rel ≠ relation ∧ es_activo_de tenant_id rel))
      by (intros; tauto).
    rewrite <- list_filter_filter.
    assert (Hnd' : NoDup (filter (es_activo_de tenant_id) tabla))
      by (by apply NoDup_filter).
    destruct (TenantProveedor.activo relation) eqn:Hact.
    + assert (Hin' : relation ∈ filter (es_activo_de tenant_id) tabla)
        by (by apply list_elem_of_filter).
      rewrite filter_distinto_NoDup by done.
      destruct (filter (es_activo_de tenant_id) tabla);
        [by apply elem_of_nil in Hin'|]. cbn [length]. lia.
    + rewrite filter_distinto_ausente; [lia|].
      intros [[_ Hact'] _]%list_elem_of_filter. congruence.
Qed.

(** Removing a supplier the tenant has: the answer is [True], the relation
    and nothing else leaves the table, the change is durable at once, the
    RFC can no longer be found, the count of active relations drops by one
    if the relation was active, and the history of runs and their detail
    rows stay as they were. *)
Theorem eliminar_proveedor_existente session tenant_id rfc relation :
  is_Some (tenant_por_id (transaccion session) tenant_id) →
  unicidad_ids (transaccion session) →
  unicidad_relaciones (transaccion session) →
  get_by_tenant_and_rfc session tenant_id rfc = Some relation →
  let db := transaccion session in
  ∃ s',
    eliminar_proveedor session tenant_id rfc = (s', Retorna true)
    ∧ confirmado s' = transaccion s'
    ∧ tenant_proveedores (transaccion s')
      = filter (λ rel, rel ≠ relation) (tenant_proveedores db)
    ∧ length (tenant_proveedores (transaccion s'))
      = (length (tenant_proveedores db) - 1)%nat
    ∧ get_by_tenant_and_rfc s' tenant_id rfc = None
    ∧ contar_activos (transaccion s') tenant_id
      = (contar_activos db tenant_id
         - if TenantProveedor.activo relation then 1 else 0)%Z
    ∧ conciliacion_historial (transaccion s') = conciliacion_historial db
    ∧ resultado_conciliaciones (transaccion s') = resultado_conciliaciones db.
Proof.
  intros [tenant Ht] Hids Hunica Hget db.
  destruct (delete_by_tenant_and_rfc_efecto _ _ _ _ Hids Hunica Hget)
    as (s' & Hdel & Hconf & Htrans & Hlen & Hnone & Hact).
  exists s'. unfold eliminar_proveedor. rewrite Ht, Hdel.
  split_and!; try done; by rewrite Htrans.
Qed.

(** Tenant 1 of the sample loses its relation number 1, asked for in lower
    case and with blanks around. *)
Lemma eliminar_proveedor_existente_witness :
  ∃ s',
    eliminar_proveedor Muestra.sesion_general 1 " aaa010101aa1 " = (s', Retorna true)
    ∧ get_by_tenant_and_rfc s' 1 " aaa010101aa1 " = None
    ∧ contar_activos (transaccion s') 1 = 2%Z.
Proof.
  destruct (eliminar_proveedor_existente Muestra.sesion_general 1 " aaa010101aa1 "
              (Muestra.relacion 1 1 true 10))
    as (s' & Hel & _ & _ & _ & Hget & Hact & _).
  - by eexists.
  - apply (bool_decide_unpack _). vm_compute. exact I.
  - apply (bool_decide_unpack _). vm_compute. exact I.
  - vm_compute. reflexivity.
  - exists s'. split; [exact Hel|]. split; [exact Hget|].
    rewrite Hact. vm_compute. reflexivity.
Defined.



(** ** Creating one relation *)

Lemma get_by_tenant_and_rfc_None session tenant_id rfc :
  get_by_tenant_and_rfc session tenant_id rfc = None ↔
  (tenant_id, normalizar rfc) ∉ clave_unica <$> tenant_proveedores (transaccion session).
Proof.
  unfold get_by_tenant_and_rfc. rewrite head_None. split.
  - intros Hf (rel & Hk & Hin)%list_elem_of_fmap.
    unfold clave_unica in Hk. injection Hk as Ht Hr.
    assert (Hin' : rel ∈ filter (λ rel, TenantProveedor.tenant_id rel = tenant_id ∧
                                        TenantProveedor.rfc rel = normalizar rfc)
                                (tenant_proveedores (transaccion session)))
      by (by apply list_elem_of_filter).
    rewrite Hf in Hin'. by apply elem_of_nil in Hin'.
  - intros Hno. apply filter_nil_Forall, Forall_forall. intros rel Hin [Ht Hr].
    apply Hno, list_elem_of_fmap. exists rel. split; [|done].
    unfold clave_unica. by rewrite Ht, Hr.
Qed.





(** ** The unique constraint as an invariant *)

Lemma NoDup_fmap_filter {A B} (f : A → B) (P : A → Prop) `{!∀ x, Decision (P x)}
    (l : list A) :
  NoDup (f <$> l) → NoDup (f <$> filter P l).
Proof.
  induction l as [|x l IH]; [done|].
  rewrite fmap_cons. intros [Hx Hnd]%NoDup_cons.
  rewrite filter_cons. destruct (decide (P x)); [|by apply IH].
  rewrite fmap_cons. apply NoDup_cons. split; [|by apply IH].
  intros (y & Hy & [_ Hin]%list_elem_of_filter)%list_elem_of_fmap.
  apply Hx, list_elem_of_fmap. by exists y.
Qed.

Lemma respeta_unicidad_NoDup tabla nuevas :
  NoDup (clave_unica <$> tabla) → respeta_unicidad tabla nuevas →
  NoDup (clave_unica <$> (tabla ++ nuevas)).
Proof.
  intros Hnd [Hnuevas Hfrescas]. rewrite fmap_app. apply NoDup_app. split_and!; [done| |done].
  intros k Hk Hk'. rewrite Forall_forall in Hfrescas. by apply (Hfrescas k).
Qed.

Lemma sesion_unica_rollback s : sesion_unica s → sesion_unica (rollback s).
Proof. by intros [_ H]. Qed.

Lemma sesion_unica_commit s : sesion_unica s → sesion_unica (commit s).
Proof. by intros [H _]. Qed.

Lemma sesion_unica_fijar_activo s relation activo :
  sesion_unica s → sesion_unica (fijar_activo s relation activo).
Proof.
  intros [Ht Hc]. split; [|done]. unfold unicidad_relaciones, fijar_activo in *.
  cbn [escribir transaccion con_tenant_proveedores tenant_proveedores].
  rewrite <- list_fmap_compose.
  erewrite list_fmap_ext; [exact Ht|]. intros i rel _. cbn [compose].
  by destruct (decide _).
Qed.

Lemma sesion_unica_create_relations_batch_with_status ahora s tenant_id proveedores :
  sesion_unica s →
  sesion_unica (create_relations_batch_with_status ahora s tenant_id proveedores).1.
Proof.
  intros [Ht Hc]. unfold create_relations_batch_with_status.
  destruct (decide _) as [Hresp|_]; cbn [fst]; [|by apply sesion_unica_rollback].
  split; [|done]. unfold unicidad_relaciones.
  cbn [avanzar_uuid4 escribir transaccion con_tenant_proveedores tenant_proveedores].
  by apply respeta_unicidad_NoDup.
Qed.

(** No write path of the service or of the repository ever leaves a tenant
    with two relations for one RFC: if the unique constraint on
    [(tenant_id, rfc)] holds in the session, in its pending and in its
    committed state, it holds after adding a batch, creating a relation,
    removing a supplier and switching a relation on or off. *)
Theorem unicidad_relaciones_invariante ahora session tenant_id :
  sesion_unica session →
  (∀ proveedores limite_rfcs,
     sesion_unica (agregar_proveedores_batch ahora session tenant_id proveedores limite_rfcs).1)
  ∧ (∀ rfc, sesion_unica (create_relation ahora session tenant_id rfc).1)
  ∧ (∀ rfc, sesion_unica (eliminar_proveedor session tenant_id rfc).1)
  ∧ (∀ rfc activo, sesion_unica (actualizar_estado_operativo_rfc session tenant_id rfc activo).1)
  ∧ (∀ rfc activo commit_,
       sesion_unica (update_estado_operativo session tenant_id rfc activo commit_).1).
Proof.
  intros Hs. split_and!.
  - intros proveedores limite_rfcs. unfold agregar_proveedores_batch.
    destruct (extraer_rfcs proveedores [] ∅) as [rfcs_norm razones].
    destruct rfcs_norm as [|rfc0 rfcs]; [done|].
    destruct (tenant_por_id _ _); [|done].
    set (st := separar _ _ _ _ _).
    destruct (proveedores_nuevos_activos st ++ proveedores_nuevos_inactivos st)
      as [|n ns] eqn:E; [done|].
    pose proof (sesion_unica_create_relations_batch_with_status ahora session tenant_id
                  (n :: ns) Hs) as Hcrea.
    by destruct (create_relations_batch_with_status ahora session tenant_id (n :: ns)).
  - intros rfc. unfold create_relation.
    destruct (decide _) as [(Hresp & _ & _)|_]; cbn [fst]; [|by apply sesion_unica_rollback].
    apply sesion_unica_commit. destruct Hs as [Ht Hc]. split; [|done].
    unfold unicidad_relaciones.
    cbn [avanzar_uuid4 escribir transaccion con_tenant_proveedores tenant_proveedores].
    by apply respeta_unicidad_NoDup.
  - intros rfc. unfold eliminar_proveedor, delete_by_tenant_and_rfc.
    destruct (tenant_por_id _ _); [|done].
    destruct (head _); cbn [fst]; [|done].
    apply sesion_unica_commit. destruct Hs as [Ht Hc]. split; [|done].
    unfold unicidad_relaciones.
    cbn [escribir transaccion con_tenant_proveedores tenant_proveedores].
    by apply NoDup_fmap_filter.
  - intros rfc activo. unfold actualizar_estado_operativo_rfc.
    destruct (get_by_tenant_and_rfc _ _ _) as [relation|]; [|done].
    destruct (if activo && negb (TenantProveedor.activo relation) then _ else _)
      as [[]|[m|m|m|m]]; cbn [fst];
      try (by apply sesion_unica_rollback).
    by apply sesion_unica_commit, sesion_unica_fijar_activo.
  - intros rfc activo commit_. unfold update_estado_operativo.
    destruct (head _) as [relation|]; cbn [fst]; [|done].
    destruct commit_; [apply sesion_unica_commit|]; by apply sesion_unica_fijar_activo.
Qed.

Lemma unicidad_relaciones_invariante_witness :
  sesion_unica (create_relation 7 Muestra.sesion_general 1 "AAA010101AA9").1.
Proof.
  apply (unicidad_relaciones_invariante 7 Muestra.sesion_general 1).
  split; apply (bool_decide_unpack _); vm_compute; exact I.
Defined.

(** ** Removing a supplier and the burst ceiling *)

(** A tenant at its burst ceiling cannot switch an inactive relation on;
    once it has removed one of its active suppliers, the same request is
    accepted. *)
Theorem eliminar_libera_una_activacion session tenant_id tenant (L : Z) rfc1 rfc2 r1 r2 :
  tenant_por_id (transaccion session) tenant_id = Some tenant →
  Tenant.plan tenant = Some (Plan.mk (Some L)) →
  unicidad_ids (transaccion session) →
  unicidad_relaciones (transaccion session) →
  get_by_tenant_and_rfc session tenant_id rfc1 = Some r1 →
  TenantProveedor.activo r1 = true →
  get_by_tenant_and_rfc session tenant_id rfc2 = Some r2 →
  TenantProveedor.activo r2 = false →
  contar_activos (transaccion session) tenant_id = limite_burst L →
  actualizar_estado_operativo_rfc session tenant_id rfc2 true
  = (rollback session, Lanza (ValueError MENSAJE_BURST))
  ∧ ∃ s1 s2 respuesta,
      eliminar_proveedor session tenant_id rfc1 = (s1, Retorna true)
      ∧ actualizar_estado_operativo_rfc s1 tenant_id rfc2 true = (s2, Retorna (Some respuesta))
      ∧ EstadoRFC.activo respuesta = true
      ∧ TenantProveedor.activo <$> get_by_tenant_and_rfc s2 tenant_id rfc2 = Some true.
Proof.
  intros Ht Hplan Hids Hunica Hg1 Ha1 Hg2 Ha2 Hburst. split.
  - unfold actualizar_estado_operativo_rfc. rewrite Hg2, Ha2. cbn [andb negb].
    unfold verificar_burst. rewrite Ht, Hplan. cbn [Plan.limite_proveedores].
    rewrite Hburst, Z.leb_refl. done.
  - destruct (delete_by_tenant_and_rfc_efecto _ _ _ _ Hids Hunica Hg1)
      as (s1 & Hdel & Hconf & Htrans & Hlen & Hnone & Hact).
    destruct (get_by_tenant_and_rfc_Some _ _ _ _ Hg1) as (Hin1 & Hten1 & Hrfc1).
    destruct (get_by_tenant_and_rfc_Some _ _ _ _ Hg2) as (Hin2 & Hten2 & Hrfc2).
    assert (Hg2' : get_by_tenant_and_rfc s1 tenant_id rfc2 = Some r2).
    { unfold get_by_tenant_and_rfc in Hg2 |- *. rewrite Htrans.
      cbn [con_tenant_proveedores tenant_proveedores].
      rewrite list_filter_filter, <- Hg2. f_equal.
      apply filter_ext_elem. intros rel Hrel. split; [tauto|].
      intros [Hten Hrfc]. split; [done|]. intros ->.
      assert (r1 = r2); [|congruence].
      apply (NoDup_fmap_elem_of_inj clave_unica
               (tenant_proveedores (transaccion session))); try done.
      unfold clave_unica. by rewrite Hten, Hrfc, Hten2, Hrfc2. }
    assert (Ht' : tenant_por_id (transaccion s1) tenant_id = Some tenant)
      by (by rewrite Htrans).
    eexists s1, _, _. split_and!.
    + unfold eliminar_proveedor. by rewrite Ht, Hdel.
    + unfold actualizar_estado_operativo_rfc. rewrite Hg2', Ha2. cbn [andb negb].
      unfold verificar_burst. rewrite Ht', Hplan. cbn [Plan.limite_proveedores].
      rewrite Hact, Ha1, Hburst.
      destruct (Z.leb_spec (limite_burst L) (limite_burst L - 1)) as [|_]; [lia|].
      reflexivity.
    + done.
    + by apply get_by_tenant_and_rfc_fijar_activo.
Qed.

(** Limit 2, hence a ceiling of 2: two active relations and an inactive
    one. *)
Lemma eliminar_libera_una_activacion_witness :
  let session :=
    Muestra.sesion_de
      (Muestra.bd [Muestra.tenant_con_limite 1 (Some 2%Z)]
         [Muestra.relacion 1 0 true 1; Muestra.relacion 1 1 true 2;
          Muestra.relacion 1 2 false 3] [] []) in
  actualizar_estado_operativo_rfc session 1 (Muestra.rfc_n 2) true
  = (rollback session, Lanza (ValueError MENSAJE_BURST))
  ∧ ∃ s1 s2 respuesta,
      eliminar_proveedor session 1 (Muestra.rfc_n 0) = (s1, Retorna true)
      ∧ actualizar_estado_operativo_rfc s1 1 (Muestra.rfc_n 2) true
        = (s2, Retorna (Some respuesta))
      ∧ EstadoRFC.activo respuesta = true
      ∧ TenantProveedor.activo <$> get_by_tenant_and_rfc s2 1 (Muestra.rfc_n 2) = Some true.
Proof.
  intros session.
  apply (eliminar_libera_una_activacion session 1 (Muestra.tenant_con_limite 1 (Some 2%Z)) 2
           (Muestra.rfc_n 0) (Muestra.rfc_n 2)
           (Muestra.relacion 1 0 true 1) (Muestra.relacion 1 2 false 3)).
  - vm_compute. reflexivity.
  - reflexivity.
  - apply (bool_decide_unpack _). vm_compute. exact I.
  - apply (bool_decide_unpack _). vm_compute. exact I.
  - vm_compute. reflexivity.
  - reflexivity.
  - vm_compute. reflexivity.
  - reflexivity.
  - vm_compute. reflexivity.
Defined.

(** ** The last run of a tenant *)

#[local] Instance mas_reciente_primero_trans : Transitive mas_reciente_primero.
Proof. intros a b c. unfold mas_reciente_primero. lia. Qed.

#[local] Instance mas_reciente_primero_total : Total mas_reciente_primero.
Proof. intros a b. unfold mas_reciente_primero. lia. Qed.

Lemma head_merge_sort_maximo (l : list ConciliacionHistorial.t) :
  match head (merge_sort mas_reciente_primero l) with
  | None => l = []
  | Some h => h ∈ l ∧ ∀ h', h' ∈ l → mas_reciente_primero h h'
  end.
Proof.
  pose proof (merge_sort_Permutation mas_reciente_primero l) as Hperm.
  pose proof (StronglySorted_merge_sort mas_reciente_primero l) as Hsort.
  destruct (merge_sort mas_reciente_primero l) as [|h resto]; cbn [head].
  - symmetry in Hperm. by apply Permutation_nil_r in Hperm.
  - split; [rewrite <- Hperm; left|].
    intros h' Hh'. rewrite <- Hperm in Hh'.
    apply StronglySorted_inv in Hsort as [_ Hall].
    apply elem_of_cons in Hh' as [->|Hh'].
    + unfold mas_reciente_primero. lia.
    + rewrite Forall_forall in Hall. by apply Hall.
Qed.

(** [get_ultima_conciliacion] answers [None] exactly when the tenant has no
    run, and otherwise with one of the runs of the tenant, no other run of
    the tenant being more recent; runs of other tenants play no part. *)
Theorem ultima_conciliacion_es_la_mas_reciente session tenant_id :
  let del_tenant :=
    filter (λ h, ConciliacionHistorial.tenant_id h = tenant_id)
           (conciliacion_historial (transaccion session)) in
  match get_ultima_conciliacion session tenant_id with
  | None => del_tenant = []
  | Some h =>
      h ∈ conciliacion_historial (transaccion session)
      ∧ ConciliacionHistorial.tenant_id h = tenant_id
      ∧ ∀ h', h' ∈ del_tenant →
              (ConciliacionHistorial.fecha_conciliacion h'
               <= ConciliacionHistorial.fecha_conciliacion h)%Z
  end.
Proof.
  intros del_tenant. unfold get_ultima_conciliacion. fold del_tenant.
  pose proof (head_merge_sort_maximo del_tenant) as Hmax.
  destruct (head _) as [h|]; [|done].
  destruct Hmax as [Hin Hmax]. apply list_elem_of_filter in Hin as [Hten Hin].
  split_and!; [done|done|]. intros h' Hh'. by apply Hmax.
Qed.

(** A run added after all the runs of its tenant is the last one. *)
Lemma ultima_tras_agregar (hist : list ConciliacionHistorial.t) h tenant_id :
  ConciliacionHistorial.tenant_id h = tenant_id →
  (∀ h', h' ∈ hist → ConciliacionHistorial.tenant_id h' = tenant_id →
         (ConciliacionHistorial.fecha_conciliacion h'
          < ConciliacionHistorial.fecha_conciliacion h)%Z) →
  head (merge_sort mas_reciente_primero
          (filter (λ h, ConciliacionHistorial.tenant_id h = tenant_id) (hist ++ [h])))
  = Some h.
Proof.
  intros Hten Hantes.
  pose proof (head_merge_sort_maximo
                (filter (λ h, ConciliacionHistorial.tenant_id h = tenant_id) (hist ++ [h])))
    as Hmax.
  assert (Hh : h ∈ filter (λ h, ConciliacionHistorial.tenant_id h = tenant_id) (hist ++ [h])).
  { apply list_elem_of_filter. split; [done|]. apply elem_of_app. right. left. }
  destruct (head _) as [x|]; [|by rewrite Hmax in Hh; apply elem_of_nil in Hh].
  destruct Hmax as [Hx Hmax]. f_equal.
  apply list_elem_of_filter in Hx as [Hxt Hx].
  apply elem_of_app in Hx as [Hx|Hx]; [|by apply list_elem_of_singleton in Hx].
  specialize (Hantes x Hx Hxt). specialize (Hmax h Hh).
  unfold mas_reciente_primero in Hmax. lia.
Qed.

(** ** Reading a run back *)

Lemma resultado_detalle_sin_coincidencia estado :
  resultado_detalle estado = "Sin coincidencia" ↔ estado = NO_ENCONTRADO.
Proof.
  unfold resultado_detalle, NO_ENCONTRADO.
  destruct (decide (estado = "No encontrado")); [done|].
  split; [|done]. by destruct (_ || _).
Qed.

Lemma resultado_power_query_sin_coincidencia estado :
  resultado_power_query estado = "Sin coincidencia" ↔ estado = NO_ENCONTRADO.
Proof.
  unfold resultado_power_query, NO_ENCONTRADO.
  destruct (decide (estado = "No encontrado")); [done|].
  split; [|done]. by destruct (_ && _).
Qed.

(** Both readers classify a state alike: the sentinel is "Sin
    coincidencia" and nothing else is. *)
Theorem clasificaciones_coinciden estado :
  resultado_power_query estado = resultado_detalle estado
  ∧ (resultado_detalle estado = "Sin coincidencia" ↔ estado = NO_ENCONTRADO).
Proof.
  split; [|apply resultado_detalle_sin_coincidencia].
  unfold resultado_power_query, resultado_detalle.
  destruct (decide (estado = "No encontrado")); [done|].
  by destruct estado as [|c s].
Qed.

Lemma consulta_rfcs_y_sat_retorna db tenant_id limite_rfcs :
  match limite_rfcs with Some L => (0 <= L)%Z | None => True end →
  ∃ resultados, consulta_rfcs_y_sat db tenant_id limite_rfcs = Retorna resultados.
Proof.
  intros HL. unfold consulta_rfcs_y_sat. rewrite limit_slice_hasta by done. eauto.
Qed.

(** The run [realizar_conciliacion] records: one history row and its
    detail rows, nothing else. *)
Lemma realizar_conciliacion_efecto ahora duracion session tenant_id tipo tenant :
  tenant_por_id (transaccion session) tenant_id = Some tenant →
  match limite_del_plan tenant with Some L => (0 <= L)%Z | None => True end →
  let db := transaccion session in
  ∃ (pares : list (string * string)) version s',
    let historial :=
      ConciliacionHistorial.mk (uuid4 session) tenant_id ahora tipo version (length pares)
        (length (filter no_es_centinela pares)) "completado" duracion in
    realizar_conciliacion ahora duracion session tenant_id tipo
    = (s', Retorna (Resumen.mk ahora tipo version (length pares)
                      (length (filter no_es_centinela pares)) "completado" (length pares)
                      (length (filter no_es_centinela pares))
                      (length pares - length (filter no_es_centinela pares))
                      None None (uuid4 session)))
    ∧ transaccion s'
      = mkBaseDatos (tenants db) (tenant_proveedores db) (proveedores db)
          (dof_contribuyentes db) (conciliacion_historial db ++ [historial])
          (resultado_conciliaciones db
           ++ ((λ d : string * string, ConciliacionDetalle.mk (uuid4 session) d.1 d.2)
               <$> pares)).
Proof.
  intros Ht HL db.
  destruct (consulta_rfcs_y_sat_retorna db tenant_id _ HL) as (resultados & Hq).
  pose proof (realizar_conciliacion_eq ahora duracion session tenant_id tipo tenant
                resultados Ht Hq) as Heq.
  cbv zeta in Heq.
  set (pares := (λ rfc, (rfc, default NO_ENCONTRADO (_ !! rfc))) <$> resultados.*1) in Heq.
  assert (Hlen : length resultados = length pares)
    by (unfold pares; by rewrite !length_fmap).
  rewrite Hlen in Heq.
  destruct (guardar_conciliacion_efecto ahora duracion session tenant_id tipo
              (_obtener_version_sat (transaccion session)) (length pares)
              (length (filter no_es_centinela pares)) pares) as (_ & Htrans & _).
  cbv zeta in Htrans.
  eexists pares, _, _. cbv zeta. split; [exact Heq|exact Htrans].
Qed.

Lemma filter_detalles_del_run (viejos : list ConciliacionDetalle.t) (id_run : UUID)
    (pares : list (string * string)) :
  Forall (λ d, ConciliacionDetalle.conciliacion_id d < id_run) viejos →
  filter (λ d, ConciliacionDetalle.conciliacion_id d = id_run)
         (viejos ++ ((λ d : string * string, ConciliacionDetalle.mk id_run d.1 d.2) <$> pares))
  = (λ d : string * string, ConciliacionDetalle.mk id_run d.1 d.2) <$> pares.
Proof.
  intros Hviejos. rewrite filter_app.
  rewrite (filter_nil_Forall _ viejos).
  2:{ eapply Forall_impl; [exact Hviejos|]. intros d Hd. cbn in Hd |- *. lia. }
  cbn [app]. apply filter_todos. by intros d (par & -> & _)%list_elem_of_fmap.
Qed.

(** What Power Query reads after a run is that run: when
    [realizar_conciliacion] has recorded a run later than all the earlier
    runs of the tenant, [obtener_ultima_conciliacion_power_query] answers
    with its id, date and kind, one line per processed RFC, and as many
    lines other than "Sin coincidencia" as the run counted matches. *)
Theorem power_query_tras_conciliar ahora duracion session tenant_id tipo tenant :
  tenant_por_id (transaccion session) tenant_id = Some tenant →
  match limite_del_plan tenant with Some L => (0 <= L)%Z | None => True end →
  uuid4_fresco session →
  (∀ h, h ∈ conciliacion_historial (transaccion session) →
        ConciliacionHistorial.tenant_id h = tenant_id →
        (ConciliacionHistorial.fecha_conciliacion h < ahora)%Z) →
  ∃ s' res pq,
    realizar_conciliacion ahora duracion session tenant_id tipo = (s', Retorna res)
    ∧ obtener_ultima_conciliacion_power_query s' tenant_id = Some pq
    ∧ PowerQuery.conciliacion_id pq = Resumen.historial_id res
    ∧ PowerQuery.fecha_conciliacion pq = ahora
    ∧ PowerQuery.tipo_conciliacion pq = tipo
    ∧ length (PowerQuery.rfcs pq) = Resumen.rfcs_procesados res
    ∧ length (filter (λ f, FilaRFC.resultado f ≠ "Sin coincidencia") (PowerQuery.rfcs pq))
      = Resumen.coincidencias res
    ∧ (λ f, (FilaRFC.rfc f, FilaRFC.estado f)) <$> PowerQuery.rfcs pq
      = (λ d, (ConciliacionDetalle.rfc d, ConciliacionDetalle.estado d))
          <$> detalles_de (Resumen.historial_id res) (transaccion s').
Proof.
  intros Ht HL [Hfh Hfd] Hantes.
  destruct (realizar_conciliacion_efecto ahora duracion session tenant_id tipo tenant Ht HL)
    as (pares & version & s' & Hrun & Htrans).
  cbv zeta in Hrun, Htrans.
  eexists s', _, _. split; [exact Hrun|].
  unfold obtener_ultima_conciliacion_power_query, detalles_de. rewrite Htrans.
  cbn [conciliacion_historial resultado_conciliaciones Resumen.historial_id
       Resumen.rfcs_procesados Resumen.coincidencias].
  rewrite (ultima_tras_agregar _ _ tenant_id) by done.
  cbn [ConciliacionHistorial.id ConciliacionHistorial.fecha_conciliacion
       ConciliacionHistorial.tipo_conciliacion].
  rewrite (filter_detalles_del_run _ _ _ Hfd).
  split; [reflexivity|].
  cbn [PowerQuery.conciliacion_id PowerQuery.fecha_conciliacion PowerQuery.tipo_conciliacion
       PowerQuery.rfcs].
  split_and!; try done.
  - by rewrite !length_fmap.
  - rewrite <- list_fmap_compose.
    apply length_filter_fmap_ext. intros [rfc estado]. cbn.
    unfold no_es_centinela. cbn.
    by rewrite resultado_power_query_sin_coincidencia.
  - by rewrite <- !list_fmap_compose.
Qed.

Lemma power_query_tras_conciliar_witness :
  let s1 := (realizar_conciliacion 9 4 Muestra.sesion_general 1 "Manual").1 in
  ∃ s' res pq,
    realizar_conciliacion 12 4 s1 1 "Automatica" = (s', Retorna res)
    ∧ obtener_ultima_conciliacion_power_query s' 1 = Some pq
    ∧ PowerQuery.conciliacion_id pq = Resumen.historial_id res
    ∧ PowerQuery.fecha_conciliacion pq = 12%Z.
Proof.
  intros s1.
  destruct (power_query_tras_conciliar 12 4 s1 1 "Automatica"
              (Muestra.tenant_con_limite 1 (Some 2%Z)))
    as (s' & res & pq & Hrun & Hpq & Hid & Hfecha & _).
  - vm_compute. reflexivity.
  - cbn. lia.
  - split; apply (bool_decide_unpack _); vm_compute; exact I.
  - intros h Hh _. vm_compute in Hh. apply list_elem_of_singleton in Hh. subst h.
    vm_compute. reflexivity.
  - exists s', res, pq. split; [exact Hrun|]. split; [exact Hpq|].
    split; [exact Hid | exact Hfecha].
Defined.

(** The run a tenant has just made can be read back by that tenant and by
    no other: [obtener_detalles_conciliacion] returns the counts of the
    run, one line per processed RFC, [sin_coincidencias] as the number of
    lines "Sin coincidencia", and the start and end of the run; for another
    tenant the same id raises the [ValueError] of a run not found. *)
Theorem detalles_tras_conciliar ahora duracion session tenant_id tipo tenant :
  tenant_por_id (transaccion session) tenant_id = Some tenant →
  match limite_del_plan tenant with Some L => (0 <= L)%Z | None => True end →
  uuid4_fresco session →
  ∃ s' res d,
    realizar_conciliacion ahora duracion session tenant_id tipo = (s', Retorna res)
    ∧ obtener_detalles_conciliacion s' tenant_id (Resumen.historial_id res) = Retorna d
    ∧ DetallesConciliacion.rfcs_procesados d = Resumen.rfcs_procesados res
    ∧ DetallesConciliacion.coincidencias d = Resumen.coincidencias res
    ∧ length (DetallesConciliacion.rfcs d) = Resumen.rfcs_procesados res
    ∧ DetallesConciliacion.sin_coincidencias d
      = Z.of_nat (length (filter (λ f, FilaRFC.resultado f = "Sin coincidencia")
                                 (DetallesConciliacion.rfcs d)))
    ∧ DatosTecnicos.start_time (DetallesConciliacion.datos_tecnicos d) = ahora
    ∧ DatosTecnicos.end_time (DetallesConciliacion.datos_tecnicos d) = (ahora + duracion)%Z
    ∧ (DatosTecnicos.trigger_source (DetallesConciliacion.datos_tecnicos d) = "manual"
       ↔ tipo = "Manual")
    ∧ ∀ otro,
        otro ≠ tenant_id →
        obtener_detalles_conciliacion s' otro (Resumen.historial_id res)
        = Lanza (ValueError ("Conciliación " +:+ str_uuid (Resumen.historial_id res) +:+
                             " no encontrada para tenant " +:+ str_uuid otro)).
Proof.
  intros Ht HL [Hfh Hfd].
  destruct (realizar_conciliacion_efecto ahora duracion session tenant_id tipo tenant Ht HL)
    as (pares & version & s' & Hrun & Htrans).
  cbv zeta in Hrun, Htrans.
  eexists s', _, _. split; [exact Hrun|].
  unfold obtener_detalles_conciliacion. rewrite Htrans.
  cbn [conciliacion_historial resultado_conciliaciones Resumen.historial_id
       Resumen.rfcs_procesados Resumen.coincidencias].
  assert (Hviejos : ∀ P : ConciliacionHistorial.t → Prop, ∀ `{!∀ h, Decision (P h)},
            filter (λ h, ConciliacionHistorial.id h = uuid4 session ∧ P h)
                   (conciliacion_historial (transaccion session)) = []).
  { intros P HP. apply filter_nil_Forall.
    eapply Forall_impl; [exact Hfh|]. intros h Hh [Hid _]. cbn in Hh. lia. }
  rewrite (filter_detalles_del_run _ _ _ Hfd).
  rewrite filter_app, Hviejos. cbn [app].
  rewrite filter_cons, decide_True by done. rewrite filter_nil. cbn [head].
  split; [reflexivity|].
  cbn [DetallesConciliacion.rfcs_procesados DetallesConciliacion.coincidencias
       DetallesConciliacion.rfcs DetallesConciliacion.sin_coincidencias
       DetallesConciliacion.datos_tecnicos DatosTecnicos.start_time DatosTecnicos.end_time
       DatosTecnicos.trigger_source ConciliacionHistorial.rfcs_procesados
       ConciliacionHistorial.coincidencias ConciliacionHistorial.fecha_conciliacion
       ConciliacionHistorial.duracion_ms ConciliacionHistorial.tipo_conciliacion].
  split_and!; try done.
  - by rewrite !length_fmap.
  - rewrite <- list_fmap_compose.
    match goal with
    | |- _ = Z.of_nat ?n =>
        assert (n = length (filter (λ d : string * string, ¬ no_es_centinela d) pares))
          as ->
    end.
    + apply length_filter_fmap_ext.
      intros [rfc estado]. cbn. rewrite resultado_detalle_sin_coincidencia.
      unfold no_es_centinela. cbn. split; [by intros -> ?|apply dec_stable].
    + rewrite (length_filter_particion no_es_centinela pares) at 1. lia.
  - by destruct (decide (tipo = "Manual")).
  - intros otro Hotro. rewrite filter_app, Hviejos. cbn [app].
    rewrite filter_cons, decide_False; [done|].
    cbn. intros [_ ?]. congruence.
Qed.

Lemma detalles_tras_conciliar_witness :
  ∃ s' res d,
    realizar_conciliacion 9 4 Muestra.sesion_general 1 "Manual" = (s', Retorna res)
    ∧ obtener_detalles_conciliacion s' 1 (Resumen.historial_id res) = Retorna d
    ∧ DetallesConciliacion.rfcs_procesados d = Resumen.rfcs_procesados res.
Proof.
  destruct (detalles_tras_conciliar 9 4 Muestra.sesion_general 1 "Manual"
              (Muestra.tenant_con_limite 1 (Some 2%Z)))
    as (s' & res & d & Hrun & Hdet & Hn & _).
  - vm_compute. reflexivity.
  - cbn. lia.
  - split; apply (bool_decide_unpack _); vm_compute; exact I.
  - exists s', res, d. split; [exact Hrun|]. split; [exact Hdet | exact Hn].
Defined.

(** ** Deleting the detail rows of a run *)

(** [delete_by_conciliacion_id] returns the number of detail rows the run
    had, leaves it with none, touches the detail rows of no other run and
    keeps every history row; applied to the run [realizar_conciliacion] has
    just recorded it returns [rfcs_procesados] and takes the table of
    detail rows back to what it was before the run. *)
Theorem delete_by_conciliacion_id_efecto session conciliacion_id :
  let borrado := delete_by_conciliacion_id session conciliacion_id in
  borrado.2 = length (get_by_conciliacion_id session conciliacion_id)
  ∧ get_by_conciliacion_id borrado.1 conciliacion_id = []
  ∧ (∀ otro, otro ≠ conciliacion_id →
       get_by_conciliacion_id borrado.1 otro = get_by_conciliacion_id session otro)
  ∧ conciliacion_historial (transaccion borrado.1)
    = conciliacion_historial (transaccion session)
  ∧ confirmado borrado.1 = transaccion borrado.1
  ∧ ∀ ahora duracion anterior tenant_id tipo tenant res,
      tenant_por_id (transaccion anterior) tenant_id = Some tenant →
      match limite_del_plan tenant with Some L => (0 <= L)%Z | None => True end →
      uuid4_fresco anterior →
      realizar_conciliacion ahora duracion anterior tenant_id tipo = (session, Retorna res) →
      conciliacion_id = Resumen.historial_id res →
      borrado.2 = Resumen.rfcs_procesados res
      ∧ resultado_conciliaciones (transaccion borrado.1)
        = resultado_conciliaciones (transaccion anterior).
Proof.
  intros borrado. unfold borrado, delete_by_conciliacion_id, get_by_conciliacion_id.
  cbn [fst snd commit escribir confirmado transaccion con_resultado_conciliaciones
       resultado_conciliaciones conciliacion_historial].
  split_and!; try done.
  - rewrite list_filter_filter. apply filter_nil_Forall, Forall_forall. tauto.
  - intros otro Hotro. rewrite list_filter_filter. apply filter_ext_elem.
    intros d _. split; [tauto|]. intros <-. done.
  - intros ahora duracion anterior tenant_id tipo tenant res Ht HL [Hfh Hfd] Hrun ->.
    destruct (realizar_conciliacion_efecto ahora duracion anterior tenant_id tipo tenant
                Ht HL) as (pares & version & s' & Hrun' & Htrans).
    cbv zeta in Hrun', Htrans. rewrite Hrun in Hrun'. injection Hrun' as -> ->.
    rewrite Htrans.
    cbn [resultado_conciliaciones Resumen.historial_id Resumen.rfcs_procesados].
    rewrite (filter_detalles_del_run _ _ _ Hfd), length_fmap. split; [done|].
    rewrite filter_app.
    rewrite (filter_nil_Forall _ (_ <$> pares)).
    2:{ apply Forall_forall. intros d (par & -> & _)%list_elem_of_fmap. cbn. tauto. }
    rewrite app_nil_r. apply filter_todos.
    intros d Hd. rewrite Forall_forall in Hfd. specialize (Hfd d Hd). cbn in Hfd. lia.
Qed.

Lemma delete_by_conciliacion_id_efecto_witness :
  let run := realizar_conciliacion 9 4 Muestra.sesion_general 1 "Manual" in
  (delete_by_conciliacion_id run.1 5000).2 = 2
  ∧ resultado_conciliaciones (transaccion (delete_by_conciliacion_id run.1 5000).1) = [].
Proof.
  intros run.
  destruct (delete_by_conciliacion_id_efecto run.1 5000) as (_ & _ & _ & _ & _ & Hrun).
  destruct (Hrun 9%Z 4%Z Muestra.sesion_general 1 "Manual"
              (Muestra.tenant_con_limite 1 (Some 2%Z))
              (Resumen.mk 9 "Manual" "2024-01-01" 2 1 "completado" 2 1 1 None None 5000))
    as [Hn Hres].
  - vm_compute. reflexivity.
  - cbn. lia.
  - split; apply (bool_decide_unpack _); vm_compute; exact I.
  - vm_compute. reflexivity.
  - reflexivity.
  - split; [exact Hn | exact Hres].
Defined.

(** ** The paginated listing *)

(** The listing before it is cut into pages. *)
Lemma listar_proveedores_paginado_eq session tenant_id (pagina por_pagina : Z) :
  (1 <= pagina)%Z → (0 < por_pagina)%Z →
  unicidad_proveedores (transaccion session) →
  let db := transaccion session in
  let del_tenant :=
    filter (λ rel, TenantProveedor.tenant_id rel = tenant_id) (tenant_proveedores db) in
  listar_proveedores_paginado session tenant_id pagina por_pagina
  = PaginaProveedores.mk
      (fila_proveedor
         <$> take (Z.to_nat por_pagina)
               (drop (Z.to_nat ((pagina - 1) * por_pagina))
                     (fila_sat (proveedores db) <$> del_tenant)))
      (length del_tenant) pagina por_pagina
      ((Z.of_nat (length del_tenant) + por_pagina - 1) / por_pagina)%Z.
Proof.
  intros Hp Hn Huni db del_tenant. unfold listar_proveedores_paginado, offset, limit.
  fold db. fold del_tenant.
  destruct (Z.ltb_spec ((pagina - 1) * por_pagina) 0) as [|_]; [nia|].
  destruct (Z.ltb_spec por_pagina 0) as [|_]; [lia|].
  rewrite decide_False by lia.
  rewrite (outerjoin_unico _ _ Huni), filter_fmap_l. done.
Qed.

(** With a page number from 1 and a positive page size, the listing
    reports the number of relations of the tenant and the number of pages
    that holds them; page [pagina] carries the relations from position
    [(pagina - 1) * por_pagina] on, at most [por_pagina] of them, and is
    empty exactly when [pagina] is past the last page. *)
Theorem paginas_de_proveedores session tenant_id (pagina por_pagina : Z) :
  (1 <= pagina)%Z → (0 < por_pagina)%Z →
  unicidad_proveedores (transaccion session) →
  let p := listar_proveedores_paginado session tenant_id pagina por_pagina in
  let total := Z.of_nat (get_tenant_proveedores_count session tenant_id) in
  Z.of_nat (PaginaProveedores.total p) = total
  ∧ ((PaginaProveedores.total_paginas p - 1) * por_pagina < total
     <= PaginaProveedores.total_paginas p * por_pagina)%Z
  ∧ Z.of_nat (length (PaginaProveedores.proveedores p))
    = (0 `max` (por_pagina `min` (total - (pagina - 1) * por_pagina)))%Z
  ∧ (PaginaProveedores.proveedores p = [] ↔ (PaginaProveedores.total_paginas p < pagina)%Z).
Proof.
  intros Hp Hn Huni p total. unfold p, total, get_tenant_proveedores_count.
  rewrite (listar_proveedores_paginado_eq _ _ _ _ Hp Hn Huni).
  cbn [PaginaProveedores.total PaginaProveedores.total_paginas PaginaProveedores.proveedores].
  set (del_tenant := filter _ _). set (t := Z.of_nat (length del_tenant)).
  assert (Ht : (0 <= t)%Z) by lia.
  assert (Hq : ((t + por_pagina - 1) / por_pagina * por_pagina <= t + por_pagina - 1
                < ((t + por_pagina - 1) / por_pagina + 1) * por_pagina)%Z).
  { pose proof (Z.div_mod (t + por_pagina - 1) por_pagina ltac:(lia)) as Hdm.
    pose proof (Z.mod_pos_bound (t + por_pagina - 1) por_pagina Hn). nia. }
  set (q := ((t + por_pagina - 1) / por_pagina)%Z) in *.
  assert (Hlen : Z.of_nat (length (fila_proveedor
                   <$> take (Z.to_nat por_pagina)
                         (drop (Z.to_nat ((pagina - 1) * por_pagina))
                               (fila_sat (proveedores (transaccion session)) <$> del_tenant))))
                 = (0 `max` (por_pagina `min` (t - (pagina - 1) * por_pagina)))%Z).
  { rewrite length_fmap, length_take, length_drop, length_fmap. unfold t. nia. }
  split_and!; [done|nia|nia|exact Hlen|].
  rewrite <- length_zero_iff_nil. split; intros H.
  - rewrite H in Hlen. nia.
  - assert (Hz : Z.of_nat (length (fila_proveedor
                   <$> take (Z.to_nat por_pagina)
                         (drop (Z.to_nat ((pagina - 1) * por_pagina))
                               (fila_sat (proveedores (transaccion session)) <$> del_tenant))))
                 = 0%Z) by (rewrite Hlen; nia).
    lia.
Qed.

(** Tenant 1 of the sample has four relations: with three per page the
    second page is the last and holds one. *)
Lemma paginas_de_proveedores_witness :
  let p := listar_proveedores_paginado Muestra.sesion_general 1 2 3 in
  Z.of_nat (PaginaProveedores.total p) = 4%Z
  ∧ Z.of_nat (length (PaginaProveedores.proveedores p)) = 1%Z.
Proof.
  intros p.
  destruct (paginas_de_proveedores Muestra.sesion_general 1 2 3) as (Ht & _ & Hl & _).
  - lia.
  - lia.
  - apply (bool_decide_unpack _). vm_compute. exact I.
  - split; [exact Ht | exact Hl].
Defined.

(** A page number below 1 or a page size that is not positive never
    raises: the query is refused, or the number of pages divides by zero,
    and the listing answers with an empty page that reports no relation at
    all, whatever the tenant has. *)
Theorem pagina_invalida session tenant_id (pagina por_pagina : Z) :
  (pagina < 1)%Z ∨ (por_pagina <= 0)%Z →
  listar_proveedores_paginado session tenant_id pagina por_pagina
  = PaginaProveedores.mk [] 0 pagina por_pagina 0.
Proof.
  intros Hmal. unfold listar_proveedores_paginado, offset, limit.
  destruct (Z.ltb_spec ((pagina - 1) * por_pagina) 0) as [|Hoff]; [done|].
  destruct (Z.ltb_spec por_pagina 0) as [|Hlim]; [done|].
  destruct (decide (por_pagina = 0%Z)); [done|]. nia.
Qed.

Lemma pagina_invalida_witness :
  listar_proveedores_paginado Muestra.sesion_general 1 1 0
  = PaginaProveedores.mk [] 0 1 0 0.
Proof.
  apply (pagina_invalida Muestra.sesion_general 1 1 0). right. lia.
Defined.

(** ** Adding a supplier and removing it again *)



(** ** The history of a tenant *)

(** [get_historial_by_tenant] lists runs of the tenant only, the most
    recent first, as many as asked for when the tenant has that many; its
    first row is the run [get_ultima_conciliacion] returns. A negative
    limit is not caught here: the refusal of the database is raised. *)
Theorem historial_del_tenant session tenant_id (L : Z) :
  let del_tenant :=
    filter (λ h, ConciliacionHistorial.tenant_id h = tenant_id)
           (conciliacion_historial (transaccion session)) in
  ((0 <= L)%Z →
   ∃ runs,
     get_historial_by_tenant session tenant_id (Some L) = Retorna runs
     ∧ StronglySorted mas_reciente_primero runs
     ∧ runs ⊆ del_tenant
     ∧ length runs = Z.to_nat L `min` length del_tenant
     ∧ ((0 < L)%Z → head runs = get_ultima_conciliacion session tenant_id))
  ∧ ((L < 0)%Z →
     get_historial_by_tenant session tenant_id (Some L)
     = Lanza (SQLAlchemyError "LIMIT must not be negative")).
Proof.
  intros del_tenant. unfold get_historial_by_tenant, get_ultima_conciliacion, limit.
  fold del_tenant.
  pose proof (merge_sort_Permutation mas_reciente_primero del_tenant) as Hperm.
  pose proof (StronglySorted_merge_sort mas_reciente_primero del_tenant) as Hsort.
  set (ordenadas := merge_sort mas_reciente_primero del_tenant) in *.
  split; intros HL; destruct (Z.ltb_spec L 0) as [|]; try lia; [|done].
  eexists. split; [reflexivity|]. split_and!.
  - rewrite <- (take_drop (Z.to_nat L) ordenadas) in Hsort.
    by apply StronglySorted_app_1_l in Hsort.
  - intros h Hh. rewrite <- Hperm. by eapply subseteq_take.
  - by rewrite length_take, Hperm.
  - intros Hpos. destruct (Z.to_nat L) as [|n] eqn:E; [lia|]. by destruct ordenadas.
Qed.

Lemma historial_del_tenant_witness :
  let s1 := (realizar_conciliacion 9 4 Muestra.sesion_general 1 "Manual").1 in
  ∃ runs,
    get_historial_by_tenant s1 1 (Some 10%Z) = Retorna runs
    ∧ length runs = 1
    ∧ get_historial_by_tenant s1 1 (Some (-1)%Z)
      = Lanza (SQLAlchemyError "LIMIT must not be negative").
Proof.
  intros s1.
  destruct (historial_del_tenant s1 1 10) as [Hpos _].
  destruct (historial_del_tenant s1 1 (-1)) as [_ Hneg].
  destruct (Hpos ltac:(lia)) as (runs & Hruns & _ & _ & Hlen & _).
  exists runs. split; [exact Hruns|]. split; [exact Hlen | exact (Hneg ltac:(lia))].
Defined.

(** Power Query reads the run [get_ultima_conciliacion] returns: it answers
    with nothing exactly when the tenant has no run, and otherwise with the
    id of that run and one line per detail row of it, in the order of
    [get_by_conciliacion_id]. *)
Theorem power_query_lee_la_ultima session tenant_id :
  match obtener_ultima_conciliacion_power_query session tenant_id with
  | None =>
      get_ultima_conciliacion session tenant_id = None
      ∧ filter (λ h, ConciliacionHistorial.tenant_id h = tenant_id)
               (conciliacion_historial (transaccion session)) = []
  | Some pq =>
      ConciliacionHistorial.id <$> get_ultima_conciliacion session tenant_id
      = Some (PowerQuery.conciliacion_id pq)
      ∧ (λ f, ConciliacionDetalle.mk (PowerQuery.conciliacion_id pq)
                (FilaRFC.rfc f) (FilaRFC.estado f)) <$> PowerQuery.rfcs pq
        = get_by_conciliacion_id session (PowerQuery.conciliacion_id pq)
      ∧ Forall (λ f, FilaRFC.resultado f = "Sin coincidencia"
                     ↔ FilaRFC.estado f = NO_ENCONTRADO)
               (PowerQuery.rfcs pq)
  end.
Proof.
  unfold obtener_ultima_conciliacion_power_query, get_ultima_conciliacion,
    get_by_conciliacion_id.
  pose proof (head_merge_sort_maximo
                (filter (λ h, ConciliacionHistorial.tenant_id h = tenant_id)
                        (conciliacion_historial (transaccion session)))) as Hmax.
  destruct (head _) as [h|]; [|done].
  cbn [PowerQuery.conciliacion_id PowerQuery.rfcs fmap option_fmap option_map].
  split_and!; [done| |].
  - rewrite <- list_fmap_compose. rewrite <- (list_fmap_id (filter _ _)) at 2.
    apply list_fmap_ext. intros i d Hd.
    apply list_elem_of_lookup_2, list_elem_of_filter in Hd as [Hid _].
    destruct d as [cid rfc estado]. cbn in Hid |- *. by rewrite Hid.
  - apply Forall_fmap, Forall_forall. intros d _. cbn.
    apply resultado_power_query_sin_coincidencia.
Qed.

(** ** Switching a relation in the repository *)

Lemma get_by_tenant_and_rfc_transaccion s s' tenant_id rfc :
  transaccion s = transaccion s' →
  get_by_tenant_and_rfc s tenant_id rfc = get_by_tenant_and_rfc s' tenant_id rfc.
Proof. unfold get_by_tenant_and_rfc. by intros ->. Qed.

(** [update_estado_operativo] sets the flag of the relation it finds and
    checks nothing else, the burst ceiling included: the new flag is what
    the session reads afterwards, durably if a commit was asked for and
    within the open transaction if not. Switching a relation off through
    the service leaves the session as the repository does with a commit. *)
Theorem update_estado_operativo_efecto session tenant_id rfc activo commit_ relation :
  get_by_tenant_and_rfc session tenant_id rfc = Some relation →
  ∃ s' actualizada,
    update_estado_operativo session tenant_id rfc activo commit_ = (s', Some actualizada)
    ∧ TenantProveedor.activo actualizada = activo
    ∧ TenantProveedor.id actualizada = TenantProveedor.id relation
    ∧ TenantProveedor.activo <$> get_by_tenant_and_rfc s' tenant_id rfc = Some activo
    ∧ confirmado s' = (if commit_ then transaccion s' else confirmado session)
    ∧ (actualizar_estado_operativo_rfc session tenant_id rfc false).1
      = (update_estado_operativo session tenant_id rfc false true).1.
Proof.
  intros Hget. unfold update_estado_operativo, actualizar_estado_operativo_rfc.
  pose proof Hget as Hget'. unfold get_by_tenant_and_rfc in Hget'. rewrite Hget', Hget.
  eexists _, _. split; [reflexivity|]. cbn [TenantProveedor.activo TenantProveedor.id].
  split_and!; [done|done| |by destruct commit_|done].
  rewrite <- (get_by_tenant_and_rfc_fijar_activo session tenant_id rfc relation activo Hget).
  f_equal. apply get_by_tenant_and_rfc_transaccion. by destruct commit_.
Qed.

(** Tenant 1 of the sample holds three active relations against a ceiling
    of 2 and the repository still switches the fourth on. *)
Lemma update_estado_operativo_efecto_witness :
  ∃ s' actualizada,
    update_estado_operativo Muestra.sesion_general 1 "AAA010101AA2" true false
    = (s', Some actualizada)
    ∧ TenantProveedor.activo <$> get_by_tenant_and_rfc s' 1 "AAA010101AA2" = Some true
    ∧ confirmado s' = confirmado Muestra.sesion_general.
Proof.
  destruct (update_estado_operativo_efecto Muestra.sesion_general 1 "AAA010101AA2" true false
              (Muestra.relacion 1 2 false 5))
    as (s' & actualizada & Hup & _ & _ & Hget & Hconf & _).
  - vm_compute. reflexivity.
  - exists s', actualizada. split; [exact Hup|]. split; [exact Hget | exact Hconf].
Defined.

(** ** What a reconciliation leaves alone *)

Lemma solo_agrega_refl s : solo_agrega s s.
Proof.
  split_and!; try done. exists [], []. rewrite !app_nil_r. split_and!; [done|done|cbn; lia|done].
Qed.

Lemma solo_agrega_guardar_conciliacion ahora duracion session tenant_id tipo version total
    encontrados detalles :
  solo_agrega session
    (guardar_conciliacion ahora duracion session tenant_id tipo version total encontrados
       detalles).1.
Proof.
  destruct (guardar_conciliacion_efecto ahora duracion session tenant_id tipo version total
              encontrados detalles) as (_ & Htrans & Hconf).
  cbv zeta in Htrans. split_and!; [done|by rewrite Htrans..|].
  eexists [_], _. rewrite Htrans. cbn [conciliacion_historial resultado_conciliaciones].
  split_and!; [done|done|done|].
  apply Forall_fmap, Forall_forall. intros d _. cbn. left.
Qed.



(** * Properties of the routes *)

Lemma preparar_proveedores_spec proveedores validos :
  Rutas.preparar_proveedores proveedores validos
  = validos ++ (entrada_de <$> filter item_valido proveedores).
Proof.
  revert validos. induction proveedores as [|p ps IH]; intros validos;
    cbn [Rutas.preparar_proveedores]; [by rewrite app_nil_r|].
  rewrite filter_cons.
  destruct (longitud_valida _) eqn:Hl; destruct (isalnum _) eqn:Ha; cbn [negb orb].
  - rewrite decide_True by done. rewrite IH, fmap_cons, <- app_assoc. done.
  - rewrite decide_False by (intros [_ ?]; congruence). apply IH.
  - rewrite decide_False by (intros [? _]; congruence). apply IH.
  - rewrite decide_False by (intros [? _]; congruence). apply IH.
Qed.

Lemma rfcs_validos_entrada_de (proveedores : list ProveedorItemDTO.t) :
  rfcs_validos (entrada_de <$> filter item_valido proveedores)
  = (λ p, normalizar (ProveedorItemDTO.rfc p)) <$> filter item_valido proveedores.
Proof.
  unfold rfcs_validos. rewrite <- list_fmap_compose.
  rewrite filter_fmap_l. rewrite filter_todos.
  - apply list_fmap_ext. intros i p _.
    unfold rfc_de, id. cbn [compose entrada_de Entrada.rfc default from_option]. unfold id. apply normalizar_idemp.
  - intros p [[Hl _] _]%list_elem_of_filter.
    unfold rfc_de, id. cbn [compose entrada_de Entrada.rfc default from_option]. unfold id. by rewrite normalizar_idemp.
Qed.

Lemma agregar_proveedores_batch_rfcs ahora session tenant_id proveedores limite_rfcs s' res :
  agregar_proveedores_batch ahora session tenant_id proveedores limite_rfcs = (s', Retorna res) →
  Resultado.rfc <$> res = rfcs_validos proveedores.
Proof.
  intros Heq. destruct (decide (rfcs_validos proveedores = [])) as [Hnil|Hne].
  - unfold agregar_proveedores_batch in Heq.
    pose proof (extraer_rfcs_fst proveedores [] ∅) as Hfst.
    destruct (extraer_rfcs proveedores [] ∅) as [rfcs_norm razones].
    simpl in Hfst. rewrite Hnil in Hfst. subst rfcs_norm. simplify_eq.
    by rewrite Hnil.
  - destruct (tenant_por_id (transaccion session) tenant_id) as [tenant|] eqn:Hten.
    + rewrite (agregar_proveedores_batch_eq _ _ _ _ _ tenant Hne Hten) in Heq.
      cbv zeta in Heq.
      destruct (nuevo_de _ <$> _); simplify_eq; apply rfcs_ordenar_resultados.
    + unfold agregar_proveedores_batch in Heq.
      pose proof (extraer_rfcs_fst proveedores [] ∅) as Hfst.
      destruct (extraer_rfcs proveedores [] ∅) as [rfcs_norm razones].
      simpl in Hfst. subst rfcs_norm.
      destruct (rfcs_validos proveedores); [done|]. rewrite Hten in Heq.
      by simplify_eq.
Qed.

(** On a plan without limit the route that adds suppliers adds none: the
    limit it reads is [None], the service raises on [None * 0.15], and the
    route rolls back and answers 500, whatever valid RFCs the request
    carries. *)
Theorem ruta_agregar_con_plan_sin_limite ahora db current_tenant request tenant plan :
  tenant_por_id (transaccion db) (Tenant.id current_tenant) = Some tenant →
  Tenant.plan tenant = Some plan →
  Plan.limite_proveedores plan = None →
  (∃ proveedor, proveedor ∈ request ∧ item_valido proveedor) →
  Rutas.agregar_proveedor ahora db current_tenant request
  = (rollback db,
     HTTPException 500
       "Error agregando proveedores: unsupported operand type(s) for *: 'NoneType' and 'float'").
Proof.
  intros Ht Hplan Hlim (p & Hp & Hv).
  unfold Rutas.agregar_proveedor. rewrite preparar_proveedores_spec. cbn [app].
  assert (Hin : p ∈ filter item_valido request) by (by apply list_elem_of_filter).
  destruct (filter item_valido request) as [|q qs] eqn:Hf; [by apply elem_of_nil in Hin|].
  rewrite fmap_cons. rewrite <- fmap_cons, <- Hf.
  destruct (entrada_de <$> filter item_valido request) as [|e es] eqn:He.
  { rewrite Hf, fmap_cons in He. done. }
  rewrite <- He.
  unfold get_tenant_usage. rewrite Ht, Hplan, Hlim.
  unfold Rutas.agregar_proveedores_batch_con_limite.
  rewrite extraer_rfcs_fst, rfcs_validos_entrada_de, Hf, Ht. cbn [app fmap list_fmap].
  reflexivity.
Qed.

Lemma ruta_agregar_con_plan_sin_limite_witness :
  (Rutas.agregar_proveedor 7 Muestra.sesion_general (Muestra.tenant_con_limite 3 None)
     [ProveedorItemDTO.mk "AAA010101AA9" None]).2
  = HTTPException 500
      "Error agregando proveedores: unsupported operand type(s) for *: 'NoneType' and 'float'".
Proof.
  rewrite (ruta_agregar_con_plan_sin_limite 7 Muestra.sesion_general
             (Muestra.tenant_con_limite 3 None) [ProveedorItemDTO.mk "AAA010101AA9" None]
             (Muestra.tenant_con_limite 3 None) (Plan.mk None)).
  - reflexivity.
  - vm_compute. reflexivity.
  - reflexivity.
  - reflexivity.
  - eexists. split; [left|]. split; vm_compute; reflexivity.
Defined.








